(** * gz-mujoco: geometry and world-body converters between MJCF and SDFormat

    A shallow embedding of

    - [mjcf_to_sdformat/converters/geometry.py]
      ([mjcf_geom_to_sdf], [mjcf_visual_to_sdf], [mjcf_collision_to_sdf]
      and the module counters [VISUAL_NUMBER], [COLLISION_NUMBER]),
    - [sdformat_mjcf/converters/geometry.py]
      ([add_geometry], [add_collision]),
    - [mjcf_to_sdformat/converters/world.py]
      ([mjcf_worldbody_to_sdf] and its inner [iterate_bodies]),

    followed by the properties of the specification that concern them
    and by further properties of the same functions.

    Conventions of the embedding.

    - A Python call either returns a value or raises: [Py.result A] is
      [Py.exn + A].  A value that may be [None] is an [option].
    - Python floats are IEEE-754 binary64 numbers, taken from the
      Standard Library's [SpecFloat] with [prec = 53], [emax = 1024].
    - Module-level variables are threaded explicitly
      ([MjcfToSdf.Globals]); mutable objects handed to a function
      (an MJCF body, an SDFormat model or world) are returned updated.
    - SDFormat containers ([Model], [World], [Link]) record the ordered
      sequence of [add_*] calls made on them. *)

From Stdlib Require Import ZArith NArith List String Bool Sorted Lia.
From Stdlib Require Import SpecFloat.
From Stdlib Require Import DecimalString DecimalN.
Import ListNotations.

Set Implicit Arguments.
Set Warnings "-register-all,-notation-for-abbreviation".

(* ===================================================================== *)
(** ** Python values, exceptions and subscripting *)
(* ===================================================================== *)

Module Py.

(** The exception classes the converters can raise. *)
Inductive exn : Type :=
| RuntimeError (msg : string)
| IndexError
| TypeError
| AttributeError (msg : string).

Definition result (A : Type) : Type := (exn + A)%type.

Definition ret {A : Type} (a : A) : result A := inr a.
Definition raise {A : Type} (e : exn) : result A := inl e.

Definition bind {A B : Type} (c : result A) (k : A -> result B) : result B :=
  match c with
  | inl e => inl e
  | inr a => k a
  end.

Definition returns {A : Type} (c : result A) : bool :=
  match c with inr _ => true | inl _ => false end.

(** [xs[i]] for a constant index [i >= 0]: [None[i]] is a [TypeError],
    an index past the end an [IndexError]. *)
Definition subscript {A : Type} (xs : option (list A)) (i : nat) : result A :=
  match xs with
  | None => raise TypeError
  | Some l =>
      match nth_error l i with
      | Some x => ret x
      | None => raise IndexError
      end
  end.

(** [str(n)] for a non-negative integer: its decimal digits. *)
Definition str (n : N) : string := NilEmpty.string_of_uint (N.to_uint n).

(** How an f-string renders an optional string attribute. *)
Definition fmt (s : option string) : string :=
  match s with
  | Some x => x
  | None => "None"
  end.

(** [a == "literal"] where [a] may be [None]. *)
Definition eq_str (a : option string) (lit : string) : bool :=
  match a with
  | Some x => String.eqb x lit
  | None => false
  end.

Definition is_None {A : Type} (a : option A) : bool :=
  match a with None => true | Some _ => false end.

End Py.

Declare Scope py_scope.
Delimit Scope py_scope with py.
Notation "x <- c ;; k" := (Py.bind c (fun x => k))
  (at level 61, c at next level, right associativity) : py_scope.

(* ===================================================================== *)
(** ** binary64 floating-point numbers *)
(* ===================================================================== *)

Module F64.

Definition prec : Z := 53.
Definition emax : Z := 1024.

Definition float : Type := spec_float.

Definition mul : float -> float -> float := SFmul prec emax.
Definition div : float -> float -> float := SFdiv prec emax.
Definition add : float -> float -> float := SFadd prec emax.
Definition sub : float -> float -> float := SFsub prec emax.
Definition sqrt : float -> float := SFsqrt prec emax.

Definition zero : float := S754_zero false.
Definition one : float := S754_finite false 4503599627370496 (-52).
Definition two : float := S754_finite false 4503599627370496 (-51).

(** The largest finite binary64 number, (2 - 2^-52) * 2^1023. *)
Definition max_float : float := S754_finite false 9007199254740991 971.

(** A well-formed binary64 datum (canonical mantissa and exponent). *)
Definition valid (x : float) : bool := valid_binary prec emax x.

(** |x| < 2^1023, or [x] is not a finite non-zero number: doubling [x]
    does not overflow. *)
Definition below_2p1023 (x : float) : bool :=
  match x with
  | S754_finite _ _ e => Z.ltb e 971
  | _ => true
  end.

(** [x] is a multiple of 2^-1073, or is not a finite non-zero number:
    halving [x] loses no bit. *)
Definition halves_exactly (x : float) : bool :=
  match x with
  | S754_finite _ m e =>
      Z.ltb (-1074) e || match m with xO _ => true | _ => false end
  | _ => true
  end.

(** The sign bit of a number. *)
Definition sign (x : float) : bool :=
  match x with
  | S754_zero s | S754_infinity s | S754_finite s _ _ => s
  | S754_nan => false
  end.

End F64.

(* ===================================================================== *)
(** ** ignition.math vectors *)
(* ===================================================================== *)

Module Ign.

Record Vector2d : Type := mkVector2d { X2 : F64.float; Y2 : F64.float }.
Record Vector3d : Type :=
  mkVector3d { X3 : F64.float; Y3 : F64.float; Z3 : F64.float }.

(** [v * s] and [v / s] for a scalar [s]: component-wise. *)
Definition mul3 (v : Vector3d) (s : F64.float) : Vector3d :=
  mkVector3d (F64.mul (X3 v) s) (F64.mul (Y3 v) s) (F64.mul (Z3 v) s).

Definition div3 (v : Vector3d) (s : F64.float) : Vector3d :=
  mkVector3d (F64.div (X3 v) s) (F64.div (Y3 v) s) (F64.div (Z3 v) s).

Definition div2 (v : Vector2d) (s : F64.float) : Vector2d :=
  mkVector2d (F64.div (X2 v) s) (F64.div (Y2 v) s).

(** [v1.distance(v2)]: the Euclidean distance
    sqrt((x1-x2)^2 + (y1-y2)^2 + (z1-z2)^2), evaluated in binary64 from
    left to right. *)
Definition distance (v1 v2 : Vector3d) : F64.float :=
  let dx := F64.sub (X3 v1) (X3 v2) in
  let dy := F64.sub (Y3 v1) (Y3 v2) in
  let dz := F64.sub (Z3 v1) (Z3 v2) in
  F64.sqrt
    (F64.add (F64.add (F64.mul dx dx) (F64.mul dy dy)) (F64.mul dz dz)).

End Ign.

(* ===================================================================== *)
(** ** sdf_utils helpers *)
(* ===================================================================== *)

Module Su.
Import Py Ign.
Local Open Scope py_scope.

(** Modelled from the spec: [sdf_utils.list_to_vec3d] is not among the
    sources.  The specification's component-wise rule for sizes (4.1)
    fixes it as the conversion of a numeric list to a vector, component
    by component; reading a missing component raises as any subscript
    does. *)
Definition list_to_vec3d (l : option (list F64.float)) : result Vector3d :=
  x <- subscript l 0 ;;
  y <- subscript l 1 ;;
  z <- subscript l 2 ;;
  ret (mkVector3d x y z).

(** Modelled from the spec: [sdf_utils.vec3d_to_list] and
    [sdf_utils.vec2d_to_list], not among the sources either: the
    components of a vector, as a list. *)
Definition vec3d_to_list (v : Vector3d) : list F64.float := [X3 v; Y3 v; Z3 v].

Definition vec2d_to_list (v : Vector2d) : list F64.float := [X2 v; Y2 v].

(** The list is there and holds at least [n] numbers: the subscripts
    below [n] can be read. *)
Definition at_least (n : nat) (l : option (list F64.float)) : bool :=
  match l with
  | Some l => Nat.leb n (List.length l)
  | None => false
  end.

End Su.

(* ===================================================================== *)
(** ** SDFormat objects *)
(* ===================================================================== *)

Module Sdf.
Import Ign.

Inductive GeometryType : Type :=
| EMPTY | BOX | CYLINDER | PLANE | SPHERE | MESH | HEIGHTMAP
| CAPSULE | ELLIPSOID | POLYLINE.

(** How Python prints a member of the enumeration. *)
Definition GeometryType_str (t : GeometryType) : string :=
  match t with
  | EMPTY => "GeometryType.EMPTY"
  | BOX => "GeometryType.BOX"
  | CYLINDER => "GeometryType.CYLINDER"
  | PLANE => "GeometryType.PLANE"
  | SPHERE => "GeometryType.SPHERE"
  | MESH => "GeometryType.MESH"
  | HEIGHTMAP => "GeometryType.HEIGHTMAP"
  | CAPSULE => "GeometryType.CAPSULE"
  | ELLIPSOID => "GeometryType.ELLIPSOID"
  | POLYLINE => "GeometryType.POLYLINE"
  end.

(** The shapes, with the parameters the converters set and read. *)
Record Box : Type := mkBox { box_size : Vector3d }.
Record Capsule : Type :=
  mkCapsule { capsule_radius : F64.float; capsule_length : F64.float }.
Record Cylinder : Type :=
  mkCylinder { cylinder_radius : F64.float; cylinder_length : F64.float }.
Record Ellipsoid : Type := mkEllipsoid { ellipsoid_radii : Vector3d }.
Record Sphere : Type := mkSphere { sphere_radius : F64.float }.
Record Plane : Type := mkPlane { plane_size : Vector2d }.
Record Mesh : Type := mkMesh { mesh_uri : string }.

(** [sdf.Geometry]: a type tag and one optional slot per shape. *)
Record Geometry : Type := mkGeometry {
  type : GeometryType;
  box_shape : option Box;
  capsule_shape : option Capsule;
  cylinder_shape : option Cylinder;
  ellipsoid_shape : option Ellipsoid;
  plane_shape : option Plane;
  sphere_shape : option Sphere;
  mesh_shape : option Mesh
}.

(** [sdf.Geometry()] *)
Definition new_Geometry : Geometry :=
  mkGeometry EMPTY None None None None None None None.

Definition set_type (g : Geometry) (t : GeometryType) : Geometry :=
  mkGeometry t (box_shape g) (capsule_shape g) (cylinder_shape g)
    (ellipsoid_shape g) (plane_shape g) (sphere_shape g) (mesh_shape g).
Definition set_box_shape (g : Geometry) (s : Box) : Geometry :=
  mkGeometry (type g) (Some s) (capsule_shape g) (cylinder_shape g)
    (ellipsoid_shape g) (plane_shape g) (sphere_shape g) (mesh_shape g).
Definition set_capsule_shape (g : Geometry) (s : Capsule) : Geometry :=
  mkGeometry (type g) (box_shape g) (Some s) (cylinder_shape g)
    (ellipsoid_shape g) (plane_shape g) (sphere_shape g) (mesh_shape g).
Definition set_cylinder_shape (g : Geometry) (s : Cylinder) : Geometry :=
  mkGeometry (type g) (box_shape g) (capsule_shape g) (Some s)
    (ellipsoid_shape g) (plane_shape g) (sphere_shape g) (mesh_shape g).
Definition set_ellipsoid_shape (g : Geometry) (s : Ellipsoid) : Geometry :=
  mkGeometry (type g) (box_shape g) (capsule_shape g) (cylinder_shape g)
    (Some s) (plane_shape g) (sphere_shape g) (mesh_shape g).
Definition set_plane_shape (g : Geometry) (s : Plane) : Geometry :=
  mkGeometry (type g) (box_shape g) (capsule_shape g) (cylinder_shape g)
    (ellipsoid_shape g) (Some s) (sphere_shape g) (mesh_shape g).
Definition set_sphere_shape (g : Geometry) (s : Sphere) : Geometry :=
  mkGeometry (type g) (box_shape g) (capsule_shape g) (cylinder_shape g)
    (ellipsoid_shape g) (plane_shape g) (Some s) (mesh_shape g).
Definition set_mesh_shape (g : Geometry) (s : Mesh) : Geometry :=
  mkGeometry (type g) (box_shape g) (capsule_shape g) (cylinder_shape g)
    (ellipsoid_shape g) (plane_shape g) (sphere_shape g) (Some s).

(** Poses.  [SemanticPose] is what [semantic_pose()] hands to a pose
    resolver: the raw pose and the frame it is relative to. *)
Record Quaterniond : Type :=
  mkQuaterniond { qw : F64.float; qx : F64.float; qy : F64.float; qz : F64.float }.
Record Pose3d : Type := mkPose3d { pos : Vector3d; rot : Quaterniond }.
Record SemanticPose : Type :=
  mkSemanticPose { raw_pose : Pose3d; relative_to : string }.

Definition identity_pose : Pose3d :=
  mkPose3d (mkVector3d F64.zero F64.zero F64.zero)
           (mkQuaterniond F64.one F64.zero F64.zero F64.zero).

(** [sdf.Visual] and [sdf.Collision]: a name, the attached geometry
    ([None] when there is none) and a pose. *)
Record Visual : Type := mkVisual {
  visual_name : string;
  visual_geometry : option Geometry;
  visual_pose : SemanticPose
}.

Record Collision : Type := mkCollision {
  collision_name : string;
  collision_geometry : option Geometry;
  collision_pose : SemanticPose
}.

(** [sdf.Visual()], [sdf.Collision()] *)
Definition new_Visual : Visual :=
  mkVisual "" None (mkSemanticPose identity_pose "").
Definition new_Collision : Collision :=
  mkCollision "" None (mkSemanticPose identity_pose "").

Definition visual_set_name (v : Visual) (n : string) : Visual :=
  mkVisual n (visual_geometry v) (visual_pose v).
Definition visual_set_geometry (v : Visual) (g : Geometry) : Visual :=
  mkVisual (visual_name v) (Some g) (visual_pose v).
Definition collision_set_name (c : Collision) (n : string) : Collision :=
  mkCollision n (collision_geometry c) (collision_pose c).
Definition collision_set_geometry (c : Collision) (g : Geometry) : Collision :=
  mkCollision (collision_name c) (Some g) (collision_pose c).

(** [sdf.Plugin(filename, name)] *)
Record Plugin : Type := mkPlugin { plugin_filename : string; plugin_name : string }.

(** [sdf.Model] and [sdf.World], over the link, joint and light objects
    produced by the converters of other modules. *)
Section Containers.
Variables Link Joint Light : Type.

Record Model : Type := mkModel {
  model_name : string;
  static : bool;
  links : list Link;
  joints : list Joint
}.

(** [sdf.Model()] *)
Definition new_Model : Model := mkModel "" false [] [].

Definition set_name (m : Model) (n : string) : Model :=
  mkModel n (static m) (links m) (joints m).
Definition set_static (m : Model) (b : bool) : Model :=
  mkModel (model_name m) b (links m) (joints m).
Definition add_link (m : Model) (l : Link) : Model :=
  mkModel (model_name m) (static m) (links m ++ [l]) (joints m).
Definition add_joint (m : Model) (j : Joint) : Model :=
  mkModel (model_name m) (static m) (links m) (joints m ++ [j]).

Record World : Type := mkWorld {
  models : list Model;
  lights : list Light;
  plugins : list Plugin;
  gravity : Vector3d;
  magnetic_field : Vector3d;
  wind_linear_velocity : Vector3d
}.

Definition add_light (w : World) (l : Light) : World :=
  mkWorld (models w) (lights w ++ [l]) (plugins w) (gravity w)
    (magnetic_field w) (wind_linear_velocity w).
Definition add_model (w : World) (m : Model) : World :=
  mkWorld (models w ++ [m]) (lights w) (plugins w) (gravity w)
    (magnetic_field w) (wind_linear_velocity w).
Definition add_plugin (w : World) (p : Plugin) : World :=
  mkWorld (models w) (lights w) (plugins w ++ [p]) (gravity w)
    (magnetic_field w) (wind_linear_velocity w).
Definition set_gravity (w : World) (v : Vector3d) : World :=
  mkWorld (models w) (lights w) (plugins w) v
    (magnetic_field w) (wind_linear_velocity w).
Definition set_magnetic_field (w : World) (v : Vector3d) : World :=
  mkWorld (models w) (lights w) (plugins w) (gravity w)
    v (wind_linear_velocity w).
Definition set_wind_linear_velocity (w : World) (v : Vector3d) : World :=
  mkWorld (models w) (lights w) (plugins w) (gravity w)
    (magnetic_field w) v.
End Containers.

End Sdf.

(* ===================================================================== *)
(** ** MJCF elements *)
(* ===================================================================== *)

Module Mjcf.

(** A [geom] element.  Every attribute is optional. *)
Record Geom : Type := mkGeom {
  name : option string;
  type : option string;
  size : option (list F64.float);
  fromto : option (list F64.float);
  pos : option (list F64.float);
  euler : option (list F64.float);
  group : option Z
}.

Definition set_type (g : Geom) (t : string) : Geom :=
  mkGeom (name g) (Some t) (size g) (fromto g) (pos g) (euler g) (group g).
Definition set_size (g : Geom) (s : list F64.float) : Geom :=
  mkGeom (name g) (type g) (Some s) (fromto g) (pos g) (euler g) (group g).
Definition set_group (g : Geom) (n : Z) : Geom :=
  mkGeom (name g) (type g) (size g) (fromto g) (pos g) (euler g) (Some n).

(** A [body] element (the [worldbody] is one too): its name, its
    remaining attributes, and its children by tag.  The children other
    than geoms are converted by modules outside this development, so
    their types are left open. *)
Section Elements.
Variables Attrs Joint FreeJoint Camera Light : Type.

Inductive Body : Type := mkBody {
  body_name : option string;
  attrs : Attrs;
  geom : list Geom;
  joint : list Joint;
  freejoint : option FreeJoint;
  camera : list Camera;
  light : list Light;
  body : list Body
}.

(** Induction on a body, with the property at hand for its children. *)
Section Induction.
Variable P : Body -> Prop.
Hypothesis step :
  forall n a g j f c l children,
    Forall P children -> P (mkBody n a g j f c l children).

Fixpoint Body_nested_ind (b : Body) : P b :=
  match b with
  | mkBody n a g j f c l children =>
      step n a g j f c l
        ((fix all (bs : list Body) : Forall P bs :=
            match bs with
            | [] => Forall_nil P
            | x :: bs' => Forall_cons x (Body_nested_ind x) (all bs')
            end) children)
  end.
End Induction.

(** [body.add("geom", ...)]: the new element becomes the last geom
    child; it is designated by its position among the geoms. *)
Definition add_geom (b : Body) (g : Geom) : Body * nat :=
  (mkBody (body_name b) (attrs b) (geom b ++ [g]) (joint b) (freejoint b)
     (camera b) (light b) (body b),
   List.length (geom b)).

(** Assignments to the attributes of the geom child at position [h]. *)
Fixpoint update_nth (l : list Geom) (h : nat) (f : Geom -> Geom) : list Geom :=
  match l, h with
  | [], _ => []
  | g :: l', O => f g :: l'
  | g :: l', S h' => g :: update_nth l' h' f
  end.

Definition update_geom (b : Body) (h : nat) (f : Geom -> Geom) : Body :=
  mkBody (body_name b) (attrs b) (update_nth (geom b) h f) (joint b)
    (freejoint b) (camera b) (light b) (body b).

Definition get_geom (b : Body) (h : nat) : option Geom := nth_error (geom b) h.

(** The [option] element with the attributes read by the world
    converter, and the root element. *)
Record Option_ : Type := mkOption {
  flag_gravity : option string;
  option_gravity : option (list F64.float);
  option_magnetic : option (list F64.float);
  option_wind : option (list F64.float)
}.

Record RootElement : Type := mkRootElement {
  model : option string;
  worldbody : Body;
  option_ : option Option_
}.
End Elements.

End Mjcf.

(* ===================================================================== *)
(** ** mjcf_to_sdformat/converters/geometry.py *)
(* ===================================================================== *)

Module MjcfToSdf.
Import Py Ign.
Local Open Scope py_scope.
Local Open Scope string_scope.

(** The module-level variables.  They are bound to 0 when the module is
    loaded and live as long as the interpreter does. *)
Record Globals : Type := mkGlobals {
  VISUAL_NUMBER : N;
  COLLISION_NUMBER : N
}.

Definition module_load : Globals := mkGlobals 0 0.

(** The length of a capsule or cylinder: twice [size[1]], or the
    distance between the end points of [fromto] when it is given. *)
Definition segment_length (geom : Mjcf.Geom) : result F64.float :=
  match Mjcf.fromto geom with
  | None =>
      h <- subscript (Mjcf.size geom) 1 ;;
      ret (F64.mul h F64.two)
  | Some _ =>
      f0 <- subscript (Mjcf.fromto geom) 0 ;;
      f1 <- subscript (Mjcf.fromto geom) 1 ;;
      f2 <- subscript (Mjcf.fromto geom) 2 ;;
      let v1 := mkVector3d f0 f1 f2 in
      f3 <- subscript (Mjcf.fromto geom) 3 ;;
      f4 <- subscript (Mjcf.fromto geom) 4 ;;
      f5 <- subscript (Mjcf.fromto geom) 5 ;;
      let v2 := mkVector3d f3 f4 f5 in
      let length := distance v1 v2 in
      ret length
  end.

(** [mjcf_geom_to_sdf(geom)].  The value returned is written as an
    [option] so that "is it [None]?" can be asked of it. *)
Definition mjcf_geom_to_sdf (geom : Mjcf.Geom) : result (option Sdf.Geometry) :=
  let sdf_geometry := Sdf.new_Geometry in
  if eq_str (Mjcf.type geom) "box" then
    v <- Su.list_to_vec3d (Mjcf.size geom) ;;
    let box := Sdf.mkBox (mul3 v F64.two) in
    let sdf_geometry := Sdf.set_box_shape sdf_geometry box in
    let sdf_geometry := Sdf.set_type sdf_geometry Sdf.BOX in
    ret (Some sdf_geometry)
  else if eq_str (Mjcf.type geom) "capsule" then
    r <- subscript (Mjcf.size geom) 0 ;;
    l <- segment_length geom ;;
    let capsule := Sdf.mkCapsule r l in
    let sdf_geometry := Sdf.set_capsule_shape sdf_geometry capsule in
    let sdf_geometry := Sdf.set_type sdf_geometry Sdf.CAPSULE in
    ret (Some sdf_geometry)
  else if eq_str (Mjcf.type geom) "cylinder" then
    r <- subscript (Mjcf.size geom) 0 ;;
    l <- segment_length geom ;;
    let cylinder := Sdf.mkCylinder r l in
    let sdf_geometry := Sdf.set_cylinder_shape sdf_geometry cylinder in
    let sdf_geometry := Sdf.set_type sdf_geometry Sdf.CYLINDER in
    ret (Some sdf_geometry)
  else if eq_str (Mjcf.type geom) "ellipsoid" then
    v <- Su.list_to_vec3d (Mjcf.size geom) ;;
    let ellipsoid := Sdf.mkEllipsoid v in
    let sdf_geometry := Sdf.set_ellipsoid_shape sdf_geometry ellipsoid in
    let sdf_geometry := Sdf.set_type sdf_geometry Sdf.ELLIPSOID in
    ret (Some sdf_geometry)
  else if eq_str (Mjcf.type geom) "sphere" then
    r <- subscript (Mjcf.size geom) 0 ;;
    let sphere := Sdf.mkSphere r in
    let sdf_geometry := Sdf.set_sphere_shape sdf_geometry sphere in
    let sdf_geometry := Sdf.set_type sdf_geometry Sdf.SPHERE in
    ret (Some sdf_geometry)
  else if eq_str (Mjcf.type geom) "plane" then
    s0 <- subscript (Mjcf.size geom) 0 ;;
    s1 <- subscript (Mjcf.size geom) 1 ;;
    let plane := Sdf.mkPlane (mkVector2d (F64.mul s0 F64.two) (F64.mul s1 F64.two)) in
    let sdf_geometry := Sdf.set_plane_shape sdf_geometry plane in
    let sdf_geometry := Sdf.set_type sdf_geometry Sdf.PLANE in
    ret (Some sdf_geometry)
  else
    raise (RuntimeError
             ("Encountered unsupported shape type " ++ fmt (Mjcf.type geom))).

(** [mjcf_visual_to_sdf(geom)] and [mjcf_collision_to_sdf(geom)].  Both
    look [mjcf_geom_to_sdf] up by name when they run; the converter is
    an argument of the [_with] versions so that each branch on its
    result can be followed. *)
Section Callers.
Variable geom_to_sdf : Mjcf.Geom -> result (option Sdf.Geometry).

Definition mjcf_visual_to_sdf_with (geom : Mjcf.Geom) (g : Globals)
  : result (option Sdf.Visual) * Globals :=
  let visual := Sdf.new_Visual in
  let '(visual, g) :=
    match Mjcf.name geom with
    | Some n => (Sdf.visual_set_name visual ("visual_" ++ n), g)
    | None =>
        (Sdf.visual_set_name visual
           ("unnamed_visual_" ++ str (VISUAL_NUMBER g)),
         mkGlobals (VISUAL_NUMBER g + 1) (COLLISION_NUMBER g))
    end in
  (sdf_geometry <- geom_to_sdf geom ;;
   match sdf_geometry with
   | Some sdf_geometry => ret (Some (Sdf.visual_set_geometry visual sdf_geometry))
   | None => ret None
   end,
   g).

Definition mjcf_collision_to_sdf_with (geom : Mjcf.Geom) (g : Globals)
  : result (option Sdf.Collision) * Globals :=
  let col := Sdf.new_Collision in
  let '(col, g) :=
    match Mjcf.name geom with
    | Some n => (Sdf.collision_set_name col ("collision_" ++ n), g)
    | None =>
        (Sdf.collision_set_name col
           ("unnamed_collision_" ++ str (COLLISION_NUMBER g)),
         mkGlobals (VISUAL_NUMBER g) (COLLISION_NUMBER g + 1))
    end in
  (sdf_geometry <- geom_to_sdf geom ;;
   match sdf_geometry with
   | Some sdf_geometry => ret (Some (Sdf.collision_set_geometry col sdf_geometry))
   | None => ret None
   end,
   g).
End Callers.

Definition mjcf_visual_to_sdf : Mjcf.Geom -> Globals -> result (option Sdf.Visual) * Globals :=
  mjcf_visual_to_sdf_with mjcf_geom_to_sdf.

Definition mjcf_collision_to_sdf : Mjcf.Geom -> Globals -> result (option Sdf.Collision) * Globals :=
  mjcf_collision_to_sdf_with mjcf_geom_to_sdf.

(** *** Sequences of calls *)

(** The two converters side by side: an attachment has a role, which
    tells the converter that is called for it, and an element comes
    back. *)
Inductive Role : Type := VisualRole | CollisionRole.

Inductive Element : Type :=
| EVisual (v : Sdf.Visual)
| ECollision (c : Sdf.Collision).

Definition element_name (e : Element) : string :=
  match e with
  | EVisual v => Sdf.visual_name v
  | ECollision c => Sdf.collision_name c
  end.

Definition element_role (e : Element) : Role :=
  match e with
  | EVisual _ => VisualRole
  | ECollision _ => CollisionRole
  end.

Definition element_geometry (e : Element) : option Sdf.Geometry :=
  match e with
  | EVisual v => Sdf.visual_geometry v
  | ECollision c => Sdf.collision_geometry c
  end.

(** One call: of [mjcf_visual_to_sdf] or of [mjcf_collision_to_sdf]. *)
Definition call (role : Role) (geom : Mjcf.Geom) (g : Globals)
  : result (option Element) * Globals :=
  match role with
  | VisualRole =>
      let '(r, g') := mjcf_visual_to_sdf geom g in
      (v <- r ;; ret (option_map EVisual v), g')
  | CollisionRole =>
      let '(r, g') := mjcf_collision_to_sdf geom g in
      (c <- r ;; ret (option_map ECollision c), g')
  end.

(** Calls made one after the other in one interpreter: what each call
    returned or raised, and the module variables after the last one.
    A conversion run makes such a sequence of calls, one for each geom
    it converts. *)
Fixpoint calls (cs : list (Role * Mjcf.Geom)) (g : Globals)
  : list (result (option Element)) * Globals :=
  match cs with
  | [] => ([], g)
  | (role, geom) :: rest =>
      let '(r, g') := call role geom g in
      let '(rs, g'') := calls rest g' in
      (r :: rs, g'')
  end.

End MjcfToSdf.

(* ===================================================================== *)
(** ** sdformat_mjcf/converters/geometry.py *)
(* ===================================================================== *)

Module SdfToMjcf.
Import Py Ign.
Local Open Scope py_scope.
Local Open Scope string_scope.

Definition COLLISION_GEOM_GROUP : Z := 3.
Definition VISUAL_GEOM_GROUP : Z := 0.

Section Converters.
(** The element types of the MJCF tree the geoms are added to. *)
Variables Attrs Joint FreeJoint Camera Light : Type.
Local Notation Body := (Mjcf.Body Attrs Joint FreeJoint Camera Light).

(** [sdf_utils.quat_to_euler_list], from a module outside this
    development: the Euler angles of a rotation, as a list. *)
Variable quat_to_euler_list : Sdf.Quaterniond -> list F64.float.

(** The element that [body.add("geom", name=name, pos=..., euler=...)]
    creates: a geom with a name and a pose, and neither type nor size. *)
Definition fresh_geom (name : string) (pose : Sdf.Pose3d) : Mjcf.Geom :=
  Mjcf.mkGeom (Some name) None None None
    (Some (Su.vec3d_to_list (Sdf.pos pose)))
    (Some (quat_to_euler_list (Sdf.rot pose)))
    None.

(** [add_geometry(body, name, pose, sdf_geom)].  The geom it returns is
    the child just added to [body], designated by its position; the
    body is returned as the call leaves it, also when it raises. *)
Definition add_geometry (body : Body) (name : string) (pose : Sdf.Pose3d)
           (sdf_geom : option Sdf.Geometry) : result (option nat) * Body :=
  match sdf_geom with
  | None => (ret None, body)
  | Some sdf_geom =>
      let '(body, geom) := Mjcf.add_geom body (fresh_geom name pose) in
      let assign (type : string) (size : list F64.float) :=
        (ret (Some geom),
         Mjcf.update_geom body geom
           (fun g => Mjcf.set_size (Mjcf.set_type g type) size)) in
      match Sdf.box_shape sdf_geom with
      | Some box_shape =>
          assign "box" (Su.vec3d_to_list (div3 (Sdf.box_size box_shape) F64.two))
      | None =>
      match Sdf.capsule_shape sdf_geom with
      | Some capsule_shape =>
          assign "capsule"
            [Sdf.capsule_radius capsule_shape;
             F64.div (Sdf.capsule_length capsule_shape) F64.two]
      | None =>
      match Sdf.cylinder_shape sdf_geom with
      | Some cylinder_shape =>
          assign "cylinder"
            [Sdf.cylinder_radius cylinder_shape;
             F64.div (Sdf.cylinder_length cylinder_shape) F64.two]
      | None =>
      match Sdf.ellipsoid_shape sdf_geom with
      | Some ellipsoid_shape =>
          assign "ellipsoid" (Su.vec3d_to_list (Sdf.ellipsoid_radii ellipsoid_shape))
      | None =>
      match Sdf.plane_shape sdf_geom with
      | Some plane_shape =>
          assign "plane"
            (Su.vec2d_to_list (div2 (Sdf.plane_size plane_shape) F64.two)
               ++ [F64.zero])%list
      | None =>
      match Sdf.sphere_shape sdf_geom with
      | Some sphere_shape =>
          assign "sphere" [Sdf.sphere_radius sphere_shape]
      | None =>
      match Sdf.mesh_shape sdf_geom with
      | Some _ =>
          (raise (RuntimeError "Meshes are not yet supported"), body)
      | None =>
          (raise (RuntimeError
                    ("Encountered unsupported shape type "
                       ++ Sdf.GeometryType_str (Sdf.type sdf_geom))),
           body)
      end end end end end end end
  end.

(** [add_collision(body, col, pose_resolver)].  Assigning [group] on
    the [None] that [add_geometry] returned is an [AttributeError]. *)
Definition add_collision (body : Body) (col : Sdf.Collision)
           (pose_resolver : Sdf.SemanticPose -> result Sdf.Pose3d)
  : result (option nat) * Body :=
  let sem_pose := Sdf.collision_pose col in
  match pose_resolver sem_pose with
  | inl e => (inl e, body)
  | inr pose =>
      match add_geometry body (Sdf.collision_name col) pose
              (Sdf.collision_geometry col) with
      | (inl e, body) => (inl e, body)
      | (inr None, body) =>
          (raise (AttributeError
                    "'NoneType' object has no attribute 'group'"),
           body)
      | (inr (Some geom), body) =>
          (ret (Some geom),
           Mjcf.update_geom body geom
             (fun g => Mjcf.set_group g COLLISION_GEOM_GROUP))
      end
  end.
End Converters.

End SdfToMjcf.

(* ===================================================================== *)
(** ** mjcf_to_sdformat/converters/world.py *)
(* ===================================================================== *)

Module World.
Import Py Ign.
Local Open Scope py_scope.
Local Open Scope string_scope.

(** The system plugins of [mjcf_worldbody_to_sdf], in the order the
    dictionary literal lists them (the order [items()] yields). *)
Definition plugins : list (string * string) :=
  [ ("ignition-gazebo-physics-system",
     "ignition::gazebo::systems::Physics");
    ("ignition-gazebo-sensors-system",
     "ignition::gazebo::systems::Sensors");
    ("ignition-gazebo-user-commands-system",
     "ignition::gazebo::systems::UserCommands");
    ("ignition-gazebo-scene-broadcaster-system",
     "ignition::gazebo::systems::SceneBroadcaster") ].

Section Converters.
(** The MJCF element types and the SDFormat objects that the
    converters of the other modules work on. *)
Variables Attrs Joint FreeJoint Camera Light : Type.
Variables Physics Modifiers : Type.
Variables SdfLink SdfJoint SdfLight SdfSensor : Type.

Local Notation Body := (Mjcf.Body Attrs Joint FreeJoint Camera Light).
Local Notation RootElement := (Mjcf.RootElement Attrs Joint FreeJoint Camera Light).
Local Notation Model := (Sdf.Model SdfLink SdfJoint).
Local Notation SdfWorld := (Sdf.World SdfLink SdfJoint SdfLight).

(** The collaborators, imported from [converters.joint], [.light],
    [.link], [.sensor], [sdf_utils] and [defaults].  None of them is
    among the sources; they are taken as they are called.
    [mjcf_body_to_sdf] converts the geoms of the body and so can
    raise; the sensor and joint converters answer [None] for what
    they skip. *)
Variable MjcfModifiers : RootElement -> Modifiers.
Variable apply_modifiers_to_light : Modifiers -> Light -> Light.
Variable apply_modifiers_to_joint : Modifiers -> Joint -> Joint.
Variable mjcf_light_to_sdf : Light -> SdfLight.
Variable mjcf_body_to_sdf :
  Body -> Physics -> option string -> Modifiers -> result SdfLink.
Variable mjcf_camera_sensor_to_sdf : Camera -> option SdfSensor.
Variable add_sensor : SdfLink -> SdfSensor -> SdfLink.
Variable mjcf_joint_to_sdf :
  Joint -> option string -> option string -> option SdfJoint.
Variable add_fixed_joint : option string -> option string -> SdfJoint.
Variable find_unique_name : Body -> string -> string -> string.

(** [for camera in body.camera: ...] *)
Definition add_camera_sensors (cameras : list Camera) (link : SdfLink) : SdfLink :=
  fold_left
    (fun link camera =>
       match mjcf_camera_sensor_to_sdf camera with
       | Some sensor => add_sensor link sensor
       | None => link
       end)
    cameras link.

(** [for joint in body.joint: ...] *)
Definition add_declared_joints (modifiers : Modifiers) (joints : list Joint)
           (body_parent_name body_name : option string) (model : Model) : Model :=
  fold_left
    (fun model joint =>
       let joint := apply_modifiers_to_joint modifiers joint in
       match mjcf_joint_to_sdf joint body_parent_name body_name with
       | Some joint_sdf => Sdf.add_joint model joint_sdf
       | None => model
       end)
    joints model.

(** One turn of the loop of [iterate_bodies], for the body [b]; the
    recursive call on [body.body] is the inner loop. *)
Fixpoint iterate_body (physics : Physics) (modifiers : Modifiers)
         (b : Body) (model : Model) (body_parent_name : option string)
         {struct b} : result Model :=
  match b with
  | Mjcf.mkBody name _ _ joints freejoint cameras _ children =>
      link <- mjcf_body_to_sdf b physics body_parent_name modifiers ;;
      let link := add_camera_sensors cameras link in
      let model := add_declared_joints modifiers joints body_parent_name name model in
      let model :=
        if (Nat.eqb (List.length joints) 0 && is_None freejoint)%bool
        then
          let joint_sdf := add_fixed_joint body_parent_name name in
          Sdf.add_joint model joint_sdf
        else model in
      let model := Sdf.add_link model link in
      (fix iterate (input_body : list Body) (model : Model) : result Model :=
         match input_body with
         | [] => ret model
         | body :: rest =>
             model <- iterate_body physics modifiers body model name ;;
             iterate rest model
         end) children model
  end.

(** [iterate_bodies(input_body, model, body_parent_name)] *)
Fixpoint iterate_bodies (physics : Physics) (modifiers : Modifiers)
         (input_body : list Body) (model : Model)
         (body_parent_name : option string) : result Model :=
  match input_body with
  | [] => ret model
  | body :: rest =>
      model <- iterate_body physics modifiers body model body_parent_name ;;
      iterate_bodies physics modifiers rest model body_parent_name
  end.

(** [if mjcf_root.option is not None: ...] *)
Definition apply_option (o : option Mjcf.Option_) (world : SdfWorld) : result SdfWorld :=
  match o with
  | None => ret world
  | Some o =>
      world <-
        (if eq_str (Mjcf.flag_gravity o) "disable" then
           ret (Sdf.set_gravity world (mkVector3d F64.zero F64.zero F64.zero))
         else if negb (is_None (Mjcf.option_gravity o)) then
           v <- Su.list_to_vec3d (Mjcf.option_gravity o) ;;
           ret (Sdf.set_gravity world v)
         else ret world) ;;
      world <-
        (if negb (is_None (Mjcf.option_magnetic o)) then
           v <- Su.list_to_vec3d (Mjcf.option_magnetic o) ;;
           ret (Sdf.set_magnetic_field world v)
         else ret world) ;;
      if negb (is_None (Mjcf.option_wind o)) then
        v <- Su.list_to_vec3d (Mjcf.option_wind o) ;;
        ret (Sdf.set_wind_linear_velocity world v)
      else ret world
  end.

(** [mjcf_worldbody_to_sdf(mjcf_root, physics, world,
    export_world_plugins)].  The world is returned as the call leaves
    it when it returns. *)
Definition mjcf_worldbody_to_sdf (mjcf_root : RootElement) (physics : Physics)
           (world : SdfWorld) (export_world_plugins : bool) : result SdfWorld :=
  let model := Sdf.new_Model SdfLink SdfJoint in
  let model :=
    match Mjcf.model mjcf_root with
    | Some n => Sdf.set_name model n
    | None => Sdf.set_name model "model"
    end in
  let modifiers := MjcfModifiers mjcf_root in
  let model_static := Sdf.new_Model SdfLink SdfJoint in
  let world :=
    fold_left
      (fun world light =>
         let light := apply_modifiers_to_light modifiers light in
         let light_sdf := mjcf_light_to_sdf light in
         Sdf.add_light world light_sdf)
      (Mjcf.light (Mjcf.worldbody mjcf_root)) world in
  link <- mjcf_body_to_sdf (Mjcf.worldbody mjcf_root) physics None modifiers ;;
  let model_static :=
    Sdf.set_name model_static
      (find_unique_name (Mjcf.worldbody mjcf_root) "geom" "static") in
  let link := add_camera_sensors (Mjcf.camera (Mjcf.worldbody mjcf_root)) link in
  let model_static := Sdf.add_link model_static link in
  let model_static := Sdf.set_static model_static true in
  let world := Sdf.add_model world model_static in
  let body := Mjcf.body (Mjcf.worldbody mjcf_root) in
  world <- apply_option (Mjcf.option_ mjcf_root) world ;;
  model <- iterate_bodies physics modifiers body model None ;;
  let world :=
    if export_world_plugins then
      fold_left
        (fun world kv =>
           let plugin := Sdf.mkPlugin (fst kv) (snd kv) in
           Sdf.add_plugin world plugin)
        plugins world
    else world in
  ret (Sdf.add_model world model).
End Converters.

End World.

(* ===================================================================== *)
(** * The vocabulary of the claims *)
(* ===================================================================== *)

(** ** Shapes *)

Module Shape.
Import Py.
Local Open Scope string_scope.

(** The six type strings [mjcf_geom_to_sdf] has a branch for. *)
Definition supported_type (t : option string) : bool :=
  eq_str t "box" || eq_str t "capsule" || eq_str t "cylinder"
  || eq_str t "ellipsoid" || eq_str t "sphere" || eq_str t "plane".

(** The geom carries every number its type makes the converter read:
    three sizes for a box or an ellipsoid, one for a sphere, two for a
    plane; for a capsule or a cylinder the radius and either the
    half-length or the six coordinates of [fromto]. *)
Definition segment_readable (geom : Mjcf.Geom) : bool :=
  Su.at_least 1 (Mjcf.size geom)
  && match Mjcf.fromto geom with
     | None => Su.at_least 2 (Mjcf.size geom)
     | Some _ => Su.at_least 6 (Mjcf.fromto geom)
     end.

Definition readable (geom : Mjcf.Geom) : bool :=
  let t := Mjcf.type geom in
  if eq_str t "box" then Su.at_least 3 (Mjcf.size geom)
  else if eq_str t "capsule" then segment_readable geom
  else if eq_str t "cylinder" then segment_readable geom
  else if eq_str t "ellipsoid" then Su.at_least 3 (Mjcf.size geom)
  else if eq_str t "sphere" then Su.at_least 1 (Mjcf.size geom)
  else if eq_str t "plane" then Su.at_least 2 (Mjcf.size geom)
  else false.

(** The radius and length of an emitted capsule or cylinder. *)
Definition radius_length (G : Sdf.Geometry) : option (F64.float * F64.float) :=
  match Sdf.type G with
  | Sdf.CAPSULE =>
      option_map (fun c => (Sdf.capsule_radius c, Sdf.capsule_length c))
        (Sdf.capsule_shape G)
  | Sdf.CYLINDER =>
      option_map (fun c => (Sdf.cylinder_radius c, Sdf.cylinder_length c))
        (Sdf.cylinder_shape G)
  | _ => None
  end.

(** A geometry in which the mesh is the only shape there can be. *)
Definition no_primitive (G : Sdf.Geometry) : bool :=
  is_None (Sdf.box_shape G) && is_None (Sdf.capsule_shape G)
  && is_None (Sdf.cylinder_shape G) && is_None (Sdf.ellipsoid_shape G)
  && is_None (Sdf.plane_shape G) && is_None (Sdf.sphere_shape G).

End Shape.

(** ** Names *)

Module Naming.
Import Py MjcfToSdf.
Local Open Scope string_scope.

(** The allocator of the specification (4.4): the name for an element of
    a role, from its declared name and the counters. *)
Definition counter (r : Role) (g : Globals) : N :=
  match r with
  | VisualRole => VISUAL_NUMBER g
  | CollisionRole => COLLISION_NUMBER g
  end.

Definition role_prefix (r : Role) : string :=
  match r with
  | VisualRole => "visual_"
  | CollisionRole => "collision_"
  end.

Definition anonymous_prefix (r : Role) : string :=
  match r with
  | VisualRole => "unnamed_visual_"
  | CollisionRole => "unnamed_collision_"
  end.

Definition name_for (r : Role) (declared : option string) (g : Globals) : string :=
  match declared with
  | Some n => role_prefix r ++ n
  | None => anonymous_prefix r ++ str (counter r g)
  end.

Definition next_state (r : Role) (declared : option string) (g : Globals) : Globals :=
  match declared, r with
  | Some _, _ => g
  | None, VisualRole => mkGlobals (VISUAL_NUMBER g + 1) (COLLISION_NUMBER g)
  | None, CollisionRole => mkGlobals (VISUAL_NUMBER g) (COLLISION_NUMBER g + 1)
  end.

Definition mk_element (r : Role) (n : string) (G : Sdf.Geometry) : Element :=
  match r with
  | VisualRole =>
      EVisual (Sdf.mkVisual n (Some G) (Sdf.visual_pose Sdf.new_Visual))
  | CollisionRole =>
      ECollision (Sdf.mkCollision n (Some G) (Sdf.collision_pose Sdf.new_Collision))
  end.

Definition role_eqb (a b : Role) : bool :=
  match a, b with
  | VisualRole, VisualRole | CollisionRole, CollisionRole => true
  | _, _ => false
  end.

(** What a call returns or raises, in the allocator's terms. *)
Definition outcome (r : Role) (geom : Mjcf.Geom) (g : Globals)
  : result (option Element) :=
  match mjcf_geom_to_sdf geom with
  | inl e => inl e
  | inr o => inr (option_map (mk_element r (name_for r (Mjcf.name geom) g)) o)
  end.

Fixpoint outcomes (cs : list (Role * Mjcf.Geom)) (g : Globals)
  : list (result (option Element)) :=
  match cs with
  | [] => []
  | (r, geom) :: rest =>
      outcome r geom g :: outcomes rest (next_state r (Mjcf.name geom) g)
  end.

Fixpoint final_state (cs : list (Role * Mjcf.Geom)) (g : Globals) : Globals :=
  match cs with
  | [] => g
  | (r, geom) :: rest => final_state rest (next_state r (Mjcf.name geom) g)
  end.

(** The calls of a sequence that are for the role [r] and for a geom
    without a declared name, and the names of the elements that came
    back from them. *)
Definition is_anonymous (r : Role) (c : Role * Mjcf.Geom) : bool :=
  role_eqb (fst c) r && is_None (Mjcf.name (snd c)).

Definition count_anonymous (r : Role) (cs : list (Role * Mjcf.Geom)) : nat :=
  List.length (filter (is_anonymous r) cs).

Definition returned_name (o : result (option Element)) : list string :=
  match o with
  | inr (Some e) => [element_name e]
  | _ => []
  end.

Definition anonymous_names (r : Role) (cs : list (Role * Mjcf.Geom))
           (os : list (result (option Element))) : list string :=
  flat_map
    (fun co => if is_anonymous r (fst co) then returned_name (snd co) else [])
    (combine cs os).

(** The values the counter of the role [r] had at those calls. *)
Fixpoint anonymous_numbers (r : Role) (cs : list (Role * Mjcf.Geom)) (g : Globals)
  : list N :=
  match cs with
  | [] => []
  | (r', geom) :: rest =>
      (if is_anonymous r (r', geom) && returns (mjcf_geom_to_sdf geom)
       then [counter r g] else [])
        ++ anonymous_numbers r rest (next_state r' (Mjcf.name geom) g)
  end.

(** [len] consecutive numbers from [start] on. *)
Fixpoint N_seq (start : N) (len : nat) : list N :=
  match len with
  | O => []
  | S len' => start :: N_seq (N.succ start) len'
  end.

End Naming.

(** ** The walk over the bodies *)

Module Walk.
Import Py.
Local Open Scope string_scope.

Section Bodies.
Variables Attrs Joint FreeJoint Camera Light : Type.
Variables Physics Modifiers : Type.
Variables SdfLink SdfJoint SdfLight SdfSensor : Type.

Local Notation Body := (Mjcf.Body Attrs Joint FreeJoint Camera Light).
Local Notation RootElement := (Mjcf.RootElement Attrs Joint FreeJoint Camera Light).
Local Notation Model := (Sdf.Model SdfLink SdfJoint).

Variable apply_modifiers_to_joint : Modifiers -> Joint -> Joint.
Variable mjcf_body_to_sdf :
  Body -> Physics -> option string -> Modifiers -> result SdfLink.
Variable mjcf_camera_sensor_to_sdf : Camera -> option SdfSensor.
Variable add_sensor : SdfLink -> SdfSensor -> SdfLink.
Variable mjcf_joint_to_sdf :
  Joint -> option string -> option string -> option SdfJoint.
Variable add_fixed_joint : option string -> option string -> SdfJoint.
Variable find_unique_name : Body -> string -> string -> string.

(** Every body below [input_body], paired with the name of the body it
    is a child of ([None] for the children of the world body): a body
    first, then the bodies below it, then its next sibling. *)
Fixpoint walk_body (body_parent_name : option string) (b : Body)
  : list (option string * Body) :=
  match b with
  | Mjcf.mkBody name _ _ _ _ _ _ children =>
      (body_parent_name, b) :: flat_map (walk_body name) children
  end.

Definition walk (body_parent_name : option string) (input_body : list Body)
  : list (option string * Body) :=
  flat_map (walk_body body_parent_name) input_body.

(** The joints the specification asks for one body: its declared
    joints, converted with the names of its parent and of itself, ... *)
Definition declared_joints (modifiers : Modifiers) (pb : option string * Body)
  : list SdfJoint :=
  flat_map
    (fun joint =>
       match mjcf_joint_to_sdf (apply_modifiers_to_joint modifiers joint)
               (fst pb) (Mjcf.body_name (snd pb)) with
       | Some joint_sdf => [joint_sdf]
       | None => []
       end)
    (Mjcf.joint (snd pb)).

(** ... and, when it declares no joint and is not free, one fixed joint
    from its parent to itself. *)
Definition synthesized_joints (pb : option string * Body) : list SdfJoint :=
  match Mjcf.joint (snd pb), Mjcf.freejoint (snd pb) with
  | [], None => [add_fixed_joint (fst pb) (Mjcf.body_name (snd pb))]
  | _, _ => []
  end.

Definition joints_of (modifiers : Modifiers) (pb : option string * Body)
  : list SdfJoint :=
  declared_joints modifiers pb ++ synthesized_joints pb.

(** The link of a body: what the link converter makes of it, with the
    sensors of its cameras. *)
Definition link_of (physics : Physics) (modifiers : Modifiers)
           (pb : option string * Body) : list SdfLink :=
  match mjcf_body_to_sdf (snd pb) physics (fst pb) modifiers with
  | inr link =>
      [World.add_camera_sensors mjcf_camera_sensor_to_sdf add_sensor
         (Mjcf.camera (snd pb)) link]
  | inl _ => []
  end.

(** Every body of the tree is one the link converter accepts. *)
Definition links_convert (physics : Physics) (modifiers : Modifiers)
           (bodies : list (option string * Body)) : Prop :=
  Forall
    (fun pb => returns (mjcf_body_to_sdf (snd pb) physics (fst pb) modifiers) = true)
    bodies.

(** The model after more links and joints were added to it, and after
    the bodies of a walk were. *)
Definition extend (model : Model) (ls : list SdfLink) (js : list SdfJoint) : Model :=
  Sdf.mkModel (Sdf.model_name model) (Sdf.static model)
    (Sdf.links model ++ ls) (Sdf.joints model ++ js).

Definition walked (physics : Physics) (modifiers : Modifiers)
           (bodies : list (option string * Body)) (model : Model) : Model :=
  extend model (flat_map (link_of physics modifiers) bodies)
    (flat_map (joints_of modifiers) bodies).

(** The [option] element holds three numbers wherever a vector is read
    from it. *)
Definition option_readable (o : option Mjcf.Option_) : bool :=
  match o with
  | None => true
  | Some o =>
      (eq_str (Mjcf.flag_gravity o) "disable"
       || is_None (Mjcf.option_gravity o)
       || Su.at_least 3 (Mjcf.option_gravity o))
      && (is_None (Mjcf.option_magnetic o)
          || Su.at_least 3 (Mjcf.option_magnetic o))
      && (is_None (Mjcf.option_wind o)
          || Su.at_least 3 (Mjcf.option_wind o))
  end.

(** The static model made of the world body, and the model the bodies
    below it are walked into. *)
Definition static_model (mjcf_root : RootElement) (link : SdfLink) : Model :=
  Sdf.mkModel (find_unique_name (Mjcf.worldbody mjcf_root) "geom" "static") true
    [World.add_camera_sensors mjcf_camera_sensor_to_sdf add_sensor
       (Mjcf.camera (Mjcf.worldbody mjcf_root)) link]
    [].

Definition named_model (mjcf_root : RootElement) : Model :=
  Sdf.mkModel
    (match Mjcf.model mjcf_root with Some n => n | None => "model" end)
    false [] [].
End Bodies.

End Walk.

(** ** Concrete inputs *)

Module Examples.
Import Py.
Local Open Scope string_scope.
Local Open Scope list_scope.

(** Stand-ins for the objects of the modules outside this development:
    an SDFormat link is the name of its body with its sensors, a joint
    its kind with the names of its parent and child. *)
Definition Link : Type := (option string * list string)%type.
Definition JointSdf : Type := (string * option string * option string)%type.
Definition Body : Type := Mjcf.Body unit string unit string string.
Definition RootElement : Type := Mjcf.RootElement unit string unit string string.
Definition SdfWorld : Type := Sdf.World Link JointSdf string.

Definition MjcfModifiers (_ : RootElement) : unit := tt.
Definition apply_modifiers (_ : unit) (e : string) : string := e.
Definition mjcf_light_to_sdf (l : string) : string := l.
Definition mjcf_body_to_sdf (b : Body) (_ : unit) (_ : option string) (_ : unit)
  : result Link :=
  ret (Mjcf.body_name b, []).
Definition mjcf_camera_sensor_to_sdf (c : string) : option string := Some c.
Definition add_sensor (l : Link) (s : string) : Link := (fst l, snd l ++ [s]).
Definition mjcf_joint_to_sdf (j : string) (p c : option string) : option JointSdf :=
  Some (j, p, c).
Definition add_fixed_joint (p c : option string) : JointSdf := ("fixed", p, c).
Definition find_unique_name (_ : Body) (_ : string) (default : string) : string :=
  default.
Definition quat_to_euler_list (_ : Sdf.Quaterniond) : list F64.float :=
  [F64.zero; F64.zero; F64.zero].

Definition mk_body (name : string) (joints : list string) (free : option unit)
           (children : list Body) : Body :=
  Mjcf.mkBody (Some name) tt [] joints free [] [] children.

(** A world body with an arm of two bodies, the second one hinged, and
    a free-floating ball. *)
Definition forearm : Body := mk_body "forearm" ["hinge"] None [].
Definition arm : Body := mk_body "arm" [] None [forearm].
Definition ball : Body := mk_body "ball" [] (Some tt) [].
Definition worldbody : Body :=
  Mjcf.mkBody None tt [] [] None ["overview"] ["sun"] [arm; ball].
Definition root : RootElement :=
  Mjcf.mkRootElement None worldbody
    (Some (Mjcf.mkOption (Some "disable") None None None)).

Definition empty_world : SdfWorld :=
  Sdf.mkWorld [] [] []
    (Ign.mkVector3d F64.zero F64.zero F64.zero)
    (Ign.mkVector3d F64.zero F64.zero F64.zero)
    (Ign.mkVector3d F64.zero F64.zero F64.zero).

Definition empty_body : Body := Mjcf.mkBody (Some "link") tt [] [] None [] [] [].

Definition three : F64.float := S754_finite false 6755399441055744 (-51).
Definition four : F64.float := S754_finite false 4503599627370496 (-50).
Definition five : F64.float := S754_finite false 5629499534213120 (-50).

Definition box_geom (size : list F64.float) : Mjcf.Geom :=
  Mjcf.mkGeom None (Some "box") (Some size) None None None None.

Definition box_geometry (x y z : F64.float) : Sdf.Geometry :=
  Sdf.set_type
    (Sdf.set_box_shape Sdf.new_Geometry (Sdf.mkBox (Ign.mkVector3d x y z)))
    Sdf.BOX.

(** A capsule of radius one laid from (1, 1, 0) to (4, 5, 0). *)
Definition slanted_capsule : Mjcf.Geom :=
  Mjcf.mkGeom (Some "c") (Some "capsule") (Some [F64.one])
    (Some [F64.one; F64.one; F64.zero; four; five; F64.zero]) None None None.

Definition sphere_without_size : Mjcf.Geom :=
  Mjcf.mkGeom None (Some "sphere") None None None None None.

Definition mesh_geom : Mjcf.Geom :=
  Mjcf.mkGeom (Some "m") (Some "mesh") None None None None None.

Definition mesh_geometry : Sdf.Geometry :=
  Sdf.set_type (Sdf.set_mesh_shape Sdf.new_Geometry (Sdf.mkMesh "m.obj")) Sdf.MESH.

(** A sphere of radius one without a name. *)
Definition anonymous_sphere : Mjcf.Geom :=
  Mjcf.mkGeom None (Some "sphere") (Some [F64.one]) None None None None.

(** The calls of a small run: for two anonymous visuals, an anonymous
    collision, a named visual, and an anonymous visual that has no
    size. *)
Definition attachments : list (MjcfToSdf.Role * Mjcf.Geom) :=
  [(MjcfToSdf.VisualRole, anonymous_sphere);
   (MjcfToSdf.CollisionRole, anonymous_sphere);
   (MjcfToSdf.VisualRole, slanted_capsule);
   (MjcfToSdf.VisualRole, sphere_without_size);
   (MjcfToSdf.VisualRole, anonymous_sphere)].

End Examples.

(* ===================================================================== *)
(** * The vocabulary of the further properties *)
(* ===================================================================== *)

(** ** The shapes a geometry holds *)

Module Slot.
Import Py Ign.
Local Open Scope string_scope.
Local Open Scope list_scope.

(** The tags of the shapes a geometry holds, in the order in which
    [add_geometry] asks for them. *)
Definition held (G : Sdf.Geometry) : list Sdf.GeometryType :=
  (if is_None (Sdf.box_shape G) then [] else [Sdf.BOX])
    ++ (if is_None (Sdf.capsule_shape G) then [] else [Sdf.CAPSULE])
    ++ (if is_None (Sdf.cylinder_shape G) then [] else [Sdf.CYLINDER])
    ++ (if is_None (Sdf.ellipsoid_shape G) then [] else [Sdf.ELLIPSOID])
    ++ (if is_None (Sdf.plane_shape G) then [] else [Sdf.PLANE])
    ++ (if is_None (Sdf.sphere_shape G) then [] else [Sdf.SPHERE])
    ++ (if is_None (Sdf.mesh_shape G) then [] else [Sdf.MESH]).

(** The MJCF type string of the primitive that has a tag. *)
Definition type_string (t : Sdf.GeometryType) : option string :=
  match t with
  | Sdf.BOX => Some "box"
  | Sdf.CAPSULE => Some "capsule"
  | Sdf.CYLINDER => Some "cylinder"
  | Sdf.ELLIPSOID => Some "ellipsoid"
  | Sdf.PLANE => Some "plane"
  | Sdf.SPHERE => Some "sphere"
  | _ => None
  end.

(** The dimensions of a geometry that are full extents on the SDFormat
    side and half extents on the MJCF side: the size of a box or a
    plane, the length of a capsule or a cylinder. *)
Definition full_extents (G : Sdf.Geometry) : list F64.float :=
  match Sdf.type G with
  | Sdf.BOX =>
      match Sdf.box_shape G with
      | Some b => Su.vec3d_to_list (Sdf.box_size b)
      | None => []
      end
  | Sdf.CAPSULE =>
      match Sdf.capsule_shape G with
      | Some c => [Sdf.capsule_length c]
      | None => []
      end
  | Sdf.CYLINDER =>
      match Sdf.cylinder_shape G with
      | Some c => [Sdf.cylinder_length c]
      | None => []
      end
  | Sdf.PLANE =>
      match Sdf.plane_shape G with
      | Some p => Su.vec2d_to_list (Sdf.plane_size p)
      | None => []
      end
  | _ => []
  end.

(** The number of size components the conversion of a geom of a type
    reads when there is no [fromto], the ones among them that are half
    extents, and what [add_geometry] appends to the size it writes. *)
Definition arity (t : option string) : nat :=
  if eq_str t "box" then 3
  else if eq_str t "capsule" then 2
  else if eq_str t "cylinder" then 2
  else if eq_str t "ellipsoid" then 3
  else if eq_str t "sphere" then 1
  else if eq_str t "plane" then 2
  else 0.

Definition half_extents (geom : Mjcf.Geom) : list F64.float :=
  let t := Mjcf.type geom in
  let s := match Mjcf.size geom with Some s => s | None => [] end in
  if eq_str t "box" then firstn 3 s
  else if eq_str t "capsule" then firstn 1 (skipn 1 s)
  else if eq_str t "cylinder" then firstn 1 (skipn 1 s)
  else if eq_str t "plane" then firstn 2 s
  else [].

Definition grid_spacing (t : option string) : list F64.float :=
  if eq_str t "plane" then [F64.zero] else [].

(** A well-formed number that halving (doubling) and then doubling
    (halving) gives back. *)
Definition halves (x : F64.float) : bool := F64.valid x && F64.halves_exactly x.
Definition doubles (x : F64.float) : bool := F64.valid x && F64.below_2p1023 x.

(** A number that is zero or finite. *)
Definition finite (x : F64.float) : bool :=
  match x with
  | S754_zero _ | S754_finite _ _ _ => true
  | _ => false
  end.

End Slot.

(** ** Calls of one role among the calls of a run *)

Module Calls.
Import Py MjcfToSdf Naming.

(** The calls of a sequence that are for the role [r], and what came
    back from them. *)
Definition of_role (r : Role) (cs : list (Role * Mjcf.Geom))
  : list (Role * Mjcf.Geom) :=
  filter (fun c => role_eqb (fst c) r) cs.

Definition results_of (r : Role) (cs : list (Role * Mjcf.Geom))
           (os : list (result (option Element))) : list (result (option Element)) :=
  map snd (filter (fun co => role_eqb (fst (fst co)) r) (combine cs os)).

End Calls.

(** ** Exceptions met on the walk *)

Module WalkErrors.
Import Py.

Section Bodies.
Variables Attrs Joint FreeJoint Camera Light : Type.
Variables Physics Modifiers : Type.
Variable SdfLink : Type.

Local Notation Body := (Mjcf.Body Attrs Joint FreeJoint Camera Light).

Variable mjcf_body_to_sdf :
  Body -> Physics -> option string -> Modifiers -> result SdfLink.

(** The exception of the first body of a walk that the link converter
    rejects. *)
Fixpoint first_error (physics : Physics) (modifiers : Modifiers)
         (bodies : list (option string * Body)) : option exn :=
  match bodies with
  | [] => None
  | pb :: rest =>
      match mjcf_body_to_sdf (snd pb) physics (fst pb) modifiers with
      | inl e => Some e
      | inr _ => first_error physics modifiers rest
      end
  end.

(** The link converter accepts every body of a walk. *)
Definition all_convert (physics : Physics) (modifiers : Modifiers)
           (bodies : list (option string * Body)) : bool :=
  forallb
    (fun pb => returns (mjcf_body_to_sdf (snd pb) physics (fst pb) modifiers))
    bodies.
End Bodies.

(** The vector read from an attribute that holds three numbers, and the
    value a vector of the world has after an attribute that may be
    missing was applied to it. *)
Definition vector_of (l : option (list F64.float)) (before : Ign.Vector3d)
  : Ign.Vector3d :=
  match l with
  | Some (x :: y :: z :: _) => Ign.mkVector3d x y z
  | _ => before
  end.

End WalkErrors.

(** ** More concrete inputs *)

Module Samples.
Import Py.
Local Open Scope string_scope.
Local Open Scope list_scope.

Definition half : F64.float := S754_finite false 4503599627370496 (-53).

(** A capsule of radius one and length two, as SDFormat has it. *)
Definition capsule_geometry : Sdf.Geometry :=
  Sdf.set_type
    (Sdf.set_capsule_shape Sdf.new_Geometry (Sdf.mkCapsule F64.one F64.two))
    Sdf.CAPSULE.

(** A geometry tagged as a sphere that also holds a box and a mesh. *)
Definition crowded_geometry : Sdf.Geometry :=
  Sdf.mkGeometry Sdf.SPHERE
    (Some (Sdf.mkBox (Ign.mkVector3d F64.two F64.two F64.two)))
    None None None None
    (Some (Sdf.mkSphere F64.one))
    (Some (Sdf.mkMesh "m.obj")).

Definition box_collision : Sdf.Collision :=
  Sdf.mkCollision "c1" (Some (Examples.box_geometry F64.two F64.two F64.two))
    (Sdf.mkSemanticPose Sdf.identity_pose "").

Definition pose_resolver (p : Sdf.SemanticPose) : result Sdf.Pose3d :=
  ret (Sdf.raw_pose p).

(** MJCF geoms: a cylinder and a capsule given by [size], an ellipsoid
    and a plane whose [size] holds a grid spacing, a capsule whose two
    end points coincide, and an anonymous mesh. *)
Definition cylinder_geom : Mjcf.Geom :=
  Mjcf.mkGeom (Some "cyl") (Some "cylinder") (Some [F64.one; Examples.three])
    None None None None.

Definition ellipsoid_geom : Mjcf.Geom :=
  Mjcf.mkGeom None (Some "ellipsoid")
    (Some [F64.one; F64.two; Examples.three; Examples.four]) None None None None.

Definition plane_geom : Mjcf.Geom :=
  Mjcf.mkGeom None (Some "plane") (Some [F64.one; F64.two; half])
    None None None None.

Definition point_capsule : Mjcf.Geom :=
  Mjcf.mkGeom None (Some "capsule") (Some [F64.one])
    (Some [F64.one; F64.two; Examples.three; F64.one; F64.two; Examples.three])
    None None None.

Definition anonymous_mesh : Mjcf.Geom :=
  Mjcf.mkGeom None (Some "mesh") None None None None None.

(** A link converter that rejects the bodies named "ball". *)
Definition strict_body_to_sdf (b : Examples.Body) (_ : unit) (_ : option string)
           (_ : unit) : result Examples.Link :=
  if eq_str (Mjcf.body_name b) "ball"
  then raise (RuntimeError "Encountered unsupported shape type mesh")
  else ret (Mjcf.body_name b, []).

(** A joint converter that skips every joint. *)
Definition skip_joint_to_sdf (_ : string) (_ _ : option string)
  : option Examples.JointSdf := None.

(** A root whose options declare a gravity and disable it, and set a
    wind. *)
Definition windy_root : Examples.RootElement :=
  Mjcf.mkRootElement (Some "arm") Examples.worldbody
    (Some (Mjcf.mkOption (Some "disable")
             (Some [F64.zero; F64.zero; Examples.three])
             None
             (Some [F64.one; F64.zero; F64.zero; F64.two]))).

(** A root whose wind holds two numbers only. *)
Definition short_wind_root : Examples.RootElement :=
  Mjcf.mkRootElement None Examples.worldbody
    (Some (Mjcf.mkOption None None None (Some [F64.one; F64.zero]))).

End Samples.

(** ** Tactics *)

(** Case analysis on the type string of a geom, along the branches of
    [mjcf_geom_to_sdf]. *)
Ltac by_type :=
  repeat match goal with
         | |- context [if Py.eq_str ?t ?s then _ else _] =>
             let E := fresh "Etype" in
             destruct (Py.eq_str t s) eqn:E
         end.

(** Conjunctions of boolean tests among the hypotheses, taken apart. *)
Ltac split_andb :=
  repeat match goal with
         | H : (_ && _)%bool = true |- _ =>
             apply andb_true_iff in H; destruct H
         end.

(* ===================================================================== *)
(** * Properties of the embedding *)
(* ===================================================================== *)

(** ** Doubling and halving in binary64 *)

Module F64Facts.
Import F64.
Local Open Scope Z_scope.

Lemma iter_pos_iter (A : Type) (f : A -> A) n x : iter_pos f n x = Pos.iter f x n.
Proof.
  revert x. induction n as [n IH|n IH|]; intros x; simpl.
  - rewrite !IH. rewrite <- !Pos.iter_swap. reflexivity.
  - rewrite !IH. reflexivity.
  - reflexivity.
Qed.

(** Shifting out [k] zero bits is exact. *)
Lemma shr_exact m k :
  Pos.iter shr_1 (Build_shr_record (Zpos (Pos.iter xO m k)) false false) k
  = Build_shr_record (Zpos m) false false.
Proof.
  revert m. induction k as [|k IH] using Pos.peano_ind; intros m.
  - reflexivity.
  - rewrite Pos.iter_succ, (Pos.iter_succ_r k positive xO m), IH. reflexivity.
Qed.

Lemma digits_shift m k :
  Zpos (digits2_pos (Pos.iter xO m k)) = Zpos (digits2_pos m) + Zpos k.
Proof.
  induction k as [|k IH] using Pos.peano_ind.
  - simpl. lia.
  - rewrite Pos.iter_succ. simpl digits2_pos. lia.
Qed.

(** Rounding a mantissa that ends in [k] zeros to the exponent [e + k]
    its digits call for drops the zeros and nothing else. *)
Lemma round_shifted s m e k :
  fexp prec emax (Zpos (digits2_pos m) + (e + Zpos k)) = e + Zpos k ->
  e + Zpos k <= emax - prec ->
  binary_round_aux prec emax s (Zpos (Pos.iter xO m k)) e loc_Exact
  = S754_finite s m (e + Zpos k).
Proof.
  intros Hf Hle.
  unfold binary_round_aux, shr_fexp.
  cbn [Zdigits2]. rewrite digits_shift.
  replace (Zpos (digits2_pos m) + Zpos k + e)
    with (Zpos (digits2_pos m) + (e + Zpos k)) by lia.
  rewrite Hf.
  replace (e + Zpos k - e) with (Zpos k) by lia.
  cbn [shr shr_record_of_loc].
  rewrite iter_pos_iter, shr_exact.
  cbn [shr_m loc_of_shr_record round_nearest_even Zdigits2].
  rewrite Hf, Z.sub_diag. cbn [shr shr_record_of_loc shr_m].
  apply Z.leb_le in Hle. rewrite Hle. reflexivity.
Qed.

Lemma round_unshifted s m e :
  fexp prec emax (Zpos (digits2_pos m) + e) = e ->
  e <= emax - prec ->
  binary_round_aux prec emax s (Zpos m) e loc_Exact = S754_finite s m e.
Proof.
  intros Hf Hle.
  unfold binary_round_aux, shr_fexp.
  cbn [Zdigits2]. rewrite Hf, Z.sub_diag.
  cbn [shr shr_record_of_loc shr_m loc_of_shr_record round_nearest_even Zdigits2].
  rewrite Hf, Z.sub_diag. cbn [shr shr_record_of_loc shr_m].
  apply Z.leb_le in Hle. rewrite Hle. reflexivity.
Qed.

(** A well-formed finite number is normal (53 digits) or has the least
    exponent. *)
Lemma bounded_cases m e :
  bounded prec emax m e = true ->
  (Zpos (digits2_pos m) = 53 /\ -1074 <= e <= 971) \/
  (Zpos (digits2_pos m) < 53 /\ e = -1074).
Proof.
  unfold bounded, canonical_mantissa, fexp, emin, prec, emax.
  intros H. apply andb_true_iff in H. destruct H as [H1 H2].
  apply Z.eqb_eq in H1. apply Z.leb_le in H2. lia.
Qed.

Lemma mul_two_normal s m e :
  Zpos (digits2_pos m) = 53 -> -1074 <= e -> e < 971 ->
  mul (S754_finite s m e) two = S754_finite s m (e + 1).
Proof.
  intros Hd He1 He2.
  unfold mul, two, SFmul.
  rewrite xorb_false_r, Pos.mul_comm.
  change (4503599627370496 * m)%positive with (Pos.iter xO m 52).
  rewrite round_shifted.
  - f_equal. lia.
  - unfold fexp, emin, prec, emax. lia.
  - unfold prec, emax. lia.
Qed.

Lemma mul_two_subnormal s m :
  Zpos (digits2_pos m) < 53 ->
  mul (S754_finite s m (-1074)) two = S754_finite s (xO m) (-1074).
Proof.
  intros Hd.
  unfold mul, two, SFmul.
  rewrite xorb_false_r, Pos.mul_comm.
  change (4503599627370496 * m)%positive with (Pos.iter xO (xO m) 51).
  rewrite round_shifted.
  - f_equal.
  - unfold fexp, emin, prec, emax. cbn [digits2_pos]. lia.
  - unfold prec, emax. lia.
Qed.

Lemma div_eucl_exact q b : 0 < b -> Z.div_eucl (q * b) b = (q, 0).
Proof.
  intros Hb.
  rewrite (surjective_pairing (Z.div_eucl (q * b) b)).
  change (fst (Z.div_eucl (q * b) b)) with (q * b / b).
  change (snd (Z.div_eucl (q * b) b)) with ((q * b) mod b).
  rewrite Z.div_mul, Z.mod_mul by lia. reflexivity.
Qed.

(** The quotient by two, when the shift the division picks is [52 + k]. *)
Lemma div_core_two m e e' k :
  Z.min (fexp prec emax (Zpos (digits2_pos m) + e - (53 + -51))) (e - -51) = e' ->
  e - -51 - e' = 52 + Z.of_N k ->
  SFdiv_core_binary prec emax (Zpos m) e 4503599627370496 (-51)
  = (Zpos m * 2 ^ Z.of_N k, e', loc_Exact).
Proof.
  intros He' Hs.
  unfold SFdiv_core_binary.
  change (Zdigits2 4503599627370496) with 53.
  cbn [Zdigits2]. rewrite He', Hs.
  assert (Hm : match 52 + Z.of_N k with
               | Z0 => Zpos m
               | Zpos _ => Z.shiftl (Zpos m) (52 + Z.of_N k)
               | Zneg _ => 0
               end = (Zpos m * 2 ^ Z.of_N k) * 4503599627370496).
  { destruct (52 + Z.of_N k) eqn:E; try lia.
    rewrite <- E, Z.shiftl_mul_pow2 by lia.
    rewrite Z.pow_add_r by lia. change (2 ^ 52) with 4503599627370496. ring. }
  rewrite Hm, div_eucl_exact by lia.
  reflexivity.
Qed.

Lemma div_two_high s m e :
  Zpos (digits2_pos m) = 53 -> -1074 < e -> e <= 971 ->
  div (S754_finite s m e) two = S754_finite s m (e - 1).
Proof.
  intros Hd He1 He2.
  unfold div, two, SFdiv. rewrite xorb_false_r.
  destruct (Z.eq_dec e (-1073)) as [->|Hne].
  - rewrite (@div_core_two m (-1073) (-1074) 0%N).
    + change (Zpos m * 2 ^ Z.of_N 0) with (Zpos m * 1). rewrite Z.mul_1_r.
      apply round_unshifted.
      * rewrite Hd. reflexivity.
      * unfold prec, emax. lia.
    + rewrite Hd. reflexivity.
    + reflexivity.
  - rewrite (@div_core_two m e (e - 2) 1%N).
    + replace (Zpos m * 2 ^ Z.of_N 1) with (Zpos (Pos.iter xO m 1))
        by (change (2 ^ Z.of_N 1) with 2; cbn [Pos.iter]; lia).
      rewrite round_shifted.
      * f_equal. lia.
      * unfold fexp, emin, prec, emax. lia.
      * unfold prec, emax. lia.
    + unfold fexp, emin, prec, emax. lia.
    + lia.
Qed.

Lemma div_two_low s m :
  Zpos (digits2_pos m) < 53 ->
  div (S754_finite s (xO m) (-1074)) two = S754_finite s m (-1074).
Proof.
  intros Hd.
  unfold div, two, SFdiv. rewrite xorb_false_r.
  unfold SFdiv_core_binary.
  change (Zdigits2 4503599627370496) with 53.
  cbn [Zdigits2 digits2_pos].
  replace (Z.min (fexp prec emax (Zpos (Pos.succ (digits2_pos m)) + -1074 - (53 + -51)))
             (-1074 - -51))
    with (-1074) by (unfold fexp, emin, prec, emax; lia).
  change (-1074 - -51 - -1074) with 51.
  replace (Z.shiftl (Zpos (xO m)) 51) with (Zpos m * 4503599627370496)
    by (rewrite Z.shiftl_mul_pow2 by lia; change (2 ^ 51) with 2251799813685248; lia).
  rewrite div_eucl_exact by lia.
  apply round_unshifted.
  - unfold fexp, emin, prec, emax. lia.
  - unfold prec, emax. lia.
Qed.

(** Doubling and then halving gives the number back unless the doubling
    overflows. *)
Lemma halve_double x :
  valid x = true -> below_2p1023 x = true -> div (mul x two) two = x.
Proof.
  destruct x as [s|s| |s m e]; intros Hv Hb.
  - destruct s; reflexivity.
  - destruct s; reflexivity.
  - reflexivity.
  - cbn in Hv, Hb. apply Z.ltb_lt in Hb.
    destruct (bounded_cases _ _ Hv) as [[Hd He]|[Hd ->]].
    + rewrite mul_two_normal, div_two_high by lia. f_equal. lia.
    + rewrite mul_two_subnormal, div_two_low by lia. reflexivity.
Qed.

(** Halving and then doubling gives the number back when the halving
    drops no bit. *)
Lemma double_halve x :
  valid x = true -> halves_exactly x = true -> mul (div x two) two = x.
Proof.
  destruct x as [s|s| |s m e]; intros Hv Hh.
  - destruct s; reflexivity.
  - destruct s; reflexivity.
  - reflexivity.
  - cbn in Hv, Hh.
    destruct (bounded_cases _ _ Hv) as [[Hd He]|[Hd ->]].
    + destruct (Z.eq_dec e (-1074)) as [->|Hne].
      * destruct m as [m|m|]; try discriminate Hh.
        cbn [digits2_pos] in Hd.
        rewrite div_two_low, mul_two_subnormal by lia. reflexivity.
      * rewrite div_two_high, mul_two_normal by lia. f_equal. lia.
    + destruct m as [m|m|]; try discriminate Hh.
      cbn [digits2_pos] in Hd.
      rewrite div_two_low, mul_two_subnormal by lia. reflexivity.
Qed.

(** Doubling the largest finite number overflows, and halving infinity
    does not bring it back. *)
Lemma halve_double_max_float :
  div (mul max_float two) two = S754_infinity false.
Proof. vm_compute. reflexivity. Qed.

(** At 2^1023 and above the doubling overflows. *)
Lemma mul_two_overflow s m :
  Zpos (digits2_pos m) = 53 ->
  mul (S754_finite s m 971) two = S754_infinity s.
Proof.
  intros Hd.
  unfold mul, two, SFmul.
  rewrite xorb_false_r, Pos.mul_comm.
  change (4503599627370496 * m)%positive with (Pos.iter xO m 52).
  unfold binary_round_aux, shr_fexp.
  cbn [Zdigits2]. rewrite digits_shift, Hd.
  change (fexp prec emax (53 + 52 + (971 + -51)) - (971 + -51)) with 52.
  cbn [shr shr_record_of_loc].
  rewrite iter_pos_iter, shr_exact.
  cbn [shr_m loc_of_shr_record round_nearest_even Zdigits2].
  rewrite Hd. reflexivity.
Qed.

Lemma halve_double_overflow x :
  valid x = true -> below_2p1023 x = false ->
  div (mul x two) two = S754_infinity (sign x).
Proof.
  destruct x as [s|s| |s m e]; intros Hv Hb; try discriminate Hb.
  cbn in Hv, Hb. apply Z.ltb_ge in Hb.
  destruct (bounded_cases _ _ Hv) as [[Hd He]|[Hd ->]]; [|lia].
  assert (e = 971) as -> by lia.
  rewrite mul_two_overflow by exact Hd. cbn. destruct s; reflexivity.
Qed.







End F64Facts.

(** ** Geoms added to an MJCF body *)

Module BodyFacts.
Section Elements.
Variables Attrs Joint FreeJoint Camera Light : Type.
Local Notation Body := (Mjcf.Body Attrs Joint FreeJoint Camera Light).

Lemma update_nth_last (l : list Mjcf.Geom) g f :
  Mjcf.update_nth (l ++ [g]) (List.length l) f = l ++ [f g].
Proof.
  induction l as [|x l IH]; simpl.
  - reflexivity.
  - rewrite IH. reflexivity.
Qed.

Lemma nth_error_last (l : list Mjcf.Geom) g :
  nth_error (l ++ [g]) (List.length l) = Some g.
Proof.
  induction l as [|x l IH]; simpl; auto.
Qed.

(** A geom that is added and then assigned to is the last child, with
    the assignments made. *)
Lemma get_added_geom (b : Body) g f :
  Mjcf.get_geom
    (Mjcf.update_geom (fst (Mjcf.add_geom b g)) (snd (Mjcf.add_geom b g)) f)
    (snd (Mjcf.add_geom b g))
  = Some (f g).
Proof.
  unfold Mjcf.get_geom, Mjcf.update_geom, Mjcf.add_geom. cbn.
  rewrite update_nth_last. apply nth_error_last.
Qed.

Lemma geoms_after_add (b : Body) g f :
  Mjcf.geom
    (Mjcf.update_geom (fst (Mjcf.add_geom b g)) (snd (Mjcf.add_geom b g)) f)
  = Mjcf.geom b ++ [f g].
Proof.
  unfold Mjcf.update_geom, Mjcf.add_geom. cbn. apply update_nth_last.
Qed.
End Elements.
End BodyFacts.

(** ** The shape converters *)

Module ShapeFacts.
Import Py Ign Shape.
Local Open Scope string_scope.

Lemma subscript_at_least (l : option (list F64.float)) n i :
  Su.at_least n l = true -> i < n -> exists x, subscript l i = ret x.
Proof.
  destruct l as [l|]; simpl; [|discriminate].
  intros H Hi. apply Nat.leb_le in H.
  destruct (nth_error l i) eqn:E.
  - eauto.
  - apply nth_error_None in E. lia.
Qed.

Arguments subscript_at_least : clear implicits.

Lemma list_to_vec3d_at_least l :
  Su.at_least 3 l = true -> exists v, Su.list_to_vec3d l = ret v.
Proof.
  intros H. unfold Su.list_to_vec3d.
  destruct (subscript_at_least _ _ 0 H) as [x ->]; [lia|].
  destruct (subscript_at_least _ _ 1 H) as [y ->]; [lia|].
  destruct (subscript_at_least _ _ 2 H) as [z ->]; [lia|].
  simpl. eauto.
Qed.

Lemma at_least_le n m l : Su.at_least n l = true -> m <= n -> Su.at_least m l = true.
Proof.
  destruct l as [l|]; simpl; [|discriminate].
  intros H Hm. apply Nat.leb_le in H. apply Nat.leb_le. lia.
Qed.

Lemma segment_length_readable geom :
  match Mjcf.fromto geom with
  | None => Su.at_least 2 (Mjcf.size geom)
  | Some _ => Su.at_least 6 (Mjcf.fromto geom)
  end = true ->
  exists l, MjcfToSdf.segment_length geom = ret l.
Proof.
  unfold MjcfToSdf.segment_length.
  destruct (Mjcf.fromto geom) as [f|] eqn:Ef; intros H.
  - destruct (subscript_at_least _ _ 0 H) as [x0 ->]; [lia|].
    destruct (subscript_at_least _ _ 1 H) as [x1 ->]; [lia|].
    destruct (subscript_at_least _ _ 2 H) as [x2 ->]; [lia|].
    destruct (subscript_at_least _ _ 3 H) as [x3 ->]; [lia|].
    destruct (subscript_at_least _ _ 4 H) as [x4 ->]; [lia|].
    destruct (subscript_at_least _ _ 5 H) as [x5 ->]; [lia|].
    simpl. eauto.
  - destruct (subscript_at_least _ _ 1 H) as [h ->]; [lia|].
    simpl. eauto.
Qed.

(** [mjcf_geom_to_sdf] has no path that returns [None]. *)
Lemma mjcf_geom_to_sdf_not_None geom :
  MjcfToSdf.mjcf_geom_to_sdf geom <> ret None.
Proof.
  unfold MjcfToSdf.mjcf_geom_to_sdf, Su.list_to_vec3d, bind, ret, raise.
  repeat match goal with
         | |- context [if ?c then _ else _] => destruct c
         | |- context [match ?x with inl _ => _ | inr _ => _ end] => destruct x
         end; discriminate.
Qed.

(** It returns a geometry for the geoms that are [readable] ... *)
Lemma mjcf_geom_to_sdf_readable geom :
  readable geom = true ->
  exists G, MjcfToSdf.mjcf_geom_to_sdf geom = ret (Some G).
Proof.
  unfold readable, MjcfToSdf.mjcf_geom_to_sdf, segment_readable.
  cbv zeta.
  repeat match goal with
         | |- context [if eq_str ?t ?s then _ else _] => destruct (eq_str t s)
         end; intros H; try discriminate H;
    try (apply andb_true_iff in H; destruct H as [H1 H2];
         destruct (subscript_at_least _ _ 0 H1) as [r ->]; [lia|];
         destruct (segment_length_readable _ H2) as [l ->]; simpl; eauto).
  - destruct (list_to_vec3d_at_least _ H) as [v ->]. simpl. eauto.
  - destruct (list_to_vec3d_at_least _ H) as [v ->]. simpl. eauto.
  - destruct (subscript_at_least _ _ 0 H) as [r ->]; [lia|]. simpl. eauto.
  - destruct (subscript_at_least _ _ 0 H) as [s0 ->]; [lia|].
    destruct (subscript_at_least _ _ 1 H) as [s1 ->]; [lia|]. simpl. eauto.
Qed.

(** ... and only for them: on any other geom it raises. *)
Lemma mjcf_geom_to_sdf_returns geom :
  returns (MjcfToSdf.mjcf_geom_to_sdf geom) = readable geom.
Proof.
  destruct (readable geom) eqn:E.
  - destruct (mjcf_geom_to_sdf_readable _ E) as [G ->]. reflexivity.
  - revert E.
    unfold readable, MjcfToSdf.mjcf_geom_to_sdf, segment_readable,
      MjcfToSdf.segment_length, Su.list_to_vec3d.
    cbv zeta.
    destruct (Mjcf.size geom) as [[|s0 [|s1 [|s2 sz]]]|];
      destruct (Mjcf.fromto geom) as [[|f0 [|f1 [|f2 [|f3 [|f4 [|f5 ft]]]]]]|];
      repeat match goal with
             | |- context [if eq_str ?t ?s then _ else _] => destruct (eq_str t s)
             end; cbn; intros E; (discriminate E || reflexivity).
Qed.

Lemma readable_supported geom :
  implb (readable geom) (supported_type (Mjcf.type geom)) = true.
Proof.
  unfold readable, supported_type. cbv zeta.
  repeat match goal with
         | |- context [if eq_str ?t ?s then _ else _] => destruct (eq_str t s)
         end; cbn; try reflexivity;
    match goal with |- implb ?b _ = _ => destruct b end; reflexivity.
Qed.

(** The distance between (1, 1, 0) and (4, 5, 0) is five. *)
Example distance_3_4_5 :
  Ign.distance (mkVector3d F64.one F64.one F64.zero)
               (mkVector3d Examples.four Examples.five F64.zero) = Examples.five.
Proof. vm_compute. reflexivity. Qed.

Section AddGeometry.
Variables Attrs Joint FreeJoint Camera Light : Type.
Local Notation Body := (Mjcf.Body Attrs Joint FreeJoint Camera Light).
Variable quat_to_euler_list : Sdf.Quaterniond -> list F64.float.

Local Notation add_geometry :=
  (SdfToMjcf.add_geometry (Attrs:=Attrs) (Joint:=Joint) (FreeJoint:=FreeJoint)
     (Camera:=Camera) (Light:=Light) quat_to_euler_list).
Local Notation fresh_geom := (SdfToMjcf.fresh_geom quat_to_euler_list).

(** Without a geometry nothing is added and nothing is raised. *)
Lemma add_geometry_None (body : Body) name pose :
  add_geometry body name pose None = (ret None, body).
Proof. reflexivity. Qed.

(** A box becomes a "box" geom whose size is the box size over two. *)
Lemma add_geometry_box (body : Body) name pose G bx :
  Sdf.box_shape G = Some bx ->
  exists h body',
    add_geometry body name pose (Some G) = (ret (Some h), body')
    /\ Mjcf.geom body'
       = (Mjcf.geom body
            ++ [Mjcf.set_size (Mjcf.set_type (fresh_geom name pose) "box")
                  (Su.vec3d_to_list (div3 (Sdf.box_size bx) F64.two))])%list
    /\ Mjcf.get_geom body' h
       = Some (Mjcf.set_size (Mjcf.set_type (fresh_geom name pose) "box")
                 (Su.vec3d_to_list (div3 (Sdf.box_size bx) F64.two))).
Proof.
  intros Hbox.
  unfold SdfToMjcf.add_geometry. rewrite Hbox.
  rewrite (surjective_pairing (Mjcf.add_geom body _)).
  do 2 eexists. split; [reflexivity|]. split.
  - apply BodyFacts.geoms_after_add.
  - apply BodyFacts.get_added_geom.
Qed.

(** When [add_geometry] raises, the geom it had added stays in the body,
    without type or size. *)
Lemma add_geometry_raises_after_add (body : Body) name pose G e :
  fst (add_geometry body name pose (Some G)) = raise e ->
  snd (add_geometry body name pose (Some G))
  = fst (Mjcf.add_geom body (fresh_geom name pose)).
Proof.
  unfold SdfToMjcf.add_geometry.
  rewrite (surjective_pairing (Mjcf.add_geom body _)).
  destruct (Sdf.box_shape G); [discriminate|].
  destruct (Sdf.capsule_shape G); [discriminate|].
  destruct (Sdf.cylinder_shape G); [discriminate|].
  destruct (Sdf.ellipsoid_shape G); [discriminate|].
  destruct (Sdf.plane_shape G); [discriminate|].
  destruct (Sdf.sphere_shape G); [discriminate|].
  destruct (Sdf.mesh_shape G); reflexivity.
Qed.
End AddGeometry.

(** A box of full extents (2, 2, 2) becomes a geom of size (1, 1, 1). *)
Example box_2_2_2 :
  exists h body',
    SdfToMjcf.add_geometry Examples.quat_to_euler_list Examples.empty_body
      "box" Sdf.identity_pose
      (Some (Examples.box_geometry F64.two F64.two F64.two))
    = (ret (Some h), body')
    /\ option_map Mjcf.size (Mjcf.get_geom body' h)
       = Some (Some [F64.one; F64.one; F64.one]).
Proof. do 2 eexists. split; vm_compute; reflexivity. Qed.

End ShapeFacts.

(** ** Names of the converted attachments *)

Module NamingFacts.
Import Py MjcfToSdf Naming.
Local Open Scope string_scope.

Lemma str_inj n m : str n = str m -> n = m.
Proof.
  unfold str. intros H.
  apply DecimalN.Unsigned.to_uint_inj.
  assert (E : Some (N.to_uint n) = Some (N.to_uint m)).
  { rewrite <- !NilEmpty.usu. rewrite H. reflexivity. }
  congruence.
Qed.

Lemma append_inj_r (p a b : string) : p ++ a = p ++ b -> a = b.
Proof.
  induction p as [|c p IH]; simpl; intros H.
  - exact H.
  - injection H as H. auto.
Qed.

(** Names numbered by increasing numbers are pairwise distinct. *)
Lemma sorted_NoDup (l : list N) : StronglySorted N.lt l -> NoDup l.
Proof.
  induction 1 as [|k l _ IH Hk]; constructor; [|exact IH].
  intros Hin. rewrite Forall_forall in Hk. apply Hk in Hin. lia.
Qed.

Lemma numbered_names_NoDup (p : string) (l : list N) :
  NoDup l -> NoDup (map (fun k => p ++ str k) l).
Proof.
  induction 1 as [|k l Hk _ IH]; cbn; constructor; [|exact IH].
  intros Hin. apply in_map_iff in Hin. destruct Hin as (k' & E & Hk').
  apply append_inj_r, str_inj in E. subst k'. contradiction.
Qed.

(** What the two converters do, in the allocator's terms: the name and
    the counters do not depend on what the shape converter answers. *)
Lemma call_spec r geom g :
  call r geom g = (outcome r geom g, next_state r (Mjcf.name geom) g).
Proof.
  unfold call, outcome, mjcf_visual_to_sdf, mjcf_collision_to_sdf,
    mjcf_visual_to_sdf_with, mjcf_collision_to_sdf_with, name_for, next_state.
  destruct r, (Mjcf.name geom) as [n|]; cbn;
    destruct (mjcf_geom_to_sdf geom) as [e|[G|]]; reflexivity.
Qed.

Lemma calls_spec cs g : calls cs g = (outcomes cs g, final_state cs g).
Proof.
  revert g. induction cs as [|[r geom] cs IH]; intros g.
  - reflexivity.
  - cbn [calls outcomes final_state]. rewrite call_spec, IH. reflexivity.
Qed.

Lemma element_name_mk r n G : element_name (mk_element r n G) = n.
Proof. destruct r; reflexivity. Qed.

Lemma element_role_mk r n G : element_role (mk_element r n G) = r.
Proof. destruct r; reflexivity. Qed.

Lemma counter_next_state r r' geom g :
  counter r (next_state r' (Mjcf.name geom) g)
  = if is_anonymous r (r', geom) then N.succ (counter r g) else counter r g.
Proof.
  unfold is_anonymous. cbn [fst snd].
  destruct r, r', (Mjcf.name geom); cbn; lia.
Qed.

Lemma final_state_counter r cs g :
  counter r (final_state cs g)
  = (counter r g + N.of_nat (count_anonymous r cs))%N.
Proof.
  revert g. induction cs as [|[r' geom] cs IH]; intros g.
  - cbn. lia.
  - cbn [final_state]. rewrite IH, counter_next_state.
    unfold count_anonymous. cbn [filter].
    destruct (is_anonymous r (r', geom)); cbn [List.length]; lia.
Qed.

(** The name that comes back from an anonymous call of the role [r] is
    made of the value of its counter. *)
Lemma returned_name_anonymous r r' geom g :
  is_anonymous r (r', geom) = true ->
  returned_name (outcome r' geom g)
  = if returns (mjcf_geom_to_sdf geom)
    then [anonymous_prefix r ++ str (counter r g)] else [].
Proof.
  unfold is_anonymous, outcome. cbn [fst snd]. intros E.
  apply andb_true_iff in E. destruct E as [E1 E2].
  pose proof (@ShapeFacts.mjcf_geom_to_sdf_not_None geom) as Hn.
  destruct (mjcf_geom_to_sdf geom) as [e|[G|]]; cbn.
  - reflexivity.
  - rewrite element_name_mk.
    destruct r, r'; try discriminate E1;
      destruct (Mjcf.name geom); try discriminate E2; reflexivity.
  - exfalso. apply Hn. reflexivity.
Qed.

(** The anonymous names that come back are numbered by the values the
    counter had at their calls. *)
Lemma anonymous_names_numbers r cs g :
  anonymous_names r cs (outcomes cs g)
  = map (fun k => anonymous_prefix r ++ str k) (anonymous_numbers r cs g).
Proof.
  revert g. induction cs as [|[r' geom] cs IH]; intros g.
  - reflexivity.
  - unfold anonymous_names in *.
    cbn [outcomes combine flat_map anonymous_numbers fst snd].
    rewrite map_app, IH.
    destruct (is_anonymous r (r', geom)) eqn:E.
    + rewrite (@returned_name_anonymous r r' geom g E). cbn [andb].
      destruct (returns (mjcf_geom_to_sdf geom)); reflexivity.
    + reflexivity.
Qed.

(** Those values are at least the value the counter had at the start,
    and they increase. *)
Lemma anonymous_numbers_ge r cs g :
  Forall (fun k => (counter r g <= k)%N) (anonymous_numbers r cs g).
Proof.
  revert g. induction cs as [|[r' geom] cs IH]; intros g.
  - constructor.
  - cbn [anonymous_numbers]. apply Forall_app. split.
    + destruct (is_anonymous r (r', geom) && returns (mjcf_geom_to_sdf geom));
        repeat constructor. lia.
    + specialize (IH (next_state r' (Mjcf.name geom) g)).
      rewrite counter_next_state in IH.
      eapply Forall_impl; [|exact IH]. cbn.
      intros k Hk. destruct (is_anonymous r (r', geom)); lia.
Qed.

Lemma anonymous_numbers_sorted r cs g :
  StronglySorted N.lt (anonymous_numbers r cs g).
Proof.
  revert g. induction cs as [|[r' geom] cs IH]; intros g.
  - constructor.
  - cbn [anonymous_numbers].
    destruct (is_anonymous r (r', geom)) eqn:E; cbn [andb]; [|apply IH].
    destruct (returns (mjcf_geom_to_sdf geom)); [|apply IH].
    cbn [app]. constructor; [apply IH|].
    pose proof (anonymous_numbers_ge r cs (next_state r' (Mjcf.name geom) g)) as H.
    rewrite counter_next_state, E in H.
    eapply Forall_impl; [|exact H]. cbn. intros k Hk. lia.
Qed.

(** When every call returns they are consecutive. *)
Lemma anonymous_numbers_consecutive r cs g :
  Forall (fun c => Shape.readable (snd c) = true) cs ->
  anonymous_numbers r cs g = N_seq (counter r g) (count_anonymous r cs).
Proof.
  intros H. revert g. induction H as [|[r' geom] cs Hr _ IH]; intros g.
  - reflexivity.
  - cbn [anonymous_numbers]. unfold count_anonymous. cbn [filter].
    rewrite IH, counter_next_state.
    cbn [snd] in Hr. rewrite ShapeFacts.mjcf_geom_to_sdf_returns, Hr, andb_true_r.
    destruct (is_anonymous r (r', geom)); reflexivity.
Qed.

End NamingFacts.

(** ** The walk over the bodies *)

Module WorldFacts.
Import Py.
Local Open Scope string_scope.
Local Open Scope list_scope.

Section Walk.
Variables Attrs Joint FreeJoint Camera Light : Type.
Variables Physics Modifiers : Type.
Variables SdfLink SdfJoint SdfLight SdfSensor : Type.

Local Notation Body := (Mjcf.Body Attrs Joint FreeJoint Camera Light).
Local Notation RootElement := (Mjcf.RootElement Attrs Joint FreeJoint Camera Light).
Local Notation Model := (Sdf.Model SdfLink SdfJoint).
Local Notation SdfWorld := (Sdf.World SdfLink SdfJoint SdfLight).

Variable MjcfModifiers : RootElement -> Modifiers.
Variable apply_modifiers_to_light : Modifiers -> Light -> Light.
Variable apply_modifiers_to_joint : Modifiers -> Joint -> Joint.
Variable mjcf_light_to_sdf : Light -> SdfLight.
Variable mjcf_body_to_sdf :
  Body -> Physics -> option string -> Modifiers -> result SdfLink.
Variable mjcf_camera_sensor_to_sdf : Camera -> option SdfSensor.
Variable add_sensor : SdfLink -> SdfSensor -> SdfLink.
Variable mjcf_joint_to_sdf :
  Joint -> option string -> option string -> option SdfJoint.
Variable add_fixed_joint : option string -> option string -> SdfJoint.
Variable find_unique_name : Body -> string -> string -> string.

Variable physics : Physics.
Variable modifiers : Modifiers.

Local Notation iterate_body :=
  (World.iterate_body apply_modifiers_to_joint mjcf_body_to_sdf
     mjcf_camera_sensor_to_sdf add_sensor mjcf_joint_to_sdf add_fixed_joint
     physics modifiers).
Local Notation iterate_bodies :=
  (World.iterate_bodies apply_modifiers_to_joint mjcf_body_to_sdf
     mjcf_camera_sensor_to_sdf add_sensor mjcf_joint_to_sdf add_fixed_joint
     physics modifiers).
Local Notation links_convert :=
  (Walk.links_convert mjcf_body_to_sdf physics modifiers).
Local Notation walked :=
  (Walk.walked apply_modifiers_to_joint mjcf_body_to_sdf
     mjcf_camera_sensor_to_sdf add_sensor mjcf_joint_to_sdf add_fixed_joint
     physics modifiers).
Local Notation walk_body :=
  (Walk.walk_body (Attrs:=Attrs) (Joint:=Joint) (FreeJoint:=FreeJoint)
     (Camera:=Camera) (Light:=Light)).
Local Notation walk :=
  (Walk.walk (Attrs:=Attrs) (Joint:=Joint) (FreeJoint:=FreeJoint)
     (Camera:=Camera) (Light:=Light)).

Lemma extend_extend (model : Model) ls js ls' js' :
  Walk.extend (Walk.extend model ls js) ls' js'
  = Walk.extend model (ls ++ ls') (js ++ js').
Proof.
  unfold Walk.extend. cbn. rewrite <- !app_assoc. reflexivity.
Qed.

Lemma extend_nil (model : Model) : Walk.extend model [] [] = model.
Proof.
  destruct model. unfold Walk.extend. cbn. rewrite !app_nil_r. reflexivity.
Qed.

(** The loop over the declared joints adds the converted ones. *)
Lemma add_declared_joints_spec joints p n (model : Model) :
  World.add_declared_joints apply_modifiers_to_joint mjcf_joint_to_sdf
    modifiers joints p n model
  = Walk.extend model []
      (flat_map
         (fun joint =>
            match mjcf_joint_to_sdf (apply_modifiers_to_joint modifiers joint) p n with
            | Some joint_sdf => [joint_sdf]
            | None => []
            end) joints).
Proof.
  unfold World.add_declared_joints.
  revert model. induction joints as [|j joints IH]; intros model.
  - cbn. rewrite extend_nil. reflexivity.
  - cbn [fold_left flat_map]. rewrite IH.
    destruct (mjcf_joint_to_sdf (apply_modifiers_to_joint modifiers j) p n).
    + unfold Walk.extend, Sdf.add_joint. cbn. rewrite <- !app_assoc. reflexivity.
    + reflexivity.
Qed.

(** The walk over a list of bodies, from the walks over its members. *)
Lemma iterate_bodies_from_members children :
  Forall
    (fun b =>
       forall model parent,
         links_convert (walk_body parent b) ->
         iterate_body b model parent = ret (walked (walk_body parent b) model))
    children ->
  forall model parent,
    links_convert (walk parent children) ->
    iterate_bodies children model parent = ret (walked (walk parent children) model).
Proof.
  induction 1 as [|b children Hb _ IH]; intros model parent Hc.
  - cbn. unfold Walk.walked. cbn. rewrite extend_nil. reflexivity.
  - unfold Walk.links_convert, Walk.walk in Hc.
    cbn [flat_map] in Hc. apply Forall_app in Hc. destruct Hc as [Hc1 Hc2].
    cbn [World.iterate_bodies].
    rewrite (Hb model parent Hc1). cbn [bind ret].
    rewrite (IH _ parent Hc2).
    unfold Walk.walked, Walk.walk. cbn [flat_map].
    rewrite extend_extend, !flat_map_app. reflexivity.
Qed.

(** The loop inside [iterate_body] is [iterate_bodies]. *)
Lemma inner_loop children model name :
  (fix iterate (input_body : list Body) (model : Model) : result Model :=
     match input_body with
     | [] => ret model
     | body :: rest =>
         bind (iterate_body body model name) (fun model => iterate rest model)
     end) children model
  = iterate_bodies children model name.
Proof.
  revert model. induction children as [|b children IH]; intros model.
  - reflexivity.
  - cbn [World.iterate_bodies].
    destruct (iterate_body b model name) as [e|model']; cbn [bind].
    + reflexivity.
    + apply IH.
Qed.

Lemma iterate_body_spec (b : Body) :
  forall model parent,
    links_convert (walk_body parent b) ->
    iterate_body b model parent = ret (walked (walk_body parent b) model).
Proof.
  pattern b. apply Mjcf.Body_nested_ind. clear b.
  intros n a g j f c l children IH.
  intros model parent Hc.
  unfold Walk.links_convert in Hc.
  cbn [Walk.walk_body] in Hc. apply Forall_cons_iff in Hc.
  destruct Hc as [Hb Hc]. cbn [fst snd] in Hb.
  cbn [World.iterate_body].
  unfold Walk.walked. cbn [Walk.walk_body flat_map].
  unfold Walk.link_of at 1. cbn [fst snd].
  destruct (mjcf_body_to_sdf (Mjcf.mkBody n a g j f c l children)
              physics parent modifiers) as [e|link]; [discriminate Hb|].
  cbn [bind].
  rewrite inner_loop.
  rewrite (iterate_bodies_from_members IH _ _ Hc).
  f_equal. unfold Walk.walked, Walk.walk.
  rewrite add_declared_joints_spec.
  unfold Walk.joints_of at 1, Walk.declared_joints, Walk.synthesized_joints.
  cbn [fst snd Mjcf.joint Mjcf.freejoint Mjcf.body_name Mjcf.camera].
  destruct j as [|j0 j]; destruct f as [f|]; cbn [List.length Nat.eqb is_None andb];
    unfold Walk.extend, Sdf.add_link, Sdf.add_joint; cbn;
    rewrite <- ?app_assoc, ?app_nil_r; reflexivity.
Qed.

(** [iterate_bodies] adds the links and joints of the bodies of the walk,
    in the order of the walk. *)
Lemma iterate_bodies_spec bodies model parent :
  links_convert (walk parent bodies) ->
  iterate_bodies bodies model parent = ret (walked (walk parent bodies) model).
Proof.
  apply iterate_bodies_from_members.
  apply Forall_forall. intros b _ m p. apply iterate_body_spec.
Qed.

Lemma walk_body_head parent (b : Body) : In (parent, b) (walk_body parent b).
Proof. destruct b. cbn. auto. Qed.

(** The walk meets every body below [input_body], each with the name of
    its immediate parent. *)
Lemma walk_closed (parent : option string) (input_body : list Body) :
  (forall b, In b input_body -> In (parent, b) (walk parent input_body))
  /\ (forall p b child,
         In (p, b) (walk parent input_body) ->
         In child (Mjcf.body b) ->
         In (Mjcf.body_name b, child) (walk parent input_body)).
Proof.
  split.
  - intros b Hb. unfold Walk.walk. apply in_flat_map. exists b.
    split; [exact Hb | apply walk_body_head].
  - assert (Hbody : forall b0 : Body, forall parent0 p b child,
               In (p, b) (walk_body parent0 b0) ->
               In child (Mjcf.body b) ->
               In (Mjcf.body_name b, child) (walk_body parent0 b0)).
    { intros b0. pattern b0. apply Mjcf.Body_nested_ind. clear b0.
      intros n a g j f c l children IH parent0 p b child Hin Hchild.
      cbn [Walk.walk_body] in Hin |- *. destruct Hin as [E|Hin].
      - injection E as <- <-. cbn in Hchild |- *. right.
        apply in_flat_map. exists child.
        split; [exact Hchild | apply walk_body_head].
      - right. apply in_flat_map in Hin. destruct Hin as (b1 & Hb1 & Hin).
        apply in_flat_map. exists b1. split; [exact Hb1|].
        rewrite Forall_forall in IH. eapply IH; eauto. }
    intros p b child Hin Hchild. unfold Walk.walk in *.
    apply in_flat_map in Hin. destruct Hin as (b0 & Hb0 & Hin).
    apply in_flat_map. exists b0. split; [exact Hb0|]. eapply Hbody; eauto.
Qed.

(** Applying the options changes neither the models, the lights nor the
    plugins of the world. *)
Lemma apply_option_spec (o : option Mjcf.Option_) (world : SdfWorld) :
  Walk.option_readable o = true ->
  exists world',
    World.apply_option o world = ret world'
    /\ Sdf.models world' = Sdf.models world
    /\ Sdf.lights world' = Sdf.lights world
    /\ Sdf.plugins world' = Sdf.plugins world.
Proof.
  destruct o as [o|]; [|intros _; exists world; repeat split].
  unfold Walk.option_readable, World.apply_option. intros H.
  apply andb_true_iff in H. destruct H as [H Hw].
  apply andb_true_iff in H. destruct H as [Hg Hm].
  assert (Hvec : forall l, is_None l || Su.at_least 3 l = true ->
                   negb (is_None l) = true ->
                   exists v, Su.list_to_vec3d l = ret v).
  { intros l Hl Hn. apply ShapeFacts.list_to_vec3d_at_least.
    destruct (is_None l); [discriminate Hn | exact Hl]. }
  destruct (eq_str (Mjcf.flag_gravity o) "disable");
    [|destruct (negb (is_None (Mjcf.option_gravity o))) eqn:Eg;
      [destruct (Hvec _ Hg Eg) as [vg ->]|]];
    cbn [bind];
    (destruct (negb (is_None (Mjcf.option_magnetic o))) eqn:Em;
     [destruct (Hvec _ Hm Em) as [vm ->]|]);
    cbn [bind];
    (destruct (negb (is_None (Mjcf.option_wind o))) eqn:Ew;
     [destruct (Hvec _ Hw Ew) as [vw ->]|]);
    cbn [bind]; eexists; repeat split.
Qed.

Lemma fold_add_light (ls : list Light) (f : Light -> SdfLight) (world : SdfWorld) :
  let world' := fold_left (fun w l => Sdf.add_light w (f l)) ls world in
  Sdf.models world' = Sdf.models world /\ Sdf.plugins world' = Sdf.plugins world.
Proof.
  revert world. induction ls as [|l ls IH]; intros world; cbn.
  - split; reflexivity.
  - destruct (IH (Sdf.add_light world (f l))) as [-> ->]. split; reflexivity.
Qed.

Lemma fold_add_plugin (kvs : list (string * string)) (world : SdfWorld) :
  let world' :=
    fold_left (fun w kv => Sdf.add_plugin w (Sdf.mkPlugin (fst kv) (snd kv)))
      kvs world in
  Sdf.models world' = Sdf.models world
  /\ Sdf.plugins world'
     = Sdf.plugins world ++ map (fun kv => Sdf.mkPlugin (fst kv) (snd kv)) kvs.
Proof.
  revert world. induction kvs as [|kv kvs IH]; intros world; cbn.
  - rewrite app_nil_r. split; reflexivity.
  - destruct (IH (Sdf.add_plugin world (Sdf.mkPlugin (fst kv) (snd kv)))) as [-> ->].
    cbn. rewrite <- app_assoc. split; reflexivity.
Qed.
End Walk.

Section Run.
Variables Attrs Joint FreeJoint Camera Light : Type.
Variables Physics Modifiers : Type.
Variables SdfLink SdfJoint SdfLight SdfSensor : Type.

Local Notation Body := (Mjcf.Body Attrs Joint FreeJoint Camera Light).
Local Notation RootElement := (Mjcf.RootElement Attrs Joint FreeJoint Camera Light).
Local Notation SdfWorld := (Sdf.World SdfLink SdfJoint SdfLight).

Variable MjcfModifiers : RootElement -> Modifiers.
Variable apply_modifiers_to_light : Modifiers -> Light -> Light.
Variable apply_modifiers_to_joint : Modifiers -> Joint -> Joint.
Variable mjcf_light_to_sdf : Light -> SdfLight.
Variable mjcf_body_to_sdf :
  Body -> Physics -> option string -> Modifiers -> result SdfLink.
Variable mjcf_camera_sensor_to_sdf : Camera -> option SdfSensor.
Variable add_sensor : SdfLink -> SdfSensor -> SdfLink.
Variable mjcf_joint_to_sdf :
  Joint -> option string -> option string -> option SdfJoint.
Variable add_fixed_joint : option string -> option string -> SdfJoint.
Variable find_unique_name : Body -> string -> string -> string.

(** What a run of [mjcf_worldbody_to_sdf] that is not stopped by an
    exception leaves in the world. *)
Lemma mjcf_worldbody_to_sdf_spec
      (mjcf_root : RootElement) (physics : Physics) (world : SdfWorld)
      (export_world_plugins : bool) (link : SdfLink) :
  mjcf_body_to_sdf (Mjcf.worldbody mjcf_root) physics None (MjcfModifiers mjcf_root)
  = ret link ->
  Walk.links_convert mjcf_body_to_sdf physics (MjcfModifiers mjcf_root)
    (Walk.walk None (Mjcf.body (Mjcf.worldbody mjcf_root))) ->
  Walk.option_readable (Mjcf.option_ mjcf_root) = true ->
  exists world',
    World.mjcf_worldbody_to_sdf MjcfModifiers apply_modifiers_to_light
      apply_modifiers_to_joint mjcf_light_to_sdf mjcf_body_to_sdf
      mjcf_camera_sensor_to_sdf add_sensor mjcf_joint_to_sdf add_fixed_joint
      find_unique_name mjcf_root physics world export_world_plugins
    = ret world'
    /\ Sdf.models world'
       = Sdf.models world
           ++ [Walk.static_model SdfJoint mjcf_camera_sensor_to_sdf add_sensor
                 find_unique_name mjcf_root link;
               Walk.walked apply_modifiers_to_joint mjcf_body_to_sdf
                 mjcf_camera_sensor_to_sdf add_sensor mjcf_joint_to_sdf
                 add_fixed_joint physics (MjcfModifiers mjcf_root)
                 (Walk.walk None (Mjcf.body (Mjcf.worldbody mjcf_root)))
                 (Walk.named_model SdfLink SdfJoint mjcf_root)]
    /\ Sdf.plugins world'
       = Sdf.plugins world
           ++ (if export_world_plugins
               then map (fun kv => Sdf.mkPlugin (fst kv) (snd kv)) World.plugins
               else []).
Proof.
  intros Hlink Hwalk Hopt.
  unfold World.mjcf_worldbody_to_sdf.
  rewrite Hlink. cbn [bind ret].
  match goal with
  | |- context [World.apply_option _ ?w] =>
      destruct (@apply_option_spec SdfLink SdfJoint SdfLight _ w Hopt)
        as (w1 & -> & Hm1 & _ & Hp1)
  end.
  cbn [bind ret].
  assert (Hnamed : match Mjcf.model mjcf_root with
                   | Some n => Sdf.set_name (Sdf.new_Model SdfLink SdfJoint) n
                   | None => Sdf.set_name (Sdf.new_Model SdfLink SdfJoint) "model"
                   end = Walk.named_model SdfLink SdfJoint mjcf_root).
  { unfold Walk.named_model. destruct (Mjcf.model mjcf_root); reflexivity. }
  rewrite Hnamed.
  rewrite iterate_bodies_spec by exact Hwalk.
  cbn [bind ret]. eexists. split; [reflexivity|].
  cbn [Sdf.models Sdf.plugins Sdf.add_model] in *.
  destruct (fold_add_light (Mjcf.light (Mjcf.worldbody mjcf_root))
              (fun l => mjcf_light_to_sdf
                          (apply_modifiers_to_light (MjcfModifiers mjcf_root) l))
              world) as [Hml Hpl].
  destruct export_world_plugins.
  - destruct (fold_add_plugin World.plugins w1) as [Hmp Hpp].
    rewrite Hmp, Hpp, Hm1, Hp1, Hml, Hpl.
    rewrite <- app_assoc. split; reflexivity.
  - rewrite Hm1, Hp1, Hml, Hpl, app_nil_r.
    rewrite <- app_assoc. split; reflexivity.
Qed.
End Run.

End WorldFacts.

(* ===================================================================== *)
(** * The claims of the specification *)
(* ===================================================================== *)

(** ** The walk: C1, C7, C9 *)

Section WorldClaims.
Import Py.
Local Open Scope string_scope.
Local Open Scope list_scope.

Variables Attrs Joint FreeJoint Camera Light : Type.
Variables Physics Modifiers : Type.
Variables SdfLink SdfJoint SdfLight SdfSensor : Type.

Local Notation Body := (Mjcf.Body Attrs Joint FreeJoint Camera Light).
Local Notation RootElement := (Mjcf.RootElement Attrs Joint FreeJoint Camera Light).
Local Notation Model := (Sdf.Model SdfLink SdfJoint).
Local Notation SdfWorld := (Sdf.World SdfLink SdfJoint SdfLight).

Variable MjcfModifiers : RootElement -> Modifiers.
Variable apply_modifiers_to_light : Modifiers -> Light -> Light.
Variable apply_modifiers_to_joint : Modifiers -> Joint -> Joint.
Variable mjcf_light_to_sdf : Light -> SdfLight.
Variable mjcf_body_to_sdf :
  Body -> Physics -> option string -> Modifiers -> result SdfLink.
Variable mjcf_camera_sensor_to_sdf : Camera -> option SdfSensor.
Variable add_sensor : SdfLink -> SdfSensor -> SdfLink.
Variable mjcf_joint_to_sdf :
  Joint -> option string -> option string -> option SdfJoint.
Variable add_fixed_joint : option string -> option string -> SdfJoint.
Variable find_unique_name : Body -> string -> string -> string.

Local Notation iterate_bodies :=
  (World.iterate_bodies apply_modifiers_to_joint mjcf_body_to_sdf
     mjcf_camera_sensor_to_sdf add_sensor mjcf_joint_to_sdf add_fixed_joint).
Local Notation mjcf_worldbody_to_sdf :=
  (World.mjcf_worldbody_to_sdf MjcfModifiers apply_modifiers_to_light
     apply_modifiers_to_joint mjcf_light_to_sdf mjcf_body_to_sdf
     mjcf_camera_sensor_to_sdf add_sensor mjcf_joint_to_sdf add_fixed_joint
     find_unique_name).
Local Notation declared_joints :=
  (Walk.declared_joints (Attrs:=Attrs) (FreeJoint:=FreeJoint) (Camera:=Camera)
     (Light:=Light) apply_modifiers_to_joint mjcf_joint_to_sdf).
Local Notation synthesized_joints :=
  (Walk.synthesized_joints (Attrs:=Attrs) (Joint:=Joint) (FreeJoint:=FreeJoint)
     (Camera:=Camera) (Light:=Light) add_fixed_joint).
Local Notation links_convert := (Walk.links_convert mjcf_body_to_sdf).
Local Notation walk :=
  (Walk.walk (Attrs:=Attrs) (Joint:=Joint) (FreeJoint:=FreeJoint)
     (Camera:=Camera) (Light:=Light)).

(** C1.  [iterate_bodies] adds to the model, for the bodies of the tree
    in the order of the walk, the converted declared joints of each body
    followed by its synthesized joints; a body that declares no joint and
    has no free joint has exactly one synthesized joint, the fixed joint
    from the body it is a child of to itself, and no declared one; a body
    that declares a joint has no synthesized joint.  The walk meets every
    body of the tree, each with the name of its immediate parent.
    (Stated for trees whose bodies the link converter accepts: the walk
    stops at the first one it rejects.) *)
Theorem iterate_bodies_fixed_joints :
  forall (physics : Physics) (modifiers : Modifiers)
         (input_body : list Body) (model : Model)
         (body_parent_name : option string),
    links_convert physics modifiers (walk body_parent_name input_body) ->
    exists model',
      iterate_bodies physics modifiers input_body model body_parent_name
      = ret model'
      /\ Sdf.joints model'
         = Sdf.joints model
             ++ flat_map
                  (fun pb => declared_joints modifiers pb ++ synthesized_joints pb)
                  (walk body_parent_name input_body)
      /\ (forall pb,
             In pb (walk body_parent_name input_body) ->
             (Mjcf.joint (snd pb) = [] ->
              Mjcf.freejoint (snd pb) = None ->
              declared_joints modifiers pb = []
              /\ synthesized_joints pb
                 = [add_fixed_joint (fst pb) (Mjcf.body_name (snd pb))])
             /\ (Mjcf.joint (snd pb) <> [] -> synthesized_joints pb = []))
      /\ (forall b, In b input_body ->
                    In (body_parent_name, b) (walk body_parent_name input_body))
      /\ (forall p b child,
             In (p, b) (walk body_parent_name input_body) ->
             In child (Mjcf.body b) ->
             In (Mjcf.body_name b, child) (walk body_parent_name input_body)).
Proof.
  intros physics modifiers input_body model parent Hc.
  eexists. split.
  - apply WorldFacts.iterate_bodies_spec. exact Hc.
  - split; [reflexivity|]. split; [|apply WorldFacts.walk_closed].
    intros [p b] _. cbn [fst snd]. split.
    + intros Hj Hf.
      unfold Walk.declared_joints, Walk.synthesized_joints.
      cbn [fst snd]. rewrite Hj, Hf. split; reflexivity.
    + intros Hj.
      unfold Walk.synthesized_joints. cbn [fst snd].
      destruct (Mjcf.joint b); [contradiction|reflexivity].
Qed.

(** C7.  In a run that no exception stops, the world body is emitted as
    a model of its own: it is marked static, holds the one link made of
    the world body, and is added to the world before, and apart from,
    the model the bodies below the world body are walked into.  That
    second model is not static and is named after the [model] attribute
    of the root, or "model" when there is none. *)
Theorem world_body_static_model :
  forall (mjcf_root : RootElement) (physics : Physics) (world : SdfWorld)
         (export_world_plugins : bool) (link : SdfLink),
    mjcf_body_to_sdf (Mjcf.worldbody mjcf_root) physics None (MjcfModifiers mjcf_root)
    = ret link ->
    links_convert physics (MjcfModifiers mjcf_root)
      (walk None (Mjcf.body (Mjcf.worldbody mjcf_root))) ->
    Walk.option_readable (Mjcf.option_ mjcf_root) = true ->
    exists world' model_static model,
      mjcf_worldbody_to_sdf mjcf_root physics world export_world_plugins
      = ret world'
      /\ Sdf.models world' = Sdf.models world ++ [model_static; model]
      /\ Sdf.static model_static = true
      /\ Sdf.model_name model_static
         = find_unique_name (Mjcf.worldbody mjcf_root) "geom" "static"
      /\ Sdf.links model_static
         = [World.add_camera_sensors mjcf_camera_sensor_to_sdf add_sensor
              (Mjcf.camera (Mjcf.worldbody mjcf_root)) link]
      /\ Sdf.joints model_static = []
      /\ Sdf.static model = false
      /\ Sdf.model_name model
         = match Mjcf.model mjcf_root with
           | Some n => n
           | None => "model"
           end
      /\ model_static <> model
      /\ Sdf.links model
         = flat_map
             (Walk.link_of mjcf_body_to_sdf mjcf_camera_sensor_to_sdf
                add_sensor physics (MjcfModifiers mjcf_root))
             (walk None (Mjcf.body (Mjcf.worldbody mjcf_root))).
Proof.
  intros mjcf_root physics world export_world_plugins link Hlink Hwalk Hopt.
  destruct (@WorldFacts.mjcf_worldbody_to_sdf_spec
              _ _ _ _ _ _ _ _ _ _ _
              MjcfModifiers apply_modifiers_to_light apply_modifiers_to_joint
              mjcf_light_to_sdf mjcf_body_to_sdf mjcf_camera_sensor_to_sdf
              add_sensor mjcf_joint_to_sdf add_fixed_joint find_unique_name
              mjcf_root physics world export_world_plugins link Hlink Hwalk Hopt)
    as (world' & Hrun & Hmodels & _).
  do 3 eexists. split; [exact Hrun|]. split; [exact Hmodels|].
  repeat split.
  intros E. apply (f_equal (@Sdf.static _ _)) in E. discriminate E.
Qed.

(** C9.  In a run that no exception stops, the plugins of the world are
    those it had, followed, when [export_world_plugins] is true, by
    exactly the four system plugins (physics, sensors, user commands,
    scene broadcaster), and by nothing when it is false. *)
Theorem world_plugins_exported :
  forall (mjcf_root : RootElement) (physics : Physics) (world : SdfWorld)
         (export_world_plugins : bool) (link : SdfLink),
    mjcf_body_to_sdf (Mjcf.worldbody mjcf_root) physics None (MjcfModifiers mjcf_root)
    = ret link ->
    links_convert physics (MjcfModifiers mjcf_root)
      (walk None (Mjcf.body (Mjcf.worldbody mjcf_root))) ->
    Walk.option_readable (Mjcf.option_ mjcf_root) = true ->
    exists world',
      mjcf_worldbody_to_sdf mjcf_root physics world export_world_plugins
      = ret world'
      /\ Sdf.plugins world'
         = Sdf.plugins world
             ++ (if export_world_plugins
                 then
                   [Sdf.mkPlugin "ignition-gazebo-physics-system"
                      "ignition::gazebo::systems::Physics";
                    Sdf.mkPlugin "ignition-gazebo-sensors-system"
                      "ignition::gazebo::systems::Sensors";
                    Sdf.mkPlugin "ignition-gazebo-user-commands-system"
                      "ignition::gazebo::systems::UserCommands";
                    Sdf.mkPlugin "ignition-gazebo-scene-broadcaster-system"
                      "ignition::gazebo::systems::SceneBroadcaster"]
                 else []).
Proof.
  intros mjcf_root physics world export_world_plugins link Hlink Hwalk Hopt.
  destruct (@WorldFacts.mjcf_worldbody_to_sdf_spec
              _ _ _ _ _ _ _ _ _ _ _
              MjcfModifiers apply_modifiers_to_light apply_modifiers_to_joint
              mjcf_light_to_sdf mjcf_body_to_sdf mjcf_camera_sensor_to_sdf
              add_sensor mjcf_joint_to_sdf add_fixed_joint find_unique_name
              mjcf_root physics world export_world_plugins link Hlink Hwalk Hopt)
    as (world' & Hrun & _ & Hplugins).
  exists world'. split; [exact Hrun|]. exact Hplugins.
Qed.

End WorldClaims.

Lemma iterate_bodies_fixed_joints_witness :
  exists model',
    World.iterate_bodies Examples.apply_modifiers Examples.mjcf_body_to_sdf
      Examples.mjcf_camera_sensor_to_sdf Examples.add_sensor
      Examples.mjcf_joint_to_sdf Examples.add_fixed_joint tt tt
      [Examples.arm; Examples.ball] (Sdf.new_Model _ _) None
    = Py.ret model'
    /\ Sdf.joints model'
       = [("fixed", None, Some "arm");
          ("hinge", Some "arm", Some "forearm")]%string.
Proof.
  assert (Hwalk : Walk.links_convert Examples.mjcf_body_to_sdf tt tt
                    (Walk.walk None [Examples.arm; Examples.ball]))
    by (repeat constructor).
  destruct (@iterate_bodies_fixed_joints unit string unit string string
              unit unit Examples.Link Examples.JointSdf string
              Examples.apply_modifiers Examples.mjcf_body_to_sdf
              Examples.mjcf_camera_sensor_to_sdf Examples.add_sensor
              Examples.mjcf_joint_to_sdf Examples.add_fixed_joint
              tt tt [Examples.arm; Examples.ball] (Sdf.new_Model _ _) None Hwalk)
    as (model' & Hrun & Hjoints & _).
  exists model'. split; [exact Hrun|]. rewrite Hjoints. reflexivity.
Defined.

Lemma world_body_static_model_witness :
  exists world' model_static model,
    World.mjcf_worldbody_to_sdf Examples.MjcfModifiers Examples.apply_modifiers
      Examples.apply_modifiers Examples.mjcf_light_to_sdf Examples.mjcf_body_to_sdf
      Examples.mjcf_camera_sensor_to_sdf Examples.add_sensor
      Examples.mjcf_joint_to_sdf Examples.add_fixed_joint Examples.find_unique_name
      Examples.root tt Examples.empty_world false
    = Py.ret world'
    /\ Sdf.models world' = [model_static; model]
    /\ Sdf.static model_static = true
    /\ Sdf.model_name model_static = "static"%string
    /\ Sdf.links model_static = [(None, ["overview"%string])]
    /\ Sdf.static model = false
    /\ Sdf.model_name model = "model"%string
    /\ Sdf.links model
       = [(Some "arm", []); (Some "forearm", []); (Some "ball", [])]%string.
Proof.
  assert (Hwalk : Walk.links_convert Examples.mjcf_body_to_sdf tt
                    (Examples.MjcfModifiers Examples.root)
                    (Walk.walk None (Mjcf.body (Mjcf.worldbody Examples.root))))
    by (repeat constructor).
  destruct (@world_body_static_model unit string unit string string
              unit unit Examples.Link Examples.JointSdf string string
              Examples.MjcfModifiers Examples.apply_modifiers
              Examples.apply_modifiers Examples.mjcf_light_to_sdf
              Examples.mjcf_body_to_sdf Examples.mjcf_camera_sensor_to_sdf
              Examples.add_sensor Examples.mjcf_joint_to_sdf
              Examples.add_fixed_joint Examples.find_unique_name
              Examples.root tt Examples.empty_world false (None, [])
              eq_refl Hwalk eq_refl)
    as (world' & model_static & model & Hrun & Hmodels & Hs & Hn & Hl & _
        & Hs' & Hn' & _ & Hl').
  exists world', model_static, model.
  repeat split; assumption.
Defined.

Lemma world_plugins_exported_witness :
  exists world',
    World.mjcf_worldbody_to_sdf Examples.MjcfModifiers Examples.apply_modifiers
      Examples.apply_modifiers Examples.mjcf_light_to_sdf Examples.mjcf_body_to_sdf
      Examples.mjcf_camera_sensor_to_sdf Examples.add_sensor
      Examples.mjcf_joint_to_sdf Examples.add_fixed_joint Examples.find_unique_name
      Examples.root tt Examples.empty_world true
    = Py.ret world'
    /\ List.length (Sdf.plugins world') = 4
    /\ map (@Sdf.plugin_name) (Sdf.plugins world')
       = ["ignition::gazebo::systems::Physics";
          "ignition::gazebo::systems::Sensors";
          "ignition::gazebo::systems::UserCommands";
          "ignition::gazebo::systems::SceneBroadcaster"]%string.
Proof.
  assert (Hwalk : Walk.links_convert Examples.mjcf_body_to_sdf tt
                    (Examples.MjcfModifiers Examples.root)
                    (Walk.walk None (Mjcf.body (Mjcf.worldbody Examples.root))))
    by (repeat constructor).
  destruct (@world_plugins_exported unit string unit string string
              unit unit Examples.Link Examples.JointSdf string string
              Examples.MjcfModifiers Examples.apply_modifiers
              Examples.apply_modifiers Examples.mjcf_light_to_sdf
              Examples.mjcf_body_to_sdf Examples.mjcf_camera_sensor_to_sdf
              Examples.add_sensor Examples.mjcf_joint_to_sdf
              Examples.add_fixed_joint Examples.find_unique_name
              Examples.root tt Examples.empty_world true (None, [])
              eq_refl Hwalk eq_refl)
    as (world' & Hrun & Hplugins).
  exists world'. split; [exact Hrun|]. rewrite Hplugins. split; reflexivity.
Defined.

(** ** Names: C8, C3 *)

Section NamingClaims.
Import Py MjcfToSdf Naming.
Local Open Scope string_scope.

(** C8.  An attachment with a declared name is named by the prefix of
    its role, "visual_" or "collision_", followed by the declared name;
    one without is named "unnamed_<role>_<n>" with [n] the counter of
    the role, which the call then increases by one.  In any sequence of
    calls, as a conversion run makes, the anonymous names of a role that
    come back are therefore numbered by increasing numbers, from the
    value the counter had at the start on (and consecutively when every
    call returns), and no two of them are equal.  (The single call is
    stated for a geom the shape converter accepts: for the others it
    raises.) *)
Theorem attachment_names :
  forall (geom : Mjcf.Geom) (g : Globals) (cs : list (Role * Mjcf.Geom)),
    Shape.readable geom = true ->
    (exists v,
        mjcf_visual_to_sdf geom g
        = (ret (Some v),
           match Mjcf.name geom with
           | Some _ => g
           | None => mkGlobals (VISUAL_NUMBER g + 1) (COLLISION_NUMBER g)
           end)
        /\ Sdf.visual_name v
           = match Mjcf.name geom with
             | Some n => "visual_" ++ n
             | None => "unnamed_visual_" ++ str (VISUAL_NUMBER g)
             end)
    /\ (exists c,
        mjcf_collision_to_sdf geom g
        = (ret (Some c),
           match Mjcf.name geom with
           | Some _ => g
           | None => mkGlobals (VISUAL_NUMBER g) (COLLISION_NUMBER g + 1)
           end)
        /\ Sdf.collision_name c
           = match Mjcf.name geom with
             | Some n => "collision_" ++ n
             | None => "unnamed_collision_" ++ str (COLLISION_NUMBER g)
             end)
    /\ (forall r,
           exists ks,
             anonymous_names r cs (fst (calls cs g))
             = map (fun k => anonymous_prefix r ++ str k) ks
             /\ StronglySorted N.lt ks
             /\ Forall (fun k => (counter r g <= k)%N) ks
             /\ (Forall (fun c => Shape.readable (snd c) = true) cs ->
                 ks = N_seq (counter r g) (count_anonymous r cs)))
    /\ (forall r, NoDup (anonymous_names r cs (fst (calls cs g))))
    /\ (forall r,
           counter r (snd (calls cs g))
           = (counter r g + N.of_nat (count_anonymous r cs))%N).
Proof.
  intros geom g cs Hgeom.
  destruct (ShapeFacts.mjcf_geom_to_sdf_readable _ Hgeom) as [G HG].
  split; [|split; [|split; [|split]]].
  - unfold mjcf_visual_to_sdf, mjcf_visual_to_sdf_with. rewrite HG.
    destruct (Mjcf.name geom); cbn; eexists; split; reflexivity.
  - unfold mjcf_collision_to_sdf, mjcf_collision_to_sdf_with. rewrite HG.
    destruct (Mjcf.name geom); cbn; eexists; split; reflexivity.
  - intros r. exists (anonymous_numbers r cs g).
    rewrite NamingFacts.calls_spec. cbn [fst].
    split; [apply NamingFacts.anonymous_names_numbers|].
    split; [apply NamingFacts.anonymous_numbers_sorted|].
    split; [apply NamingFacts.anonymous_numbers_ge|].
    apply NamingFacts.anonymous_numbers_consecutive.
  - intros r. rewrite NamingFacts.calls_spec. cbn [fst].
    rewrite NamingFacts.anonymous_names_numbers.
    apply NamingFacts.numbered_names_NoDup, NamingFacts.sorted_NoDup,
      NamingFacts.anonymous_numbers_sorted.
  - intros r. rewrite NamingFacts.calls_spec. cbn [snd].
    apply NamingFacts.final_state_counter.
Qed.

(** C3, as the code has it.  The counters are 0 when the module is
    loaded, so the first anonymous visual an interpreter converts is
    named "unnamed_visual_0".  They are never reset: the anonymous
    visual of a run that starts with the counters [g] an earlier run
    left is named "unnamed_visual_<VISUAL_NUMBER g>", and after a run of
    one anonymous visual from the loaded state that is
    "unnamed_visual_1". *)
Theorem anonymous_counter_persists :
  forall (geom : Mjcf.Geom) (g : Globals),
    Mjcf.name geom = None ->
    Shape.readable geom = true ->
    (exists v1 g1 v2 g2,
        mjcf_visual_to_sdf geom module_load = (ret (Some v1), g1)
        /\ Sdf.visual_name v1 = "unnamed_visual_0"
        /\ mjcf_visual_to_sdf geom g1 = (ret (Some v2), g2)
        /\ Sdf.visual_name v2 = "unnamed_visual_1")
    /\ (exists v g',
        mjcf_visual_to_sdf geom g = (ret (Some v), g')
        /\ Sdf.visual_name v = "unnamed_visual_" ++ str (VISUAL_NUMBER g)
        /\ VISUAL_NUMBER g' = (VISUAL_NUMBER g + 1)%N
        /\ COLLISION_NUMBER g' = COLLISION_NUMBER g).
Proof.
  intros geom g Hname Hgeom.
  destruct (ShapeFacts.mjcf_geom_to_sdf_readable _ Hgeom) as [G HG].
  assert (Hrun : forall g0,
             mjcf_visual_to_sdf geom g0
             = (ret (Some (Sdf.mkVisual
                             ("unnamed_visual_" ++ str (VISUAL_NUMBER g0))
                             (Some G) (Sdf.visual_pose Sdf.new_Visual))),
                mkGlobals (VISUAL_NUMBER g0 + 1) (COLLISION_NUMBER g0))).
  { intros g0. unfold mjcf_visual_to_sdf, mjcf_visual_to_sdf_with.
    rewrite HG, Hname. reflexivity. }
  split.
  - do 4 eexists. rewrite !Hrun. repeat split.
  - do 2 eexists. rewrite Hrun. repeat split.
Qed.

End NamingClaims.

Lemma attachment_names_witness :
  map Naming.returned_name
    (fst (MjcfToSdf.calls Examples.attachments MjcfToSdf.module_load))
  = [["unnamed_visual_0"]; ["unnamed_collision_0"]; ["visual_c"]; [];
     ["unnamed_visual_2"]]%string
  /\ Naming.anonymous_names MjcfToSdf.VisualRole Examples.attachments
       (fst (MjcfToSdf.calls Examples.attachments MjcfToSdf.module_load))
     = ["unnamed_visual_0"; "unnamed_visual_2"]%string
  /\ NoDup
       (Naming.anonymous_names MjcfToSdf.VisualRole Examples.attachments
          (fst (MjcfToSdf.calls Examples.attachments MjcfToSdf.module_load)))
  /\ snd (MjcfToSdf.calls Examples.attachments MjcfToSdf.module_load)
     = MjcfToSdf.mkGlobals 3 1.
Proof.
  destruct (@attachment_names Examples.anonymous_sphere MjcfToSdf.module_load
              Examples.attachments eq_refl)
    as (_ & _ & _ & Hnodup & _).
  split; [reflexivity|]. split; [reflexivity|].
  split; [exact (Hnodup MjcfToSdf.VisualRole) | reflexivity].
Defined.

(** C3 as the specification words it fails: of two runs made one after
    the other, each converting one anonymous visual, the second does not
    produce "unnamed_visual_0". *)
Lemma second_run_not_fresh :
  let run1 := MjcfToSdf.mjcf_visual_to_sdf Examples.anonymous_sphere
                MjcfToSdf.module_load in
  let run2 := MjcfToSdf.mjcf_visual_to_sdf Examples.anonymous_sphere (snd run1) in
  ~ (match fst run1, fst run2 with
     | inr (Some v1), inr (Some v2) =>
         Sdf.visual_name v1 = "unnamed_visual_0"%string
         /\ Sdf.visual_name v2 = "unnamed_visual_0"%string
     | _, _ => False
     end).
Proof.
  cbn. intros [_ H]. discriminate H.
Qed.

Lemma anonymous_counter_persists_witness :
  Mjcf.name Examples.anonymous_sphere = None
  /\ Shape.readable Examples.anonymous_sphere = true
  /\ exists v g',
      MjcfToSdf.mjcf_visual_to_sdf Examples.anonymous_sphere
        (MjcfToSdf.mkGlobals 7 2) = (Py.ret (Some v), g')
      /\ Sdf.visual_name v = "unnamed_visual_7"%string
      /\ MjcfToSdf.VISUAL_NUMBER g' = 8%N
      /\ MjcfToSdf.COLLISION_NUMBER g' = 2%N.
Proof.
  split; [reflexivity|]. split; [reflexivity|].
  exact (proj2 (anonymous_counter_persists Examples.anonymous_sphere
                  (MjcfToSdf.mkGlobals 7 2) eq_refl eq_refl)).
Defined.

(** ** Shapes: C10, C6, C2, C5, C4 *)

Section ShapeClaims.
Import Py Ign Shape.
Local Open Scope string_scope.

(** C10, as the code has it.  [mjcf_geom_to_sdf] either returns a
    geometry object or raises, and so do [mjcf_visual_to_sdf] and
    [mjcf_collision_to_sdf] with an element: none of the three ever
    returns [None], whatever the geom, so the [None] branches of the two
    callers are not reachable.  The two callers return (rather than
    raise) exactly for the geoms that are [readable]: those of one of
    the six supported types whose [size] and [fromto] hold the numbers
    that type reads. *)
Theorem visual_collision_never_none :
  forall (geom : Mjcf.Geom) (g : MjcfToSdf.Globals),
    ((exists G, MjcfToSdf.mjcf_geom_to_sdf geom = ret (Some G))
     \/ (exists e, MjcfToSdf.mjcf_geom_to_sdf geom = raise e))
    /\ ((exists v, fst (MjcfToSdf.mjcf_visual_to_sdf geom g) = ret (Some v))
        \/ (exists e, fst (MjcfToSdf.mjcf_visual_to_sdf geom g) = raise e))
    /\ ((exists c, fst (MjcfToSdf.mjcf_collision_to_sdf geom g) = ret (Some c))
        \/ (exists e, fst (MjcfToSdf.mjcf_collision_to_sdf geom g) = raise e))
    /\ returns (fst (MjcfToSdf.mjcf_visual_to_sdf geom g)) = readable geom
    /\ returns (fst (MjcfToSdf.mjcf_collision_to_sdf geom g)) = readable geom
    /\ implb (readable geom) (supported_type (Mjcf.type geom)) = true.
Proof.
  intros geom g.
  pose proof (ShapeFacts.mjcf_geom_to_sdf_returns geom) as Hr.
  pose proof (@ShapeFacts.mjcf_geom_to_sdf_not_None geom) as Hn.
  unfold MjcfToSdf.mjcf_visual_to_sdf, MjcfToSdf.mjcf_collision_to_sdf,
    MjcfToSdf.mjcf_visual_to_sdf_with, MjcfToSdf.mjcf_collision_to_sdf_with.
  destruct (MjcfToSdf.mjcf_geom_to_sdf geom) as [e|[G|]];
    [| |exfalso; apply Hn; reflexivity].
  - repeat split; try (right; destruct (Mjcf.name geom); cbn; eauto);
      try (destruct (Mjcf.name geom); exact Hr).
    apply ShapeFacts.readable_supported.
  - repeat split; try (left; destruct (Mjcf.name geom); cbn; eauto);
      try (destruct (Mjcf.name geom); exact Hr).
    apply ShapeFacts.readable_supported.
Qed.


Variables Attrs Joint FreeJoint Camera Light : Type.
Local Notation Body := (Mjcf.Body Attrs Joint FreeJoint Camera Light).
Variable quat_to_euler_list : Sdf.Quaterniond -> list F64.float.

Local Notation add_geometry :=
  (SdfToMjcf.add_geometry (Attrs:=Attrs) (Joint:=Joint) (FreeJoint:=FreeJoint)
     (Camera:=Camera) (Light:=Light) quat_to_euler_list).
Local Notation add_collision :=
  (SdfToMjcf.add_collision (Attrs:=Attrs) (Joint:=Joint) (FreeJoint:=FreeJoint)
     (Camera:=Camera) (Light:=Light) quat_to_euler_list).
Local Notation fresh_geom := (SdfToMjcf.fresh_geom quat_to_euler_list).

(** C2, as the code has it.  The B-to-A conversion ([mjcf_geom_to_sdf])
    multiplies each size component of a box by 2 and the A-to-B
    conversion ([add_geometry]) divides each by 2.  For half-extents
    [a], [b], [c] of magnitude below 2^1023, B-to-A followed by A-to-B
    returns exactly [a], [b], [c]; for full extents [x], [y], [z] that
    are multiples of 2^-1073, A-to-B followed by B-to-A returns exactly
    [x], [y], [z]. *)
Theorem box_round_trip_exact :
  forall (a b c x y z : F64.float) (geom : Mjcf.Geom) (G : Sdf.Geometry)
         (body : Body) (name : string) (pose : Sdf.Pose3d),
    F64.valid a = true -> F64.valid b = true -> F64.valid c = true ->
    F64.below_2p1023 a = true -> F64.below_2p1023 b = true ->
    F64.below_2p1023 c = true ->
    Mjcf.type geom = Some "box" -> Mjcf.size geom = Some [a; b; c] ->
    F64.valid x = true -> F64.valid y = true -> F64.valid z = true ->
    F64.halves_exactly x = true -> F64.halves_exactly y = true ->
    F64.halves_exactly z = true ->
    Sdf.box_shape G = Some (Sdf.mkBox (mkVector3d x y z)) ->
    (exists GA h body' geomB,
        MjcfToSdf.mjcf_geom_to_sdf geom = ret (Some GA)
        /\ Sdf.type GA = Sdf.BOX
        /\ Sdf.box_shape GA
           = Some (Sdf.mkBox (mkVector3d (F64.mul a F64.two) (F64.mul b F64.two)
                                (F64.mul c F64.two)))
        /\ add_geometry body name pose (Some GA) = (ret (Some h), body')
        /\ Mjcf.get_geom body' h = Some geomB
        /\ Mjcf.type geomB = Some "box"
        /\ Mjcf.size geomB = Some [a; b; c])
    /\ (exists h body' geomB GA,
        add_geometry body name pose (Some G) = (ret (Some h), body')
        /\ Mjcf.get_geom body' h = Some geomB
        /\ Mjcf.type geomB = Some "box"
        /\ Mjcf.size geomB
           = Some [F64.div x F64.two; F64.div y F64.two; F64.div z F64.two]
        /\ MjcfToSdf.mjcf_geom_to_sdf geomB = ret (Some GA)
        /\ Sdf.type GA = Sdf.BOX
        /\ Sdf.box_shape GA = Some (Sdf.mkBox (mkVector3d x y z))).
Proof.
  intros a b c x y z geom G body name pose
         Va Vb Vc Ba Bb Bc Htype Hsize Vx Vy Vz Hx Hy Hz HG.
  split.
  - unfold MjcfToSdf.mjcf_geom_to_sdf. rewrite Htype, Hsize. cbn.
    destruct (@ShapeFacts.add_geometry_box _ _ _ _ _ quat_to_euler_list
                body name pose
                (Sdf.set_type
                   (Sdf.set_box_shape Sdf.new_Geometry
                      (Sdf.mkBox (mul3 (mkVector3d a b c) F64.two))) Sdf.BOX)
                _ eq_refl) as (h & body' & Hadd & _ & Hget).
    exists (Sdf.set_type
              (Sdf.set_box_shape Sdf.new_Geometry
                 (Sdf.mkBox (mul3 (mkVector3d a b c) F64.two))) Sdf.BOX).
    exists h, body'. eexists.
    repeat split; [exact Hadd | exact Hget | reflexivity |].
    unfold Su.list_to_vec3d, Su.vec3d_to_list, div3, mul3.
    cbn -[F64.mul F64.div]. rewrite !F64Facts.halve_double by assumption.
    reflexivity.
  - destruct (@ShapeFacts.add_geometry_box _ _ _ _ _ quat_to_euler_list
                body name pose G _ HG)
      as (h & body' & Hadd & _ & Hget).
    exists h, body'. eexists. eexists.
    repeat split; [exact Hadd | exact Hget | reflexivity | reflexivity | | |].
    + unfold MjcfToSdf.mjcf_geom_to_sdf. cbn. reflexivity.
    + reflexivity.
    + unfold Su.list_to_vec3d, Su.vec3d_to_list, div3, mul3.
      cbn -[F64.mul F64.div]. rewrite !F64Facts.double_halve by assumption.
      reflexivity.
Qed.

(** C5.  A geom whose type is none of the six supported strings ("mesh"
    is one such) makes [mjcf_geom_to_sdf] raise the [RuntimeError] for
    unsupported shapes, and a geometry that holds a mesh and no
    primitive makes [add_geometry] raise a [RuntimeError] as well; so
    does a geometry that holds no shape at all.  Neither call returns.
    (The geom [add_geometry] had added to the body before it looked at
    the shape stays there, without type or size.) *)
Theorem mesh_unsupported :
  forall (geom : Mjcf.Geom) (G : Sdf.Geometry)
         (body : Body) (name : string) (pose : Sdf.Pose3d),
    supported_type (Mjcf.type geom) = false ->
    no_primitive G = true ->
    MjcfToSdf.mjcf_geom_to_sdf geom
    = raise (RuntimeError
               ("Encountered unsupported shape type " ++ fmt (Mjcf.type geom)))
    /\ (Mjcf.type geom = Some "mesh" ->
        MjcfToSdf.mjcf_geom_to_sdf geom
        = raise (RuntimeError "Encountered unsupported shape type mesh"))
    /\ fst (add_geometry body name pose (Some G))
       = raise (RuntimeError
                  (match Sdf.mesh_shape G with
                   | Some _ => "Meshes are not yet supported"
                   | None =>
                       "Encountered unsupported shape type "
                         ++ Sdf.GeometryType_str (Sdf.type G)
                   end))
    /\ Mjcf.geom (snd (add_geometry body name pose (Some G)))
       = (Mjcf.geom body ++ [fresh_geom name pose])%list.
Proof.
  intros geom G body name pose Hty HG.
  assert (H1 : MjcfToSdf.mjcf_geom_to_sdf geom
               = raise (RuntimeError
                          ("Encountered unsupported shape type "
                             ++ fmt (Mjcf.type geom)))).
  { unfold MjcfToSdf.mjcf_geom_to_sdf. unfold supported_type in Hty.
    repeat (apply orb_false_iff in Hty; destruct Hty as [Hty ?]).
    repeat match goal with H : eq_str _ _ = false |- _ => rewrite H; clear H end.
    reflexivity. }
  assert (H2 : fst (add_geometry body name pose (Some G))
               = raise (RuntimeError
                          (match Sdf.mesh_shape G with
                           | Some _ => "Meshes are not yet supported"
                           | None =>
                               "Encountered unsupported shape type "
                                 ++ Sdf.GeometryType_str (Sdf.type G)
                           end))).
  { unfold no_primitive in HG.
    repeat (apply andb_true_iff in HG; destruct HG as [HG ?]).
    unfold SdfToMjcf.add_geometry.
    rewrite (surjective_pairing (Mjcf.add_geom body _)).
    destruct (Sdf.box_shape G); [discriminate|].
    destruct (Sdf.capsule_shape G); [discriminate|].
    destruct (Sdf.cylinder_shape G); [discriminate|].
    destruct (Sdf.ellipsoid_shape G); [discriminate|].
    destruct (Sdf.plane_shape G); [discriminate|].
    destruct (Sdf.sphere_shape G); [discriminate|].
    destruct (Sdf.mesh_shape G); reflexivity. }
  split; [exact H1|]. split; [|split; [exact H2|]].
  - intros E. rewrite H1, E. reflexivity.
  - rewrite (ShapeFacts.add_geometry_raises_after_add _ _ _ _ _ H2).
    reflexivity.
Qed.

(** C4, where the code departs from it.  For a collision without a
    geometry [add_geometry] adds nothing and returns [None], and
    [add_collision], unless the pose resolver has raised before, then
    raises an [AttributeError] on assigning [group]: the attachment is
    left out of the body, but not silently. *)
Theorem add_collision_none_geometry_raises :
  forall (body : Body) (name : string) (sem_pose : Sdf.SemanticPose)
         (pose : Sdf.Pose3d)
         (pose_resolver : Sdf.SemanticPose -> result Sdf.Pose3d),
    add_geometry body name pose None = (ret None, body)
    /\ add_collision body (Sdf.mkCollision name None sem_pose) pose_resolver
       = (match pose_resolver sem_pose with
          | inl e => raise e
          | inr _ =>
              raise (AttributeError "'NoneType' object has no attribute 'group'")
          end,
          body).
Proof.
  intros. split; [reflexivity|].
  unfold SdfToMjcf.add_collision. cbn.
  destruct (pose_resolver sem_pose); reflexivity.
Qed.

End ShapeClaims.

(** C10 as the claim words it fails for a geom of a supported type that
    lacks a number the converter reads: for a sphere without [size] the
    two callers raise instead of returning an element. *)
Lemma sphere_without_size_raises :
  Shape.supported_type (Mjcf.type Examples.sphere_without_size) = true
  /\ fst (MjcfToSdf.mjcf_visual_to_sdf Examples.sphere_without_size
            MjcfToSdf.module_load) = Py.raise Py.TypeError
  /\ fst (MjcfToSdf.mjcf_collision_to_sdf Examples.sphere_without_size
            MjcfToSdf.module_load) = Py.raise Py.TypeError
  /\ ~ (exists v, fst (MjcfToSdf.mjcf_visual_to_sdf Examples.sphere_without_size
                         MjcfToSdf.module_load) = Py.ret (Some v)).
Proof.
  repeat split. intros [v H]. discriminate H.
Qed.


(** C2 as the specification words it fails where doubling overflows: the
    half-extent [max_float], the largest finite number, comes back from
    B-to-A and A-to-B as infinity. *)
Lemma box_round_trip_overflow :
  F64.valid F64.max_float = true
  /\ exists GA h body' geomB,
      MjcfToSdf.mjcf_geom_to_sdf
        (Examples.box_geom [F64.max_float; F64.one; F64.one]) = Py.ret (Some GA)
      /\ SdfToMjcf.add_geometry Examples.quat_to_euler_list Examples.empty_body
           "box" Sdf.identity_pose (Some GA) = (Py.ret (Some h), body')
      /\ Mjcf.get_geom body' h = Some geomB
      /\ Mjcf.size geomB = Some [S754_infinity false; F64.one; F64.one]
      /\ Mjcf.size geomB <> Some [F64.max_float; F64.one; F64.one].
Proof.
  split; [reflexivity|].
  do 4 eexists.
  split; [vm_compute; reflexivity|].
  split; [vm_compute; reflexivity|].
  split; [vm_compute; reflexivity|].
  split; [vm_compute; reflexivity|].
  vm_compute. discriminate.
Qed.

Lemma box_round_trip_exact_witness :
  (exists GA h body' geomB,
      MjcfToSdf.mjcf_geom_to_sdf (Examples.box_geom [F64.one; F64.two; Examples.three])
      = Py.ret (Some GA)
      /\ Sdf.type GA = Sdf.BOX
      /\ Sdf.box_shape GA
         = Some (Sdf.mkBox
                   (Ign.mkVector3d (F64.mul F64.one F64.two) (F64.mul F64.two F64.two)
                      (F64.mul Examples.three F64.two)))
      /\ SdfToMjcf.add_geometry Examples.quat_to_euler_list Examples.empty_body
           "box" Sdf.identity_pose (Some GA) = (Py.ret (Some h), body')
      /\ Mjcf.get_geom body' h = Some geomB
      /\ Mjcf.type geomB = Some "box"%string
      /\ Mjcf.size geomB = Some [F64.one; F64.two; Examples.three])
  /\ (exists h body' geomB GA,
      SdfToMjcf.add_geometry Examples.quat_to_euler_list Examples.empty_body
        "box" Sdf.identity_pose
        (Some (Examples.box_geometry F64.two F64.two F64.two))
      = (Py.ret (Some h), body')
      /\ Mjcf.get_geom body' h = Some geomB
      /\ Mjcf.type geomB = Some "box"%string
      /\ Mjcf.size geomB
         = Some [F64.div F64.two F64.two; F64.div F64.two F64.two;
                 F64.div F64.two F64.two]
      /\ MjcfToSdf.mjcf_geom_to_sdf geomB = Py.ret (Some GA)
      /\ Sdf.type GA = Sdf.BOX
      /\ Sdf.box_shape GA
         = Some (Sdf.mkBox (Ign.mkVector3d F64.two F64.two F64.two))).
Proof.
  apply (@box_round_trip_exact unit string unit string string
           Examples.quat_to_euler_list
           F64.one F64.two Examples.three F64.two F64.two F64.two
           (Examples.box_geom [F64.one; F64.two; Examples.three])
           (Examples.box_geometry F64.two F64.two F64.two)
           Examples.empty_body "box"%string Sdf.identity_pose);
    reflexivity.
Defined.

Lemma mesh_unsupported_witness :
  MjcfToSdf.mjcf_geom_to_sdf Examples.mesh_geom
  = Py.raise (Py.RuntimeError "Encountered unsupported shape type mesh")
  /\ fst (SdfToMjcf.add_geometry Examples.quat_to_euler_list Examples.empty_body
            "m" Sdf.identity_pose (Some Examples.mesh_geometry))
     = Py.raise (Py.RuntimeError "Meshes are not yet supported").
Proof.
  destruct (@mesh_unsupported unit string unit string string
              Examples.quat_to_euler_list
              Examples.mesh_geom Examples.mesh_geometry Examples.empty_body
              "m"%string Sdf.identity_pose eq_refl eq_refl) as (_ & H1 & H2 & _).
  split; [exact (H1 eq_refl) | exact H2].
Defined.

(* ===================================================================== *)
(** * Further properties of the converters *)
(* ===================================================================== *)

(** ** Shapes, in both directions *)

Module SlotFacts.
Import Py Ign.
Local Open Scope string_scope.
Local Open Scope list_scope.

Lemma eq_str_true t s : eq_str t s = true -> t = Some s.
Proof.
  destruct t as [x|]; simpl; [|discriminate].
  intros H. apply String.eqb_eq in H. congruence.
Qed.

Lemma halves_spec x : Slot.halves x = true -> F64.mul (F64.div x F64.two) F64.two = x.
Proof.
  unfold Slot.halves. intros H. apply andb_true_iff in H. destruct H.
  apply F64Facts.double_halve; assumption.
Qed.

Lemma doubles_spec x : Slot.doubles x = true -> F64.div (F64.mul x F64.two) F64.two = x.
Proof.
  unfold Slot.doubles. intros H. apply andb_true_iff in H. destruct H.
  apply F64Facts.halve_double; assumption.
Qed.

End SlotFacts.

Section ShapeProperties.
Import Py Ign Shape.
Local Open Scope string_scope.
Local Open Scope list_scope.

(** X1.  What [mjcf_geom_to_sdf] returns holds exactly one shape, the one
    its type tag names, and the tag is the one of the type string of the
    geom: no result carries a shape beside the one it is tagged as, or a
    tag without its shape. *)
Theorem mjcf_geom_to_sdf_one_shape :
  forall (geom : Mjcf.Geom) (G : Sdf.Geometry),
    MjcfToSdf.mjcf_geom_to_sdf geom = ret (Some G) ->
    Slot.held G = [Sdf.type G]
    /\ Mjcf.type geom = Slot.type_string (Sdf.type G).
Proof.
  intros geom G.
  unfold MjcfToSdf.mjcf_geom_to_sdf, MjcfToSdf.segment_length, Su.list_to_vec3d,
    ret, raise.
  cbv zeta. by_type;
    repeat match goal with
           | |- context [subscript ?l ?i] => destruct (subscript l i); cbn [bind]
           | |- context [match Mjcf.fromto ?g with _ => _ end] =>
               destruct (Mjcf.fromto g); cbn [bind]
           end;
    intros H; try discriminate H;
    injection H as <-; split;
    (reflexivity || (apply SlotFacts.eq_str_true; assumption)).
Qed.

(** X2.  The exceptions of [mjcf_geom_to_sdf], for the types whose branch
    reads [size] by subscripts (capsule, cylinder, sphere, plane) and
    for the unsupported ones: a [RuntimeError] exactly for an
    unsupported type, a [TypeError] exactly for a supported type
    without [size], and an [IndexError] otherwise, when [size] or
    [fromto] is too short. *)
Theorem mjcf_geom_to_sdf_exceptions :
  forall (geom : Mjcf.Geom) (e : exn),
    eq_str (Mjcf.type geom) "box" = false ->
    eq_str (Mjcf.type geom) "ellipsoid" = false ->
    MjcfToSdf.mjcf_geom_to_sdf geom = raise e ->
    (supported_type (Mjcf.type geom) = false
     /\ e = RuntimeError
              ("Encountered unsupported shape type " ++ fmt (Mjcf.type geom)))
    \/ (supported_type (Mjcf.type geom) = true
        /\ Mjcf.size geom = None /\ e = TypeError)
    \/ (supported_type (Mjcf.type geom) = true
        /\ Mjcf.size geom <> None /\ readable geom = false /\ e = IndexError).
Proof.
  intros geom e Hbox Hell.
  unfold MjcfToSdf.mjcf_geom_to_sdf, MjcfToSdf.segment_length,
    supported_type, readable, segment_readable, raise.
  cbv zeta. rewrite Hbox, Hell.
  destruct (eq_str (Mjcf.type geom) "capsule");
    destruct (eq_str (Mjcf.type geom) "cylinder");
    destruct (eq_str (Mjcf.type geom) "sphere");
    destruct (eq_str (Mjcf.type geom) "plane");
    destruct (Mjcf.size geom) as [[|s0 [|s1 sz]]|];
    destruct (Mjcf.fromto geom) as [[|f0 [|f1 [|f2 [|f3 [|f4 [|f5 ft]]]]]]|];
    cbn; intros H; try discriminate H; injection H as <-;
    first [ left; split; reflexivity
          | right; left; repeat split; reflexivity
          | right; right; repeat split; discriminate ].
Qed.

Variables Attrs Joint FreeJoint Camera Light : Type.
Local Notation Body := (Mjcf.Body Attrs Joint FreeJoint Camera Light).
Variable quat_to_euler_list : Sdf.Quaterniond -> list F64.float.

Local Notation add_geometry :=
  (SdfToMjcf.add_geometry (Attrs:=Attrs) (Joint:=Joint) (FreeJoint:=FreeJoint)
     (Camera:=Camera) (Light:=Light) quat_to_euler_list).
Local Notation add_collision :=
  (SdfToMjcf.add_collision (Attrs:=Attrs) (Joint:=Joint) (FreeJoint:=FreeJoint)
     (Camera:=Camera) (Light:=Light) quat_to_euler_list).
Local Notation fresh_geom := (SdfToMjcf.fresh_geom quat_to_euler_list).

(** X3.  [add_geometry] converts the first shape the geometry holds, in the
    order box, capsule, cylinder, ellipsoid, plane, sphere: the geom it
    returns has the type string of that shape, whatever else the
    geometry holds (a mesh included), and the type tag of the geometry
    plays no part in the call. *)
Theorem add_geometry_first_shape :
  forall (G : Sdf.Geometry) (body : Body) (name : string) (pose : Sdf.Pose3d)
         (first : Sdf.GeometryType) (rest : list Sdf.GeometryType),
    Slot.held G = first :: rest ->
    first <> Sdf.MESH ->
    (exists h body' geomB,
        add_geometry body name pose (Some G) = (ret (Some h), body')
        /\ Mjcf.get_geom body' h = Some geomB
        /\ Mjcf.type geomB = Slot.type_string first)
    /\ (forall t,
           add_geometry body name pose (Some (Sdf.set_type G t))
           = add_geometry body name pose (Some G)).
Proof.
  intros G body name pose first rest Hheld Hmesh.
  destruct G as [t [b|] [c|] [cy|] [e|] [p|] [s|] [m|]];
    cbn in Hheld; try discriminate Hheld;
    injection Hheld as <- <-; try contradiction;
    (split; [|reflexivity]);
    unfold SdfToMjcf.add_geometry;
    rewrite (surjective_pairing (Mjcf.add_geom body _));
    cbn [Sdf.box_shape Sdf.capsule_shape Sdf.cylinder_shape Sdf.ellipsoid_shape
         Sdf.plane_shape Sdf.sphere_shape Sdf.mesh_shape];
    do 3 eexists; (split; [reflexivity|]);
    (split; [apply BodyFacts.get_added_geom|]); reflexivity.
Qed.

(** X4.  [add_geometry] returns exactly when the geometry holds one of the
    six primitives; it then returns a geom, never [None]. *)
Theorem add_geometry_returns_iff_primitive :
  forall (G : Sdf.Geometry) (body : Body) (name : string) (pose : Sdf.Pose3d),
    returns (fst (add_geometry body name pose (Some G))) = negb (no_primitive G)
    /\ fst (add_geometry body name pose (Some G)) <> ret None.
Proof.
  intros G body name pose.
  unfold SdfToMjcf.add_geometry, no_primitive.
  rewrite (surjective_pairing (Mjcf.add_geom body _)).
  destruct G as [t [b|] [c|] [cy|] [e|] [p|] [s|] [m|]]; cbn;
    split; (reflexivity || discriminate).
Qed.

(** X5.  Whatever the geometry, and whether it returns or raises, a call of
    [add_geometry] with a geometry leaves the body as it was but for one
    geom appended after the geoms it had ([body.add] accepting the
    name): that geom has the name given, the position and the Euler
    angles of the pose, and neither [fromto] nor [group]; when the call
    returns, it returns that geom, and when it raises, the geom is left
    without type and size. *)
Theorem add_geometry_appends_one_geom :
  forall (G : Sdf.Geometry) (body : Body) (name : string) (pose : Sdf.Pose3d),
    let r := add_geometry body name pose (Some G) in
    exists g,
      Mjcf.geom (snd r) = Mjcf.geom body ++ [g]
      /\ Mjcf.name g = Some name
      /\ Mjcf.pos g = Some [X3 (Sdf.pos pose); Y3 (Sdf.pos pose); Z3 (Sdf.pos pose)]
      /\ Mjcf.euler g = Some (quat_to_euler_list (Sdf.rot pose))
      /\ Mjcf.fromto g = None
      /\ Mjcf.group g = None
      /\ (returns (fst r) = true ->
          fst r = ret (Some (List.length (Mjcf.geom body)))
          /\ Mjcf.get_geom (snd r) (List.length (Mjcf.geom body)) = Some g)
      /\ (returns (fst r) = false ->
          Mjcf.type g = None /\ Mjcf.size g = None)
      /\ Mjcf.body_name (snd r) = Mjcf.body_name body
      /\ Mjcf.attrs (snd r) = Mjcf.attrs body
      /\ Mjcf.joint (snd r) = Mjcf.joint body
      /\ Mjcf.freejoint (snd r) = Mjcf.freejoint body
      /\ Mjcf.camera (snd r) = Mjcf.camera body
      /\ Mjcf.light (snd r) = Mjcf.light body
      /\ Mjcf.body (snd r) = Mjcf.body body.
Proof.
  intros G body name pose. cbv zeta.
  unfold SdfToMjcf.add_geometry.
  rewrite (surjective_pairing (Mjcf.add_geom body _)).
  destruct G as [t [b|] [c|] [cy|] [e|] [p|] [s|] [m|]];
    cbn [Sdf.box_shape Sdf.capsule_shape Sdf.cylinder_shape Sdf.ellipsoid_shape
         Sdf.plane_shape Sdf.sphere_shape Sdf.mesh_shape fst snd];
    eexists;
    (split;
     [first [apply BodyFacts.geoms_after_add | reflexivity]|]);
    repeat split; try reflexivity;
    try (match goal with H : returns _ = _ |- _ => discriminate H end);
    try apply BodyFacts.get_added_geom.
Qed.

End ShapeProperties.

(** ** Round trips of the shapes *)

Section RoundTrips.
Import Py Ign Shape.
Local Open Scope string_scope.
Local Open Scope list_scope.

Variables Attrs Joint FreeJoint Camera Light : Type.
Local Notation Body := (Mjcf.Body Attrs Joint FreeJoint Camera Light).
Variable quat_to_euler_list : Sdf.Quaterniond -> list F64.float.

Local Notation add_geometry :=
  (SdfToMjcf.add_geometry (Attrs:=Attrs) (Joint:=Joint) (FreeJoint:=FreeJoint)
     (Camera:=Camera) (Light:=Light) quat_to_euler_list).
Local Notation add_collision :=
  (SdfToMjcf.add_collision (Attrs:=Attrs) (Joint:=Joint) (FreeJoint:=FreeJoint)
     (Camera:=Camera) (Light:=Light) quat_to_euler_list).
Local Notation fresh_geom := (SdfToMjcf.fresh_geom quat_to_euler_list).

Lemma readable_type geom :
  readable geom = true ->
  Mjcf.type geom = Some "box" \/ Mjcf.type geom = Some "capsule"
  \/ Mjcf.type geom = Some "cylinder" \/ Mjcf.type geom = Some "ellipsoid"
  \/ Mjcf.type geom = Some "sphere" \/ Mjcf.type geom = Some "plane".
Proof.
  unfold readable. cbv zeta. by_type; intros H; try discriminate H;
    repeat match goal with
           | E : eq_str _ _ = true |- _ => apply SlotFacts.eq_str_true in E
           end;
    tauto.
Qed.

(** X6.  From SDFormat to MJCF and back.  A geometry that holds one
    primitive, tagged as what it holds, and whose full extents (the size
    of a box or plane, the length of a capsule or cylinder) halve
    exactly, comes back from [add_geometry] followed by
    [mjcf_geom_to_sdf] with the same tag, the same single shape and the
    same dimensions; for a sphere or an ellipsoid, whose dimensions are
    copied, whatever its numbers. *)
Theorem sdf_round_trip_identity :
  forall (G : Sdf.Geometry) (body : Body) (name : string) (pose : Sdf.Pose3d),
    Slot.held G = [Sdf.type G] ->
    Sdf.type G <> Sdf.MESH ->
    forallb Slot.halves (Slot.full_extents G) = true ->
    exists h body' geomB,
      add_geometry body name pose (Some G) = (ret (Some h), body')
      /\ Mjcf.get_geom body' h = Some geomB
      /\ Mjcf.type geomB = Slot.type_string (Sdf.type G)
      /\ Mjcf.fromto geomB = None
      /\ MjcfToSdf.mjcf_geom_to_sdf geomB = ret (Some G).
Proof.
  intros G body name pose Hheld Hmesh Hhalf.
  destruct G as [t [[[x y z]]|] [[r l]|] [[r' l']|] [[[x' y' z']]|]
                   [[[x'' y'']]|] [[r'']|] [m|]];
    cbn in Hheld; try discriminate Hheld;
    injection Hheld as <-; try contradiction;
    cbn in Hhalf; split_andb;
    unfold SdfToMjcf.add_geometry;
    rewrite (surjective_pairing (Mjcf.add_geom body _));
    cbn [Sdf.box_shape Sdf.capsule_shape Sdf.cylinder_shape Sdf.ellipsoid_shape
         Sdf.plane_shape Sdf.sphere_shape Sdf.mesh_shape];
    do 3 eexists; (split; [reflexivity|]);
    (split; [apply BodyFacts.get_added_geom|]);
    (split; [reflexivity|]); (split; [reflexivity|]);
    unfold MjcfToSdf.mjcf_geom_to_sdf, MjcfToSdf.segment_length,
      Su.list_to_vec3d, Su.vec3d_to_list, Su.vec2d_to_list, div3, div2, mul3;
    cbn -[F64.mul F64.div];
    rewrite ?SlotFacts.halves_spec by assumption; reflexivity.
Qed.

(** X7.  From MJCF to SDFormat and back.  A geom without [fromto] that
    [mjcf_geom_to_sdf] accepts, and whose half extents double without
    overflow, comes back from [mjcf_geom_to_sdf] followed by
    [add_geometry] with its type and, as size, the components its type
    reads (three for a box or an ellipsoid, two for a capsule, a
    cylinder or a plane, one for a sphere): further components are
    dropped, and the size of a plane gets a third component 0. *)
Theorem mjcf_round_trip_size :
  forall (geom : Mjcf.Geom) (body : Body) (name : string) (pose : Sdf.Pose3d),
    readable geom = true ->
    Mjcf.fromto geom = None ->
    forallb Slot.doubles (Slot.half_extents geom) = true ->
    exists GA h body' geomB size,
      MjcfToSdf.mjcf_geom_to_sdf geom = ret (Some GA)
      /\ add_geometry body name pose (Some GA) = (ret (Some h), body')
      /\ Mjcf.get_geom body' h = Some geomB
      /\ Mjcf.type geomB = Mjcf.type geom
      /\ Mjcf.size geom = Some size
      /\ Mjcf.size geomB
         = Some (firstn (Slot.arity (Mjcf.type geom)) size
                   ++ Slot.grid_spacing (Mjcf.type geom)).
Proof.
  intros geom body name pose Hr Hft Hd.
  pose proof (readable_type _ Hr) as Htype.
  unfold readable, segment_readable in Hr. unfold Slot.half_extents in Hd.
  cbv zeta in Hr, Hd.
  unfold MjcfToSdf.mjcf_geom_to_sdf, MjcfToSdf.segment_length, Su.list_to_vec3d.
  destruct Htype as [E|[E|[E|[E|[E|E]]]]];
    rewrite E, ?Hft in *;
    destruct (Mjcf.size geom) as [[|a [|b [|c rest]]]|];
    cbn in Hr; try discriminate Hr;
    cbn in Hd; split_andb;
    cbn -[F64.mul F64.div];
    do 5 eexists; (split; [reflexivity|]);
    unfold SdfToMjcf.add_geometry;
    cbn [Sdf.box_shape Sdf.capsule_shape Sdf.cylinder_shape Sdf.ellipsoid_shape
         Sdf.plane_shape Sdf.sphere_shape Sdf.mesh_shape
         Sdf.set_type Sdf.set_box_shape Sdf.set_capsule_shape
         Sdf.set_cylinder_shape Sdf.set_ellipsoid_shape Sdf.set_plane_shape
         Sdf.set_sphere_shape Sdf.new_Geometry];
    (split; [reflexivity|]);
    (split; [apply BodyFacts.get_added_geom|]);
    (split; [reflexivity|]); (split; [reflexivity|]);
    unfold Su.vec3d_to_list, Su.vec2d_to_list, div3, div2, mul3;
    cbn -[F64.mul F64.div];
    rewrite ?SlotFacts.doubles_spec by assumption; reflexivity.
Qed.

(** X8.  A capsule or a cylinder given by [fromto] comes back from
    [mjcf_geom_to_sdf] followed by [add_geometry] without [fromto]: its
    size is the radius and half the distance between the two end points,
    and where the end points were is lost. *)
Theorem fromto_round_trip_loses_end_points :
  forall (geom : Mjcf.Geom) (body : Body) (name : string) (pose : Sdf.Pose3d)
         (r a b c d e f : F64.float) (rest tail : list F64.float),
    (Mjcf.type geom = Some "capsule" \/ Mjcf.type geom = Some "cylinder") ->
    Mjcf.size geom = Some (r :: rest) ->
    Mjcf.fromto geom = Some (a :: b :: c :: d :: e :: f :: tail) ->
    exists GA h body' geomB,
      MjcfToSdf.mjcf_geom_to_sdf geom = ret (Some GA)
      /\ add_geometry body name pose (Some GA) = (ret (Some h), body')
      /\ Mjcf.get_geom body' h = Some geomB
      /\ Mjcf.type geomB = Mjcf.type geom
      /\ Mjcf.size geomB
         = Some [r; F64.div (distance (mkVector3d a b c) (mkVector3d d e f)) F64.two]
      /\ Mjcf.fromto geomB = None.
Proof.
  intros geom body name pose r a b c d e f rest tail Htype Hsize Hft.
  unfold MjcfToSdf.mjcf_geom_to_sdf, MjcfToSdf.segment_length.
  rewrite Hsize, Hft.
  destruct Htype as [-> | ->]; cbn -[distance F64.div];
    do 4 eexists; (split; [reflexivity|]);
    unfold SdfToMjcf.add_geometry;
    cbn [Sdf.box_shape Sdf.capsule_shape Sdf.cylinder_shape
         Sdf.set_type Sdf.set_capsule_shape Sdf.set_cylinder_shape
         Sdf.new_Geometry];
    (split; [reflexivity|]);
    (split; [apply BodyFacts.get_added_geom|]); repeat split.
Qed.

(** ** Collisions *)

(** X9.  For a collision whose geometry holds a primitive, [add_collision]
    returns the geom [add_geometry] makes of it, named after the
    collision, with its [group] set to 3; it is the last geom of the
    body, and the geoms the body had are as they were. *)
Theorem add_collision_sets_group :
  forall (body : Body) (col : Sdf.Collision) (G : Sdf.Geometry)
         (pose_resolver : Sdf.SemanticPose -> result Sdf.Pose3d)
         (pose : Sdf.Pose3d),
    pose_resolver (Sdf.collision_pose col) = ret pose ->
    Sdf.collision_geometry col = Some G ->
    no_primitive G = false ->
    exists h g,
      fst (add_geometry body (Sdf.collision_name col) pose (Some G)) = ret (Some h)
      /\ Mjcf.get_geom
           (snd (add_geometry body (Sdf.collision_name col) pose (Some G))) h
         = Some g
      /\ Mjcf.group g = None
      /\ Mjcf.name g = Some (Sdf.collision_name col)
      /\ fst (add_collision body col pose_resolver) = ret (Some h)
      /\ Mjcf.geom (snd (add_collision body col pose_resolver))
         = Mjcf.geom body ++ [Mjcf.set_group g SdfToMjcf.COLLISION_GEOM_GROUP]
      /\ Mjcf.get_geom (snd (add_collision body col pose_resolver)) h
         = Some (Mjcf.set_group g 3).
Proof.
  intros body col G pose_resolver pose Hpose HG Hprim.
  unfold SdfToMjcf.add_collision. rewrite Hpose, HG.
  unfold SdfToMjcf.add_geometry, ret.
  rewrite (surjective_pairing (Mjcf.add_geom body _)).
  destruct G as [t [b|] [c|] [cy|] [e|] [p|] [s|] [m|]];
    try discriminate Hprim;
    cbn [Sdf.box_shape Sdf.capsule_shape Sdf.cylinder_shape Sdf.ellipsoid_shape
         Sdf.plane_shape Sdf.sphere_shape Sdf.mesh_shape fst snd];
    do 2 eexists; (split; [reflexivity|]);
    (split; [apply BodyFacts.get_added_geom|]);
    (split; [reflexivity|]); (split; [reflexivity|]);
    (split; [reflexivity|]);
    unfold Mjcf.get_geom, Mjcf.update_geom, Mjcf.add_geom;
    cbn [Mjcf.geom fst snd];
    rewrite !BodyFacts.update_nth_last;
    (split; [reflexivity | apply BodyFacts.nth_error_last]).
Qed.

(** X10.  The exceptions of [add_collision].  What the pose resolver raises is
    raised before anything is added to the body; what [add_geometry]
    raises (for a geometry that holds no primitive) is raised after the
    geom was added, which stays in the body without type, size or
    group. *)
Theorem add_collision_exceptions :
  forall (body : Body) (col : Sdf.Collision)
         (pose_resolver : Sdf.SemanticPose -> result Sdf.Pose3d),
    (forall e,
        pose_resolver (Sdf.collision_pose col) = raise e ->
        add_collision body col pose_resolver = (raise e, body))
    /\ (forall pose G,
           pose_resolver (Sdf.collision_pose col) = ret pose ->
           Sdf.collision_geometry col = Some G ->
           no_primitive G = true ->
           add_collision body col pose_resolver
           = (raise (RuntimeError
                       (match Sdf.mesh_shape G with
                        | Some _ => "Meshes are not yet supported"
                        | None =>
                            "Encountered unsupported shape type "
                              ++ Sdf.GeometryType_str (Sdf.type G)
                        end)),
              fst (Mjcf.add_geom body (fresh_geom (Sdf.collision_name col) pose)))).
Proof.
  intros body col pose_resolver. split.
  - intros e He. unfold SdfToMjcf.add_collision. rewrite He. reflexivity.
  - intros pose G Hpose HG Hprim.
    unfold SdfToMjcf.add_collision. rewrite Hpose, HG.
    unfold SdfToMjcf.add_geometry.
    rewrite (surjective_pairing (Mjcf.add_geom body _)).
    destruct G as [t [b|] [c|] [cy|] [e|] [p|] [s|] [m|]];
      try discriminate Hprim; reflexivity.
Qed.

End RoundTrips.

(** ** Names and counters over the calls of an interpreter *)

Module CallFacts.
Import Py MjcfToSdf Naming.
Local Open Scope string_scope.

(** A name tells the role it was made for, and the declared name or the
    number it was made of. *)
Lemma name_for_inj r1 r2 d1 d2 g1 g2 :
  name_for r1 d1 g1 = name_for r2 d2 g2 ->
  r1 = r2
  /\ match d1, d2 with
     | Some n1, Some n2 => n1 = n2
     | None, None => counter r1 g1 = counter r2 g2
     | _, _ => False
     end.
Proof.
  destruct r1, r2, d1 as [n1|], d2 as [n2|]; cbn [name_for role_prefix anonymous_prefix];
    intros H;
    try (cbn in H; discriminate H);
    split; try reflexivity;
    apply NamingFacts.append_inj_r in H; try exact H;
    apply NamingFacts.str_inj in H; exact H.
Qed.

Lemma outcome_name r geom g e :
  outcome r geom g = inr (Some e) ->
  element_name e = name_for r (Mjcf.name geom) g.
Proof.
  unfold outcome.
  destruct (mjcf_geom_to_sdf geom) as [x|[G|]]; cbn; intros H;
    try discriminate H.
  injection H as <-. apply NamingFacts.element_name_mk.
Qed.

(** The outcome of a call of the role [r] depends on the counters
    through the counter of [r] alone. *)
Lemma outcome_counter r geom g1 g2 :
  counter r g1 = counter r g2 -> outcome r geom g1 = outcome r geom g2.
Proof.
  intros H. unfold outcome, name_for. rewrite H. reflexivity.
Qed.

Lemma role_eqb_eq a b : role_eqb a b = true -> a = b.
Proof. destruct a, b; (reflexivity || discriminate). Qed.

Lemma is_anonymous_role r r' geom :
  role_eqb r' r = false -> is_anonymous r (r', geom) = false.
Proof. unfold is_anonymous. cbn. intros ->. reflexivity. Qed.

Lemma results_of_outcomes r cs g1 g2 :
  counter r g1 = counter r g2 ->
  Calls.results_of r cs (outcomes cs g1) = outcomes (Calls.of_role r cs) g2.
Proof.
  revert g1 g2. induction cs as [|[r' geom] cs IH]; intros g1 g2 Hc.
  - reflexivity.
  - unfold Calls.results_of, Calls.of_role in *.
    cbn [outcomes combine filter fst snd].
    destruct (role_eqb r' r) eqn:E.
    + apply role_eqb_eq in E. subst r'.
      cbn [map snd outcomes]. f_equal.
      * apply outcome_counter, Hc.
      * apply IH. rewrite !NamingFacts.counter_next_state, Hc. reflexivity.
    + apply IH.
      rewrite NamingFacts.counter_next_state, is_anonymous_role by exact E.
      exact Hc.
Qed.

Lemma counter_next_state_le r r' geom g :
  (counter r g <= counter r (next_state r' (Mjcf.name geom) g))%N.
Proof.
  rewrite NamingFacts.counter_next_state.
  destruct (is_anonymous r (r', geom)); lia.
Qed.

(** Every element that comes back from a sequence of calls is named by
    [name_for], at counters that are not below those of the start. *)
Lemma outcomes_names cs g e :
  In (inr (Some e)) (outcomes cs g) ->
  exists r geom g',
    element_name e = name_for r (Mjcf.name geom) g'
    /\ forall r0, (counter r0 g <= counter r0 g')%N.
Proof.
  revert g. induction cs as [|[r geom] cs IH]; intros g Hin.
  - contradiction.
  - cbn [outcomes] in Hin. destruct Hin as [Ho|Hin].
    + exists r, geom, g. split; [|intros; lia].
      apply outcome_name, Ho.
    + destruct (IH _ Hin) as (r1 & geom1 & g' & Hn & Hle).
      exists r1, geom1, g'. split; [exact Hn|].
      intros r0. specialize (Hle r0).
      pose proof (counter_next_state_le r0 r geom g). lia.
Qed.

End CallFacts.

Section CallProperties.
Import Py MjcfToSdf Naming.
Local Open Scope string_scope.

(** X11.  The name of an element that came back from a call tells the role of
    the call, and the declared name of the geom or the value the counter
    had: two elements with one name are of one role, and both made of
    one declared name or both of one counter value.  So a visual and a
    collision never share a name, nor do a named and an anonymous
    element. *)
Theorem element_names_unambiguous :
  forall (r1 r2 : Role) (geom1 geom2 : Mjcf.Geom) (g1 g2 : Globals)
         (e1 e2 : Element),
    fst (call r1 geom1 g1) = ret (Some e1) ->
    fst (call r2 geom2 g2) = ret (Some e2) ->
    element_name e1 = element_name e2 ->
    r1 = r2
    /\ match Mjcf.name geom1, Mjcf.name geom2 with
       | Some n1, Some n2 => n1 = n2
       | None, None => counter r1 g1 = counter r2 g2
       | _, _ => False
       end.
Proof.
  intros r1 r2 geom1 geom2 g1 g2 e1 e2 H1 H2 Hn.
  rewrite NamingFacts.call_spec in H1, H2. cbn [fst] in H1, H2.
  apply CallFacts.outcome_name in H1, H2.
  rewrite H1, H2 in Hn. apply CallFacts.name_for_inj in Hn. exact Hn.
Qed.

(** X12.  What comes back from the calls of one role does not depend on the
    calls of the other role made in between: taking the calls of the
    other role out of a sequence leaves the results of the remaining
    calls, names included, as they were. *)
Theorem calls_of_other_role_do_not_interfere :
  forall (r : Role) (cs : list (Role * Mjcf.Geom)) (g : Globals),
    Calls.results_of r cs (fst (calls cs g))
    = fst (calls (Calls.of_role r cs) g).
Proof.
  intros r cs g. rewrite !NamingFacts.calls_spec. cbn [fst].
  apply CallFacts.results_of_outcomes. reflexivity.
Qed.

(** X13.  A call for a geom without a name that raises (the geom is not one
    [mjcf_geom_to_sdf] accepts) has taken a number all the same: the
    counter of its role is one more after it, and no element that comes
    back from any later call carries the number it took. *)
Theorem failed_call_leaves_gap :
  forall (r : Role) (geom : Mjcf.Geom) (g : Globals)
         (cs : list (Role * Mjcf.Geom)),
    Mjcf.name geom = None ->
    Shape.readable geom = false ->
    returns (fst (call r geom g)) = false
    /\ counter r (snd (call r geom g)) = (counter r g + 1)%N
    /\ (forall e,
           In (ret (Some e)) (fst (calls cs (snd (call r geom g)))) ->
           element_name e <> anonymous_prefix r ++ str (counter r g)).
Proof.
  intros r geom g cs Hname Hread.
  rewrite NamingFacts.call_spec. cbn [fst snd].
  assert (Hc : counter r (next_state r (Mjcf.name geom) g) = (counter r g + 1)%N).
  { rewrite Hname. destruct r; cbn; lia. }
  split; [|split; [exact Hc|]].
  - unfold outcome.
    pose proof (ShapeFacts.mjcf_geom_to_sdf_returns geom) as Hr.
    rewrite Hread in Hr.
    destruct (mjcf_geom_to_sdf geom); [reflexivity | discriminate Hr].
  - intros e Hin Hn.
    rewrite NamingFacts.calls_spec in Hin. cbn [fst] in Hin.
    destruct (CallFacts.outcomes_names _ _ _ Hin) as (r1 & geom1 & g' & He & Hle).
    rewrite He in Hn.
    change (anonymous_prefix r ++ str (counter r g))
      with (name_for r None g) in Hn.
    apply CallFacts.name_for_inj in Hn. destruct Hn as [-> Hn].
    destruct (Mjcf.name geom1); [contradiction|].
    specialize (Hle r). lia.
Qed.

(** X14.  The visual and the collision made of one geom hold the same
    geometry, the one [mjcf_geom_to_sdf] returns for it, and both keep
    the pose they were created with: the position and orientation of
    the geom are not carried over by these converters. *)
Theorem visual_collision_same_geometry :
  forall (geom : Mjcf.Geom) (g g' : Globals) (v : Sdf.Visual) (c : Sdf.Collision),
    fst (mjcf_visual_to_sdf geom g) = ret (Some v) ->
    fst (mjcf_collision_to_sdf geom g') = ret (Some c) ->
    mjcf_geom_to_sdf geom = ret (Sdf.visual_geometry v)
    /\ Sdf.visual_geometry v = Sdf.collision_geometry c
    /\ Sdf.visual_geometry v <> None
    /\ Sdf.visual_pose v = Sdf.visual_pose Sdf.new_Visual
    /\ Sdf.collision_pose c = Sdf.collision_pose Sdf.new_Collision.
Proof.
  intros geom g g' v c.
  unfold mjcf_visual_to_sdf, mjcf_collision_to_sdf,
    mjcf_visual_to_sdf_with, mjcf_collision_to_sdf_with.
  destruct (mjcf_geom_to_sdf geom) as [e|[G|]];
    destruct (Mjcf.name geom); cbn; intros Hv Hc;
    try discriminate Hv;
    injection Hv as <-; injection Hc as <-; cbn;
    repeat split; discriminate.
Qed.

End CallProperties.

(** ** The walk and the run, exceptions included *)

Module RunFacts.
Import Py Ign.
Local Open Scope string_scope.
Local Open Scope list_scope.

Lemma flat_map_nil (A B : Type) (f : A -> list B) (l : list A) :
  Forall (fun x => f x = []) l -> flat_map f l = [].
Proof.
  induction 1 as [|x l Hx _ IH]; cbn; [reflexivity|].
  rewrite Hx, IH. reflexivity.
Qed.

Lemma length_flat_map_single (A B : Type) (f : A -> list B) (l : list A) :
  Forall (fun x => List.length (f x) = 1) l ->
  List.length (flat_map f l) = List.length l.
Proof.
  induction 1 as [|x l Hx _ IH]; cbn; [reflexivity|].
  rewrite length_app, Hx, IH. reflexivity.
Qed.

Section Walk.
Variables Attrs Joint FreeJoint Camera Light : Type.
Variables Physics Modifiers : Type.
Variables SdfLink SdfJoint SdfLight SdfSensor : Type.

Local Notation Body := (Mjcf.Body Attrs Joint FreeJoint Camera Light).
Local Notation RootElement := (Mjcf.RootElement Attrs Joint FreeJoint Camera Light).
Local Notation Model := (Sdf.Model SdfLink SdfJoint).
Local Notation SdfWorld := (Sdf.World SdfLink SdfJoint SdfLight).

Variable MjcfModifiers : RootElement -> Modifiers.
Variable apply_modifiers_to_light : Modifiers -> Light -> Light.
Variable apply_modifiers_to_joint : Modifiers -> Joint -> Joint.
Variable mjcf_light_to_sdf : Light -> SdfLight.
Variable mjcf_body_to_sdf :
  Body -> Physics -> option string -> Modifiers -> result SdfLink.
Variable mjcf_camera_sensor_to_sdf : Camera -> option SdfSensor.
Variable add_sensor : SdfLink -> SdfSensor -> SdfLink.
Variable mjcf_joint_to_sdf :
  Joint -> option string -> option string -> option SdfJoint.
Variable add_fixed_joint : option string -> option string -> SdfJoint.
Variable find_unique_name : Body -> string -> string -> string.

Variable physics : Physics.
Variable modifiers : Modifiers.

Local Notation iterate_body :=
  (World.iterate_body apply_modifiers_to_joint mjcf_body_to_sdf
     mjcf_camera_sensor_to_sdf add_sensor mjcf_joint_to_sdf add_fixed_joint
     physics modifiers).
Local Notation iterate_bodies :=
  (World.iterate_bodies apply_modifiers_to_joint mjcf_body_to_sdf
     mjcf_camera_sensor_to_sdf add_sensor mjcf_joint_to_sdf add_fixed_joint
     physics modifiers).
Local Notation links_convert :=
  (Walk.links_convert mjcf_body_to_sdf physics modifiers).
Local Notation walked :=
  (Walk.walked apply_modifiers_to_joint mjcf_body_to_sdf
     mjcf_camera_sensor_to_sdf add_sensor mjcf_joint_to_sdf add_fixed_joint
     physics modifiers).
Local Notation walk_body :=
  (Walk.walk_body (Attrs:=Attrs) (Joint:=Joint) (FreeJoint:=FreeJoint)
     (Camera:=Camera) (Light:=Light)).
Local Notation walk :=
  (Walk.walk (Attrs:=Attrs) (Joint:=Joint) (FreeJoint:=FreeJoint)
     (Camera:=Camera) (Light:=Light)).
Local Notation first_error :=
  (WalkErrors.first_error mjcf_body_to_sdf physics modifiers).
Local Notation all_convert :=
  (WalkErrors.all_convert mjcf_body_to_sdf physics modifiers).

(** What the walk over [bodies] makes of a model: it raises what the
    first rejected body raises, or returns the model with the links and
    joints of all the bodies. *)
Local Notation outcome bodies model :=
  (match first_error bodies with
   | Some e => raise e
   | None => ret (walked bodies model)
   end).

Lemma first_error_app l1 l2 :
  first_error (l1 ++ l2)
  = match first_error l1 with
    | Some e => Some e
    | None => first_error l2
    end.
Proof.
  induction l1 as [|pb l1 IH]; cbn.
  - reflexivity.
  - destruct (mjcf_body_to_sdf (snd pb) physics (fst pb) modifiers);
      [reflexivity | exact IH].
Qed.

Lemma all_convert_first_error l :
  all_convert l = is_None (first_error l).
Proof.
  induction l as [|pb l IH]; cbn.
  - reflexivity.
  - destruct (mjcf_body_to_sdf (snd pb) physics (fst pb) modifiers);
      [reflexivity | exact IH].
Qed.

Lemma links_convert_first_error l :
  links_convert l <-> first_error l = None.
Proof.
  unfold Walk.links_convert. induction l as [|pb l IH]; cbn.
  - split; [reflexivity | constructor].
  - rewrite Forall_cons_iff, IH.
    destruct (mjcf_body_to_sdf (snd pb) physics (fst pb) modifiers); cbn.
    + split; [intros [H _]; discriminate H | discriminate].
    + split; [intros [_ H]; exact H | intros H; split; [reflexivity | exact H]].
Qed.

Lemma walked_app l1 l2 (model : Model) :
  walked l2 (walked l1 model) = walked (l1 ++ l2) model.
Proof.
  unfold Walk.walked.
  rewrite WorldFacts.extend_extend, !flat_map_app. reflexivity.
Qed.

Lemma walked_nil (model : Model) : walked [] model = model.
Proof. unfold Walk.walked. cbn. apply WorldFacts.extend_nil. Qed.

Lemma iterate_bodies_outcome_from_members children :
  Forall
    (fun b =>
       forall model parent,
         iterate_body b model parent = outcome (walk_body parent b) model)
    children ->
  forall model parent,
    iterate_bodies children model parent = outcome (walk parent children) model.
Proof.
  induction 1 as [|b children Hb _ IH]; intros model parent.
  - cbn. rewrite walked_nil. reflexivity.
  - cbn [World.iterate_bodies]. unfold Walk.walk. cbn [flat_map].
    rewrite first_error_app, Hb.
    destruct (first_error (walk_body parent b)) as [e|]; cbn [bind raise ret].
    + reflexivity.
    + rewrite IH. unfold Walk.walk.
      destruct (first_error (flat_map (walk_body parent) children));
        [reflexivity|].
      rewrite walked_app. reflexivity.
Qed.

Lemma iterate_body_outcome (b : Body) :
  forall model parent,
    iterate_body b model parent = outcome (walk_body parent b) model.
Proof.
  pattern b. apply Mjcf.Body_nested_ind. clear b.
  intros n a g j f c l children IH model parent.
  cbn [World.iterate_body Walk.walk_body WalkErrors.first_error fst snd].
  destruct (mjcf_body_to_sdf (Mjcf.mkBody n a g j f c l children)
              physics parent modifiers) as [e|link] eqn:Hb; cbn [bind].
  - reflexivity.
  - rewrite WorldFacts.inner_loop.
    rewrite (iterate_bodies_outcome_from_members IH).
    unfold Walk.walk.
    destruct (first_error (flat_map (walk_body n) children)); [reflexivity|].
    f_equal.
    change ((parent, Mjcf.mkBody n a g j f c l children)
              :: flat_map (walk_body n) children)
      with ([(parent, Mjcf.mkBody n a g j f c l children)]
              ++ flat_map (walk_body n) children).
    rewrite <- walked_app. f_equal.
    unfold Walk.walked. cbn [flat_map].
    unfold Walk.link_of. cbn [fst snd]. rewrite Hb.
    rewrite WorldFacts.add_declared_joints_spec.
    unfold Walk.joints_of, Walk.declared_joints, Walk.synthesized_joints.
    cbn [fst snd Mjcf.joint Mjcf.freejoint Mjcf.body_name Mjcf.camera].
    destruct j as [|j0 j]; destruct f as [f|];
      cbn [List.length Nat.eqb is_None andb];
      unfold Walk.extend, Sdf.add_link, Sdf.add_joint; cbn;
      rewrite <- ?app_assoc, ?app_nil_r; reflexivity.
Qed.

(** [iterate_bodies], whether it returns or raises. *)
Lemma iterate_bodies_outcome bodies model parent :
  iterate_bodies bodies model parent = outcome (walk parent bodies) model.
Proof.
  apply iterate_bodies_outcome_from_members.
  apply Forall_forall. intros b _ m p. apply iterate_body_outcome.
Qed.

(** The loops over the lights and over the plugins. *)
Lemma fold_lights (ls : list Light) (f : Light -> SdfLight) (world : SdfWorld) :
  fold_left (fun w l => Sdf.add_light w (f l)) ls world
  = Sdf.mkWorld (Sdf.models world) (Sdf.lights world ++ map f ls)
      (Sdf.plugins world) (Sdf.gravity world) (Sdf.magnetic_field world)
      (Sdf.wind_linear_velocity world).
Proof.
  revert world. induction ls as [|l ls IH]; intros world; cbn.
  - rewrite app_nil_r. destruct world; reflexivity.
  - rewrite IH. cbn. rewrite <- app_assoc. reflexivity.
Qed.

Lemma fold_plugins (kvs : list (string * string)) (world : SdfWorld) :
  fold_left (fun w kv => Sdf.add_plugin w (Sdf.mkPlugin (fst kv) (snd kv)))
    kvs world
  = Sdf.mkWorld (Sdf.models world) (Sdf.lights world)
      (Sdf.plugins world ++ map (fun kv => Sdf.mkPlugin (fst kv) (snd kv)) kvs)
      (Sdf.gravity world) (Sdf.magnetic_field world)
      (Sdf.wind_linear_velocity world).
Proof.
  revert world. induction kvs as [|kv kvs IH]; intros world; cbn.
  - rewrite app_nil_r. destruct world; reflexivity.
  - rewrite IH. cbn. rewrite <- app_assoc. reflexivity.
Qed.

(** The options: when they can be applied, and what they leave. *)
Lemma apply_option_returns (o : option Mjcf.Option_) (world : SdfWorld) :
  returns (World.apply_option o world) = Walk.option_readable o.
Proof.
  destruct o as [[flag gr mg wd]|]; [|reflexivity].
  unfold World.apply_option, Walk.option_readable, Su.list_to_vec3d.
  cbn [Mjcf.flag_gravity Mjcf.option_gravity Mjcf.option_magnetic Mjcf.option_wind].
  destruct (eq_str flag "disable");
    destruct gr as [[|g0 [|g1 [|g2 gr]]]|];
    destruct mg as [[|m0 [|m1 [|m2 mg]]]|];
    destruct wd as [[|w0 [|w1 [|w2 wd]]]|]; reflexivity.
Qed.

Lemma apply_option_fields (o : option Mjcf.Option_) (world world' : SdfWorld) :
  World.apply_option o world = ret world' ->
  world'
  = Sdf.mkWorld (Sdf.models world) (Sdf.lights world) (Sdf.plugins world)
      (match o with
       | None => Sdf.gravity world
       | Some o =>
           if eq_str (Mjcf.flag_gravity o) "disable"
           then mkVector3d F64.zero F64.zero F64.zero
           else WalkErrors.vector_of (Mjcf.option_gravity o) (Sdf.gravity world)
       end)
      (match o with
       | None => Sdf.magnetic_field world
       | Some o =>
           WalkErrors.vector_of (Mjcf.option_magnetic o) (Sdf.magnetic_field world)
       end)
      (match o with
       | None => Sdf.wind_linear_velocity world
       | Some o =>
           WalkErrors.vector_of (Mjcf.option_wind o) (Sdf.wind_linear_velocity world)
       end).
Proof.
  destruct o as [[flag gr mg wd]|].
  - unfold World.apply_option, Su.list_to_vec3d, ret.
    cbn [Mjcf.flag_gravity Mjcf.option_gravity Mjcf.option_magnetic
         Mjcf.option_wind].
    destruct (eq_str flag "disable");
      destruct gr as [[|g0 [|g1 [|g2 gr]]]|];
      destruct mg as [[|m0 [|m1 [|m2 mg]]]|];
      destruct wd as [[|w0 [|w1 [|w2 wd]]]|];
      cbn; intros H; try discriminate H; injection H as <-;
      destruct world; reflexivity.
  - cbn. intros H. injection H as <-. destruct world; reflexivity.
Qed.
End Walk.

Section Run.
Variables Attrs Joint FreeJoint Camera Light : Type.
Variables Physics Modifiers : Type.
Variables SdfLink SdfJoint SdfLight SdfSensor : Type.

Local Notation Body := (Mjcf.Body Attrs Joint FreeJoint Camera Light).
Local Notation RootElement := (Mjcf.RootElement Attrs Joint FreeJoint Camera Light).
Local Notation SdfWorld := (Sdf.World SdfLink SdfJoint SdfLight).

Variable MjcfModifiers : RootElement -> Modifiers.
Variable apply_modifiers_to_light : Modifiers -> Light -> Light.
Variable apply_modifiers_to_joint : Modifiers -> Joint -> Joint.
Variable mjcf_light_to_sdf : Light -> SdfLight.
Variable mjcf_body_to_sdf :
  Body -> Physics -> option string -> Modifiers -> result SdfLink.
Variable mjcf_camera_sensor_to_sdf : Camera -> option SdfSensor.
Variable add_sensor : SdfLink -> SdfSensor -> SdfLink.
Variable mjcf_joint_to_sdf :
  Joint -> option string -> option string -> option SdfJoint.
Variable add_fixed_joint : option string -> option string -> SdfJoint.
Variable find_unique_name : Body -> string -> string -> string.

Local Notation mjcf_worldbody_to_sdf :=
  (World.mjcf_worldbody_to_sdf MjcfModifiers apply_modifiers_to_light
     apply_modifiers_to_joint mjcf_light_to_sdf mjcf_body_to_sdf
     mjcf_camera_sensor_to_sdf add_sensor mjcf_joint_to_sdf add_fixed_joint
     find_unique_name).

(** The run, step by step: the world body, then the options, then the
    bodies below the world body. *)
Lemma mjcf_worldbody_to_sdf_steps
      (mjcf_root : RootElement) (physics : Physics) (world : SdfWorld)
      (export_world_plugins : bool) :
  let modifiers := MjcfModifiers mjcf_root in
  let lit :=
    Sdf.mkWorld (Sdf.models world)
      (Sdf.lights world
         ++ map (fun l => mjcf_light_to_sdf (apply_modifiers_to_light modifiers l))
              (Mjcf.light (Mjcf.worldbody mjcf_root)))
      (Sdf.plugins world) (Sdf.gravity world) (Sdf.magnetic_field world)
      (Sdf.wind_linear_velocity world) in
  mjcf_worldbody_to_sdf mjcf_root physics world export_world_plugins
  = match mjcf_body_to_sdf (Mjcf.worldbody mjcf_root) physics None modifiers with
    | inl e => raise e
    | inr link =>
        match World.apply_option (Mjcf.option_ mjcf_root)
                (Sdf.add_model lit
                   (Walk.static_model SdfJoint mjcf_camera_sensor_to_sdf
                      add_sensor find_unique_name mjcf_root link)) with
        | inl e => raise e
        | inr world1 =>
            match WalkErrors.first_error mjcf_body_to_sdf physics modifiers
                    (Walk.walk None (Mjcf.body (Mjcf.worldbody mjcf_root))) with
            | Some e => raise e
            | None =>
                ret (Sdf.mkWorld
                       (Sdf.models world1
                          ++ [Walk.walked apply_modifiers_to_joint mjcf_body_to_sdf
                                mjcf_camera_sensor_to_sdf add_sensor
                                mjcf_joint_to_sdf add_fixed_joint physics modifiers
                                (Walk.walk None (Mjcf.body (Mjcf.worldbody mjcf_root)))
                                (Walk.named_model SdfLink SdfJoint mjcf_root)])
                       (Sdf.lights world1)
                       (Sdf.plugins world1
                          ++ (if export_world_plugins
                              then map (fun kv => Sdf.mkPlugin (fst kv) (snd kv))
                                     World.plugins
                              else []))
                       (Sdf.gravity world1) (Sdf.magnetic_field world1)
                       (Sdf.wind_linear_velocity world1))
            end
        end
    end.
Proof.
  cbv zeta. unfold World.mjcf_worldbody_to_sdf.
  destruct (mjcf_body_to_sdf (Mjcf.worldbody mjcf_root) physics None
              (MjcfModifiers mjcf_root)) as [e|link]; cbn [bind]; [reflexivity|].
  rewrite fold_lights.
  change (Sdf.set_static _ true)
    with (Walk.static_model SdfJoint mjcf_camera_sensor_to_sdf add_sensor
            find_unique_name mjcf_root link).
  match goal with
  | |- context [World.apply_option ?o ?w] =>
      destruct (World.apply_option o w) as [e|world1]
  end; cbn [bind]; [reflexivity|].
  assert (Hnamed : match Mjcf.model mjcf_root with
                   | Some n => Sdf.set_name (Sdf.new_Model SdfLink SdfJoint) n
                   | None => Sdf.set_name (Sdf.new_Model SdfLink SdfJoint) "model"
                   end = Walk.named_model SdfLink SdfJoint mjcf_root).
  { unfold Walk.named_model. destruct (Mjcf.model mjcf_root); reflexivity. }
  rewrite Hnamed, iterate_bodies_outcome.
  destruct (WalkErrors.first_error _ _ _ _); cbn [bind]; [reflexivity|].
  destruct export_world_plugins.
  - rewrite fold_plugins. reflexivity.
  - unfold Sdf.add_model, ret. rewrite app_nil_r. reflexivity.
Qed.
End Run.

End RunFacts.

Section WorldProperties.
Import Py Ign.
Local Open Scope string_scope.
Local Open Scope list_scope.

Variables Attrs Joint FreeJoint Camera Light : Type.
Variables Physics Modifiers : Type.
Variables SdfLink SdfJoint SdfLight SdfSensor : Type.

Local Notation Body := (Mjcf.Body Attrs Joint FreeJoint Camera Light).
Local Notation RootElement := (Mjcf.RootElement Attrs Joint FreeJoint Camera Light).
Local Notation Model := (Sdf.Model SdfLink SdfJoint).
Local Notation SdfWorld := (Sdf.World SdfLink SdfJoint SdfLight).

Variable MjcfModifiers : RootElement -> Modifiers.
Variable apply_modifiers_to_light : Modifiers -> Light -> Light.
Variable apply_modifiers_to_joint : Modifiers -> Joint -> Joint.
Variable mjcf_light_to_sdf : Light -> SdfLight.
Variable mjcf_body_to_sdf :
  Body -> Physics -> option string -> Modifiers -> result SdfLink.
Variable mjcf_camera_sensor_to_sdf : Camera -> option SdfSensor.
Variable add_sensor : SdfLink -> SdfSensor -> SdfLink.
Variable mjcf_joint_to_sdf :
  Joint -> option string -> option string -> option SdfJoint.
Variable add_fixed_joint : option string -> option string -> SdfJoint.
Variable find_unique_name : Body -> string -> string -> string.

Local Notation iterate_bodies :=
  (World.iterate_bodies apply_modifiers_to_joint mjcf_body_to_sdf
     mjcf_camera_sensor_to_sdf add_sensor mjcf_joint_to_sdf add_fixed_joint).
Local Notation mjcf_worldbody_to_sdf :=
  (World.mjcf_worldbody_to_sdf MjcfModifiers apply_modifiers_to_light
     apply_modifiers_to_joint mjcf_light_to_sdf mjcf_body_to_sdf
     mjcf_camera_sensor_to_sdf add_sensor mjcf_joint_to_sdf add_fixed_joint
     find_unique_name).
Local Notation links_convert := (Walk.links_convert mjcf_body_to_sdf).
Local Notation walk :=
  (Walk.walk (Attrs:=Attrs) (Joint:=Joint) (FreeJoint:=FreeJoint)
     (Camera:=Camera) (Light:=Light)).

(** X15.  The walk stops at the first body, in the order of the walk, that
    the link converter rejects, and raises what the converter raised for
    it: the bodies after it are not looked at.  (The camera and joint
    converters are taken to return, as everywhere in this file.) *)
Theorem iterate_bodies_first_rejected_body :
  forall (physics : Physics) (modifiers : Modifiers)
         (input_body : list Body) (model : Model)
         (body_parent_name : option string)
         (pre post : list (option string * Body))
         (p : option string) (b : Body) (e : exn),
    walk body_parent_name input_body = pre ++ (p, b) :: post ->
    links_convert physics modifiers pre ->
    mjcf_body_to_sdf b physics p modifiers = raise e ->
    iterate_bodies physics modifiers input_body model body_parent_name = raise e.
Proof.
  intros physics modifiers input_body model parent pre post p b e Hw Hpre Hb.
  rewrite RunFacts.iterate_bodies_outcome, Hw, RunFacts.first_error_app.
  apply RunFacts.links_convert_first_error in Hpre. rewrite Hpre.
  cbn [WalkErrors.first_error fst snd]. rewrite Hb. reflexivity.
Qed.

(** X16.  Walking a list of bodies is walking a first part of it and then,
    with the model this gives and unless it raised, the rest. *)
Theorem iterate_bodies_app :
  forall (physics : Physics) (modifiers : Modifiers)
         (xs ys : list Body) (model : Model) (body_parent_name : option string),
    iterate_bodies physics modifiers (xs ++ ys) model body_parent_name
    = bind (iterate_bodies physics modifiers xs model body_parent_name)
        (fun model' =>
           iterate_bodies physics modifiers ys model' body_parent_name).
Proof.
  intros physics modifiers xs ys model parent. revert model.
  induction xs as [|x xs IH]; intros model.
  - reflexivity.
  - cbn [app World.iterate_bodies].
    destruct (World.iterate_body _ _ _ _ _ _ _ _ x model parent) as [e|model'];
      cbn [bind]; [reflexivity | apply IH].
Qed.

(** X17.  The fixed joint is made on the joints a body declares, not on those
    that were converted.  When every body of the walk either is free
    (no joint, a free joint) or declares joints that the joint converter
    all skips, the walk adds one link for each body and no joint at
    all. *)
Theorem bodies_without_sdf_joint :
  forall (physics : Physics) (modifiers : Modifiers)
         (input_body : list Body) (model : Model)
         (body_parent_name : option string),
    links_convert physics modifiers (walk body_parent_name input_body) ->
    Forall
      (fun pb =>
         (Mjcf.joint (snd pb) = [] /\ Mjcf.freejoint (snd pb) <> None)
         \/ (Mjcf.joint (snd pb) <> []
             /\ Forall
                  (fun j =>
                     mjcf_joint_to_sdf (apply_modifiers_to_joint modifiers j)
                       (fst pb) (Mjcf.body_name (snd pb)) = None)
                  (Mjcf.joint (snd pb))))
      (walk body_parent_name input_body) ->
    exists model',
      iterate_bodies physics modifiers input_body model body_parent_name
      = ret model'
      /\ Sdf.joints model' = Sdf.joints model
      /\ List.length (Sdf.links model')
         = List.length (Sdf.links model)
           + List.length (walk body_parent_name input_body).
Proof.
  intros physics modifiers input_body model parent Hc Hj.
  eexists. split; [apply WorldFacts.iterate_bodies_spec; exact Hc|].
  unfold Walk.walked, Walk.extend. cbn [Sdf.joints Sdf.links]. split.
  - rewrite RunFacts.flat_map_nil; [apply app_nil_r|].
    eapply Forall_impl; [|exact Hj]. cbn beta.
    intros pb Hpb.
    unfold Walk.joints_of, Walk.declared_joints, Walk.synthesized_joints.
    destruct Hpb as [[Hno Hfree]|[Hsome Hskip]].
    + rewrite Hno. cbn. destruct (Mjcf.freejoint (snd pb)); [reflexivity|].
      contradiction.
    + rewrite RunFacts.flat_map_nil.
      * destruct (Mjcf.joint (snd pb)); [contradiction | reflexivity].
      * eapply Forall_impl; [|exact Hskip]. cbn beta.
        intros j Hj'. rewrite Hj'. reflexivity.
  - rewrite length_app, RunFacts.length_flat_map_single; [reflexivity|].
    eapply Forall_impl; [|exact Hc]. cbn beta.
    intros pb Hpb. unfold Walk.link_of.
    destruct (mjcf_body_to_sdf (snd pb) physics (fst pb) modifiers);
      [discriminate Hpb | reflexivity].
Qed.

(** X18.  With the light, camera and joint converters taken to return,
    [mjcf_worldbody_to_sdf] returns exactly when the link converter
    accepts the world body and every body below it, and every vector the
    options make it read holds three numbers.  The world body comes
    first: what the link converter raises for it is what the run
    raises; the bodies below come last: when the world body and the
    options pass, the run raises what the first rejected body raises. *)
Theorem mjcf_worldbody_to_sdf_returns_iff :
  forall (mjcf_root : RootElement) (physics : Physics) (world : SdfWorld)
         (export_world_plugins : bool),
    returns (mjcf_worldbody_to_sdf mjcf_root physics world export_world_plugins)
    = (returns (mjcf_body_to_sdf (Mjcf.worldbody mjcf_root) physics None
                  (MjcfModifiers mjcf_root))
       && Walk.option_readable (Mjcf.option_ mjcf_root)
       && WalkErrors.all_convert mjcf_body_to_sdf physics (MjcfModifiers mjcf_root)
            (walk None (Mjcf.body (Mjcf.worldbody mjcf_root))))%bool
    /\ (forall e,
           mjcf_body_to_sdf (Mjcf.worldbody mjcf_root) physics None
             (MjcfModifiers mjcf_root) = raise e ->
           mjcf_worldbody_to_sdf mjcf_root physics world export_world_plugins
           = raise e)
    /\ (forall link e,
           mjcf_body_to_sdf (Mjcf.worldbody mjcf_root) physics None
             (MjcfModifiers mjcf_root) = ret link ->
           Walk.option_readable (Mjcf.option_ mjcf_root) = true ->
           WalkErrors.first_error mjcf_body_to_sdf physics (MjcfModifiers mjcf_root)
             (walk None (Mjcf.body (Mjcf.worldbody mjcf_root))) = Some e ->
           mjcf_worldbody_to_sdf mjcf_root physics world export_world_plugins
           = raise e).
Proof.
  intros mjcf_root physics world export_world_plugins.
  rewrite RunFacts.mjcf_worldbody_to_sdf_steps. cbv zeta.
  rewrite RunFacts.all_convert_first_error.
  split; [|split].
  - destruct (mjcf_body_to_sdf _ _ _ _) as [e|link]; [reflexivity|].
    match goal with
    | |- context [World.apply_option ?o ?w] =>
        rewrite <- (RunFacts.apply_option_returns o w);
        destruct (World.apply_option o w)
    end; [reflexivity|].
    destruct (WalkErrors.first_error _ _ _ _); reflexivity.
  - intros e ->. reflexivity.
  - intros link e -> Hopt ->. cbv beta iota delta [ret].
    match goal with
    | |- context [World.apply_option ?o ?w] =>
        rewrite <- (RunFacts.apply_option_returns o w) in Hopt;
        destruct (World.apply_option o w)
    end; [discriminate Hopt | reflexivity].
Qed.

(** X19.  The lights of the world after a run are those it had, followed by
    the converted lights of the world body, in their order: the lights
    of the bodies below the world body are not added to the world. *)
Theorem world_lights_converted :
  forall (mjcf_root : RootElement) (physics : Physics) (world world' : SdfWorld)
         (export_world_plugins : bool),
    mjcf_worldbody_to_sdf mjcf_root physics world export_world_plugins
    = ret world' ->
    Sdf.lights world'
    = Sdf.lights world
        ++ map (fun l =>
                  mjcf_light_to_sdf
                    (apply_modifiers_to_light (MjcfModifiers mjcf_root) l))
             (Mjcf.light (Mjcf.worldbody mjcf_root)).
Proof.
  intros mjcf_root physics world world' export_world_plugins.
  rewrite RunFacts.mjcf_worldbody_to_sdf_steps. cbv zeta.
  destruct (mjcf_body_to_sdf _ _ _ _) as [e|link]; [discriminate|].
  match goal with
  | |- context [World.apply_option ?o ?w] =>
      destruct (World.apply_option o w) as [e|world1] eqn:Ho
  end; [discriminate|].
  apply RunFacts.apply_option_fields in Ho.
  destruct (WalkErrors.first_error _ _ _ _); [discriminate|].
  intros H. injection H as <-. rewrite Ho. reflexivity.
Qed.

(** X20.  The gravity, the magnetic field and the wind of the world after a
    run.  Without an [option] element they are those the world had.
    With one, the gravity is zero when the gravity flag is "disable",
    whether or not a gravity is declared; otherwise it is the declared
    gravity, or the one the world had when none is declared.  The
    magnetic field and the wind are the declared ones, or those the
    world had.  Of a declared vector the first three numbers are
    read. *)
Theorem world_vectors_from_option :
  forall (mjcf_root : RootElement) (physics : Physics) (world world' : SdfWorld)
         (export_world_plugins : bool),
    mjcf_worldbody_to_sdf mjcf_root physics world export_world_plugins
    = ret world' ->
    Sdf.gravity world'
    = match Mjcf.option_ mjcf_root with
      | None => Sdf.gravity world
      | Some o =>
          if eq_str (Mjcf.flag_gravity o) "disable"
          then mkVector3d F64.zero F64.zero F64.zero
          else WalkErrors.vector_of (Mjcf.option_gravity o) (Sdf.gravity world)
      end
    /\ Sdf.magnetic_field world'
       = match Mjcf.option_ mjcf_root with
         | None => Sdf.magnetic_field world
         | Some o =>
             WalkErrors.vector_of (Mjcf.option_magnetic o)
               (Sdf.magnetic_field world)
         end
    /\ Sdf.wind_linear_velocity world'
       = match Mjcf.option_ mjcf_root with
         | None => Sdf.wind_linear_velocity world
         | Some o =>
             WalkErrors.vector_of (Mjcf.option_wind o)
               (Sdf.wind_linear_velocity world)
         end.
Proof.
  intros mjcf_root physics world world' export_world_plugins.
  rewrite RunFacts.mjcf_worldbody_to_sdf_steps. cbv zeta.
  destruct (mjcf_body_to_sdf _ _ _ _) as [e|link]; [discriminate|].
  match goal with
  | |- context [World.apply_option ?o ?w] =>
      destruct (World.apply_option o w) as [e|world1] eqn:Ho
  end; [discriminate|].
  apply RunFacts.apply_option_fields in Ho.
  destruct (WalkErrors.first_error _ _ _ _); [discriminate|].
  intros H. injection H as <-. rewrite Ho.
  destruct (Mjcf.option_ mjcf_root); repeat split.
Qed.

End WorldProperties.

(** ** The length between two end points *)

Module DistanceFacts.
Import F64.
Local Open Scope Z_scope.

(** Rounding keeps the sign it is given. *)
Lemma sign_round_aux m e l :
  sign (binary_round_aux prec emax false m e l) = false.
Proof.
  unfold binary_round_aux.
  destruct (shr_fexp prec emax m e l) as [mrs' e'].
  destruct (shr_fexp prec emax _ e' loc_Exact) as [mrs'' e''].
  destruct (shr_m mrs''); try reflexivity.
  destruct (e'' <=? emax - prec); reflexivity.
Qed.

Lemma sign_round m e : sign (binary_round prec emax false m e) = false.
Proof.
  unfold binary_round.
  destruct (shl_align m e _) as [mz ez]. apply sign_round_aux.
Qed.

Lemma sign_square d : sign (mul d d) = false.
Proof.
  destruct d as [s|s| |s m e]; cbn; try (destruct s; reflexivity).
  - reflexivity.
  - unfold mul, SFmul. rewrite xorb_nilpotent. apply sign_round_aux.
Qed.

Lemma sign_add x y : sign x = false -> sign y = false -> sign (add x y) = false.
Proof.
  destruct x as [sx|sx| |sx mx ex], y as [sy|sy| |sy my ey]; cbn;
    intros Hx Hy; subst; try reflexivity.
  unfold add, SFadd. cbn [cond_Zopp Z.add binary_normalize].
  apply sign_round.
Qed.

Lemma sign_sqrt x : sign x = false -> sign (sqrt x) = false.
Proof.
  destruct x as [s|s| |s m e]; cbn; intros H; subst; try reflexivity.
  unfold sqrt, SFsqrt.
  destruct (SFsqrt_core_binary prec emax (Zpos m) e) as [[mz ez] lz].
  apply sign_round_aux.
Qed.

(** A distance is not negative: it is not a negative number, nor a
    negative zero or infinity. *)
Lemma sign_distance v1 v2 : sign (Ign.distance v1 v2) = false.
Proof.
  unfold Ign.distance. cbv zeta.
  apply sign_sqrt, sign_add; [apply sign_add|]; apply sign_square.
Qed.

(** The difference of a zero or finite number and itself is zero. *)
Lemma sub_diag x : Slot.finite x = true -> sub x x = zero.
Proof.
  destruct x as [s|s| |s m e]; cbn; intros H; try discriminate H.
  - destruct s; reflexivity.
  - unfold sub, SFsub. rewrite Z.sub_diag. reflexivity.
Qed.

(** The distance of a point with zero or finite coordinates to itself is
    zero. *)
Lemma distance_diag v :
  Slot.finite (Ign.X3 v) = true -> Slot.finite (Ign.Y3 v) = true ->
  Slot.finite (Ign.Z3 v) = true ->
  Ign.distance v v = zero.
Proof.
  intros Hx Hy Hz. unfold Ign.distance. cbv zeta.
  rewrite !sub_diag by assumption. reflexivity.
Qed.

End DistanceFacts.

Section LengthProperties.
Import Py Ign Shape.
Local Open Scope string_scope.
Local Open Scope list_scope.

(** X21.  The length of a capsule or a cylinder that is given by [fromto] is
    never negative (nor a negative zero or infinity), whatever the
    coordinates of the end points. *)
Theorem fromto_length_not_negative :
  forall (geom : Mjcf.Geom) (G : Sdf.Geometry) (r l : F64.float),
    Mjcf.fromto geom <> None ->
    MjcfToSdf.mjcf_geom_to_sdf geom = ret (Some G) ->
    radius_length G = Some (r, l) ->
    F64.sign l = false.
Proof.
  intros geom G r l Hft.
  unfold MjcfToSdf.mjcf_geom_to_sdf, MjcfToSdf.segment_length, Su.list_to_vec3d,
    ret, raise.
  cbv zeta.
  destruct (Mjcf.fromto geom) as [ft|]; [clear Hft | contradiction].
  by_type;
    repeat match goal with
           | |- context [subscript ?x ?i] => destruct (subscript x i); cbn [bind]
           end;
    intros H; try discriminate H; injection H as <-;
    cbn; intros Hrl; try discriminate Hrl; injection Hrl as _ <-;
    apply DistanceFacts.sign_distance.
Qed.

(** X22.  A capsule or a cylinder whose two end points coincide, at zero or
    finite coordinates, is converted to a shape of length zero. *)
Theorem coincident_end_points_zero_length :
  forall (geom : Mjcf.Geom) (r a b c : F64.float) (rest tail : list F64.float),
    (Mjcf.type geom = Some "capsule" \/ Mjcf.type geom = Some "cylinder") ->
    Mjcf.size geom = Some (r :: rest) ->
    Mjcf.fromto geom = Some (a :: b :: c :: a :: b :: c :: tail) ->
    Slot.finite a = true -> Slot.finite b = true -> Slot.finite c = true ->
    exists G,
      MjcfToSdf.mjcf_geom_to_sdf geom = ret (Some G)
      /\ radius_length G = Some (r, F64.zero).
Proof.
  intros geom r a b c rest tail Htype Hsize Hft Ha Hb Hc.
  unfold MjcfToSdf.mjcf_geom_to_sdf, MjcfToSdf.segment_length.
  rewrite Hsize, Hft.
  destruct Htype as [-> | ->]; cbn -[distance]; eexists;
    (split; [reflexivity|]); cbn -[distance];
    rewrite DistanceFacts.distance_diag by assumption; reflexivity.
Qed.

End LengthProperties.

(** ** The further properties at concrete inputs *)

Lemma mjcf_geom_to_sdf_one_shape_witness :
  exists G,
    MjcfToSdf.mjcf_geom_to_sdf Samples.cylinder_geom = Py.ret (Some G)
    /\ Slot.held G = [Sdf.type G]
    /\ Sdf.type G = Sdf.CYLINDER
    /\ Mjcf.type Samples.cylinder_geom = Slot.type_string (Sdf.type G).
Proof.
  eexists. split; [reflexivity|].
  split; [|split; [reflexivity|]].
  - refine (proj1 (@mjcf_geom_to_sdf_one_shape Samples.cylinder_geom _ _)).
    reflexivity.
  - refine (proj2 (@mjcf_geom_to_sdf_one_shape Samples.cylinder_geom _ _)).
    reflexivity.
Defined.

Lemma mjcf_geom_to_sdf_exceptions_witness :
  MjcfToSdf.mjcf_geom_to_sdf Examples.sphere_without_size = Py.raise Py.TypeError
  /\ ((Shape.supported_type (Mjcf.type Examples.sphere_without_size) = false
       /\ Py.TypeError
          = Py.RuntimeError
              ("Encountered unsupported shape type "
                 ++ Py.fmt (Mjcf.type Examples.sphere_without_size)))
      \/ (Shape.supported_type (Mjcf.type Examples.sphere_without_size) = true
          /\ Mjcf.size Examples.sphere_without_size = None
          /\ Py.TypeError = Py.TypeError)
      \/ (Shape.supported_type (Mjcf.type Examples.sphere_without_size) = true
          /\ Mjcf.size Examples.sphere_without_size <> None
          /\ Shape.readable Examples.sphere_without_size = false
          /\ Py.TypeError = Py.IndexError)).
Proof.
  split; [reflexivity|].
  exact (@mjcf_geom_to_sdf_exceptions Examples.sphere_without_size Py.TypeError
           eq_refl eq_refl eq_refl).
Defined.

Lemma add_geometry_first_shape_witness :
  Sdf.type Samples.crowded_geometry = Sdf.SPHERE
  /\ exists h body' geomB,
      SdfToMjcf.add_geometry Examples.quat_to_euler_list Examples.empty_body
        "g" Sdf.identity_pose (Some Samples.crowded_geometry)
      = (Py.ret (Some h), body')
      /\ Mjcf.get_geom body' h = Some geomB
      /\ Mjcf.type geomB = Some "box"%string.
Proof.
  split; [reflexivity|].
  exact (proj1 (@add_geometry_first_shape unit string unit string string
                  Examples.quat_to_euler_list Samples.crowded_geometry
                  Examples.empty_body "g"%string Sdf.identity_pose
                  Sdf.BOX [Sdf.SPHERE; Sdf.MESH] eq_refl
                  ltac:(discriminate))).
Defined.

Lemma sdf_round_trip_identity_witness :
  exists h body' geomB,
    SdfToMjcf.add_geometry Examples.quat_to_euler_list Examples.empty_body
      "cap" Sdf.identity_pose (Some Samples.capsule_geometry)
    = (Py.ret (Some h), body')
    /\ Mjcf.get_geom body' h = Some geomB
    /\ Mjcf.type geomB = Some "capsule"%string
    /\ Mjcf.fromto geomB = None
    /\ MjcfToSdf.mjcf_geom_to_sdf geomB = Py.ret (Some Samples.capsule_geometry).
Proof.
  apply (@sdf_round_trip_identity unit string unit string string
           Examples.quat_to_euler_list Samples.capsule_geometry
           Examples.empty_body "cap"%string Sdf.identity_pose);
    [reflexivity | discriminate | reflexivity].
Defined.

Lemma mjcf_round_trip_size_witness :
  exists GA h body' geomB,
    MjcfToSdf.mjcf_geom_to_sdf Samples.plane_geom = Py.ret (Some GA)
    /\ SdfToMjcf.add_geometry Examples.quat_to_euler_list Examples.empty_body
         "p" Sdf.identity_pose (Some GA)
       = (Py.ret (Some h), body')
    /\ Mjcf.get_geom body' h = Some geomB
    /\ Mjcf.type geomB = Some "plane"%string
    /\ Mjcf.size geomB = Some [F64.one; F64.two; F64.zero].
Proof.
  destruct (@mjcf_round_trip_size unit string unit string string
              Examples.quat_to_euler_list Samples.plane_geom
              Examples.empty_body "p"%string Sdf.identity_pose
              eq_refl eq_refl eq_refl)
    as (GA & h & body' & geomB & size & H1 & H2 & H3 & H4 & H5 & H6).
  exists GA, h, body', geomB.
  split; [exact H1|]. split; [exact H2|]. split; [exact H3|].
  split; [exact H4|].
  injection H5 as <-. exact H6.
Defined.

Lemma fromto_round_trip_loses_end_points_witness :
  exists GA h body' geomB,
    MjcfToSdf.mjcf_geom_to_sdf Examples.slanted_capsule = Py.ret (Some GA)
    /\ SdfToMjcf.add_geometry Examples.quat_to_euler_list Examples.empty_body
         "c" Sdf.identity_pose (Some GA)
       = (Py.ret (Some h), body')
    /\ Mjcf.get_geom body' h = Some geomB
    /\ Mjcf.size geomB = Some [F64.one; F64.div Examples.five F64.two]
    /\ Mjcf.fromto geomB = None.
Proof.
  destruct (@fromto_round_trip_loses_end_points unit string unit string string
              Examples.quat_to_euler_list Examples.slanted_capsule
              Examples.empty_body "c"%string Sdf.identity_pose
              F64.one F64.one F64.one F64.zero Examples.four Examples.five F64.zero
              [] [] (or_introl eq_refl) eq_refl eq_refl)
    as (GA & h & body' & geomB & H1 & H2 & H3 & _ & H5 & H6).
  exists GA, h, body', geomB.
  split; [exact H1|]. split; [exact H2|]. split; [exact H3|].
  split; [|exact H6].
  rewrite H5, ShapeFacts.distance_3_4_5. reflexivity.
Defined.

Lemma add_collision_sets_group_witness :
  exists h g,
    fst (SdfToMjcf.add_collision Examples.quat_to_euler_list Examples.empty_body
           Samples.box_collision Samples.pose_resolver) = Py.ret (Some h)
    /\ Mjcf.get_geom
         (snd (SdfToMjcf.add_collision Examples.quat_to_euler_list
                 Examples.empty_body Samples.box_collision Samples.pose_resolver))
         h
       = Some g
    /\ Mjcf.name g = Some "c1"%string
    /\ Mjcf.type g = Some "box"%string
    /\ Mjcf.group g = Some 3%Z.
Proof.
  destruct (@add_collision_sets_group unit string unit string string
              Examples.quat_to_euler_list Examples.empty_body
              Samples.box_collision
              (Examples.box_geometry F64.two F64.two F64.two)
              Samples.pose_resolver Sdf.identity_pose
              eq_refl eq_refl eq_refl)
    as (h & g & _ & Hg & _ & _ & Hret & _ & Hget).
  exists h, (Mjcf.set_group g 3). split; [exact Hret|]. split; [exact Hget|].
  injection Hret as <-. injection Hg as <-. repeat split.
Defined.

Lemma add_collision_exceptions_witness :
  SdfToMjcf.add_collision Examples.quat_to_euler_list Examples.empty_body
    (Sdf.mkCollision "m" (Some Examples.mesh_geometry)
       (Sdf.mkSemanticPose Sdf.identity_pose ""))
    Samples.pose_resolver
  = (Py.raise (Py.RuntimeError "Meshes are not yet supported"),
     fst (Mjcf.add_geom Examples.empty_body
            (SdfToMjcf.fresh_geom Examples.quat_to_euler_list "m"
               Sdf.identity_pose))).
Proof.
  exact (proj2 (@add_collision_exceptions unit string unit string string
                  Examples.quat_to_euler_list Examples.empty_body
                  (Sdf.mkCollision "m" (Some Examples.mesh_geometry)
                     (Sdf.mkSemanticPose Sdf.identity_pose ""))
                  Samples.pose_resolver)
           Sdf.identity_pose Examples.mesh_geometry eq_refl eq_refl eq_refl).
Defined.

Lemma element_names_unambiguous_witness :
  exists e1 e2,
    fst (MjcfToSdf.call MjcfToSdf.VisualRole Examples.anonymous_sphere
           (MjcfToSdf.mkGlobals 3 0)) = Py.ret (Some e1)
    /\ fst (MjcfToSdf.call MjcfToSdf.VisualRole Examples.anonymous_sphere
              (MjcfToSdf.mkGlobals 3 5)) = Py.ret (Some e2)
    /\ MjcfToSdf.element_name e1 = "unnamed_visual_3"%string
    /\ MjcfToSdf.element_name e2 = "unnamed_visual_3"%string
    /\ Naming.counter MjcfToSdf.VisualRole (MjcfToSdf.mkGlobals 3 0)
       = Naming.counter MjcfToSdf.VisualRole (MjcfToSdf.mkGlobals 3 5).
Proof.
  do 2 eexists. split; [reflexivity|]. split; [reflexivity|].
  split; [reflexivity|]. split; [reflexivity|].
  exact (proj2 (@element_names_unambiguous
                  MjcfToSdf.VisualRole MjcfToSdf.VisualRole
                  Examples.anonymous_sphere Examples.anonymous_sphere
                  (MjcfToSdf.mkGlobals 3 0) (MjcfToSdf.mkGlobals 3 5)
                  _ _ eq_refl eq_refl eq_refl)).
Defined.

Lemma failed_call_leaves_gap_witness :
  Py.returns
    (fst (MjcfToSdf.call MjcfToSdf.VisualRole Samples.anonymous_mesh
            MjcfToSdf.module_load)) = false
  /\ MjcfToSdf.VISUAL_NUMBER
       (snd (MjcfToSdf.call MjcfToSdf.VisualRole Samples.anonymous_mesh
               MjcfToSdf.module_load)) = 1%N
  /\ map Naming.returned_name
       (fst (MjcfToSdf.calls Examples.attachments
               (snd (MjcfToSdf.call MjcfToSdf.VisualRole Samples.anonymous_mesh
                       MjcfToSdf.module_load))))
     = [["unnamed_visual_1"]; ["unnamed_collision_0"]; ["visual_c"]; [];
        ["unnamed_visual_3"]]%string
  /\ forall e,
      In (Py.ret (Some e))
        (fst (MjcfToSdf.calls Examples.attachments
                (snd (MjcfToSdf.call MjcfToSdf.VisualRole Samples.anonymous_mesh
                        MjcfToSdf.module_load)))) ->
      MjcfToSdf.element_name e <> "unnamed_visual_0"%string.
Proof.
  destruct (@failed_call_leaves_gap MjcfToSdf.VisualRole Samples.anonymous_mesh
              MjcfToSdf.module_load Examples.attachments eq_refl eq_refl)
    as (H1 & H2 & H3).
  split; [exact H1|]. split; [exact H2|]. split; [reflexivity | exact H3].
Defined.

Lemma visual_collision_same_geometry_witness :
  exists v c,
    fst (MjcfToSdf.mjcf_visual_to_sdf Examples.slanted_capsule
           MjcfToSdf.module_load) = Py.ret (Some v)
    /\ fst (MjcfToSdf.mjcf_collision_to_sdf Examples.slanted_capsule
              MjcfToSdf.module_load) = Py.ret (Some c)
    /\ Sdf.visual_geometry v = Sdf.collision_geometry c
    /\ Sdf.visual_pose v = Sdf.mkSemanticPose Sdf.identity_pose "".
Proof.
  do 2 eexists. split; [reflexivity|]. split; [reflexivity|].
  destruct (@visual_collision_same_geometry Examples.slanted_capsule
              MjcfToSdf.module_load MjcfToSdf.module_load _ _ eq_refl eq_refl)
    as (_ & Hsame & _ & Hpose & _).
  split; [exact Hsame | exact Hpose].
Defined.

Lemma iterate_bodies_first_rejected_body_witness :
  World.iterate_bodies Examples.apply_modifiers Samples.strict_body_to_sdf
    Examples.mjcf_camera_sensor_to_sdf Examples.add_sensor
    Examples.mjcf_joint_to_sdf Examples.add_fixed_joint tt tt
    [Examples.arm; Examples.ball] (Sdf.new_Model _ _) None
  = Py.raise (Py.RuntimeError "Encountered unsupported shape type mesh").
Proof.
  apply (@iterate_bodies_first_rejected_body unit string unit string string
           unit unit Examples.Link Examples.JointSdf string
           Examples.apply_modifiers Samples.strict_body_to_sdf
           Examples.mjcf_camera_sensor_to_sdf Examples.add_sensor
           Examples.mjcf_joint_to_sdf Examples.add_fixed_joint
           tt tt [Examples.arm; Examples.ball] (Sdf.new_Model _ _) None
           [(None, Examples.arm); (Some "arm"%string, Examples.forearm)] []
           None Examples.ball);
    [reflexivity | repeat constructor | reflexivity].
Defined.

Lemma bodies_without_sdf_joint_witness :
  exists model',
    World.iterate_bodies Examples.apply_modifiers Examples.mjcf_body_to_sdf
      Examples.mjcf_camera_sensor_to_sdf Examples.add_sensor
      Samples.skip_joint_to_sdf Examples.add_fixed_joint tt tt
      [Examples.forearm; Examples.ball] (Sdf.new_Model _ _) None
    = Py.ret model'
    /\ Sdf.joints model' = []
    /\ List.length (Sdf.links model') = 2.
Proof.
  apply (@bodies_without_sdf_joint unit string unit string string
           unit unit Examples.Link Examples.JointSdf string
           Examples.apply_modifiers Examples.mjcf_body_to_sdf
           Examples.mjcf_camera_sensor_to_sdf Examples.add_sensor
           Samples.skip_joint_to_sdf Examples.add_fixed_joint
           tt tt [Examples.forearm; Examples.ball] (Sdf.new_Model _ _) None).
  - repeat constructor.
  - constructor; [right | constructor; [left | constructor]].
    + split; [discriminate | repeat constructor].
    + split; [reflexivity | discriminate].
Defined.

Lemma world_lights_converted_witness :
  exists world',
    World.mjcf_worldbody_to_sdf Examples.MjcfModifiers Examples.apply_modifiers
      Examples.apply_modifiers Examples.mjcf_light_to_sdf Examples.mjcf_body_to_sdf
      Examples.mjcf_camera_sensor_to_sdf Examples.add_sensor
      Examples.mjcf_joint_to_sdf Examples.add_fixed_joint Examples.find_unique_name
      Examples.root tt Examples.empty_world false
    = Py.ret world'
    /\ Sdf.lights world' = ["sun"%string].
Proof.
  eexists. split; [reflexivity|].
  apply (@world_lights_converted unit string unit string string
           unit unit Examples.Link Examples.JointSdf string string
           Examples.MjcfModifiers Examples.apply_modifiers
           Examples.apply_modifiers Examples.mjcf_light_to_sdf
           Examples.mjcf_body_to_sdf Examples.mjcf_camera_sensor_to_sdf
           Examples.add_sensor Examples.mjcf_joint_to_sdf
           Examples.add_fixed_joint Examples.find_unique_name
           Examples.root tt Examples.empty_world _ false).
  reflexivity.
Defined.

Lemma world_vectors_from_option_witness :
  exists world',
    World.mjcf_worldbody_to_sdf Examples.MjcfModifiers Examples.apply_modifiers
      Examples.apply_modifiers Examples.mjcf_light_to_sdf Examples.mjcf_body_to_sdf
      Examples.mjcf_camera_sensor_to_sdf Examples.add_sensor
      Examples.mjcf_joint_to_sdf Examples.add_fixed_joint Examples.find_unique_name
      Samples.windy_root tt Examples.empty_world false
    = Py.ret world'
    /\ Sdf.gravity world' = Ign.mkVector3d F64.zero F64.zero F64.zero
    /\ Sdf.magnetic_field world' = Sdf.magnetic_field Examples.empty_world
    /\ Sdf.wind_linear_velocity world' = Ign.mkVector3d F64.one F64.zero F64.zero.
Proof.
  eexists. split; [reflexivity|].
  apply (@world_vectors_from_option unit string unit string string
           unit unit Examples.Link Examples.JointSdf string string
           Examples.MjcfModifiers Examples.apply_modifiers
           Examples.apply_modifiers Examples.mjcf_light_to_sdf
           Examples.mjcf_body_to_sdf Examples.mjcf_camera_sensor_to_sdf
           Examples.add_sensor Examples.mjcf_joint_to_sdf
           Examples.add_fixed_joint Examples.find_unique_name
           Samples.windy_root tt Examples.empty_world _ false).
  reflexivity.
Defined.

Lemma mjcf_worldbody_to_sdf_returns_iff_witness :
  Py.returns
    (World.mjcf_worldbody_to_sdf Examples.MjcfModifiers Examples.apply_modifiers
       Examples.apply_modifiers Examples.mjcf_light_to_sdf
       Samples.strict_body_to_sdf
       Examples.mjcf_camera_sensor_to_sdf Examples.add_sensor
       Examples.mjcf_joint_to_sdf Examples.add_fixed_joint Examples.find_unique_name
       Examples.root tt Examples.empty_world false) = false
  /\ Py.returns
       (World.mjcf_worldbody_to_sdf Examples.MjcfModifiers Examples.apply_modifiers
          Examples.apply_modifiers Examples.mjcf_light_to_sdf
          Examples.mjcf_body_to_sdf
          Examples.mjcf_camera_sensor_to_sdf Examples.add_sensor
          Examples.mjcf_joint_to_sdf Examples.add_fixed_joint
          Examples.find_unique_name
          Samples.short_wind_root tt Examples.empty_world false) = false.
Proof.
  split.
  - rewrite (proj1 (@mjcf_worldbody_to_sdf_returns_iff
                      unit string unit string string
                      unit unit Examples.Link Examples.JointSdf string string
                      Examples.MjcfModifiers Examples.apply_modifiers
                      Examples.apply_modifiers Examples.mjcf_light_to_sdf
                      Samples.strict_body_to_sdf
                      Examples.mjcf_camera_sensor_to_sdf
                      Examples.add_sensor Examples.mjcf_joint_to_sdf
                      Examples.add_fixed_joint Examples.find_unique_name
                      Examples.root tt Examples.empty_world false)).
    reflexivity.
  - rewrite (proj1 (@mjcf_worldbody_to_sdf_returns_iff
                      unit string unit string string
                      unit unit Examples.Link Examples.JointSdf string string
                      Examples.MjcfModifiers Examples.apply_modifiers
                      Examples.apply_modifiers Examples.mjcf_light_to_sdf
                      Examples.mjcf_body_to_sdf
                      Examples.mjcf_camera_sensor_to_sdf
                      Examples.add_sensor Examples.mjcf_joint_to_sdf
                      Examples.add_fixed_joint Examples.find_unique_name
                      Samples.short_wind_root tt Examples.empty_world false)).
    reflexivity.
Defined.

Lemma fromto_length_not_negative_witness :
  exists G l,
    MjcfToSdf.mjcf_geom_to_sdf Examples.slanted_capsule = Py.ret (Some G)
    /\ Shape.radius_length G = Some (F64.one, l)
    /\ F64.sign l = false.
Proof.
  do 2 eexists. split; [reflexivity|]. split; [reflexivity|].
  eapply (@fromto_length_not_negative Examples.slanted_capsule);
    [discriminate | reflexivity | reflexivity].
Defined.

Lemma coincident_end_points_zero_length_witness :
  exists G,
    MjcfToSdf.mjcf_geom_to_sdf Samples.point_capsule = Py.ret (Some G)
    /\ Shape.radius_length G = Some (F64.one, F64.zero).
Proof.
  apply (@coincident_end_points_zero_length Samples.point_capsule
           F64.one F64.one F64.two Examples.three [] []);
    [left; reflexivity | reflexivity | reflexivity
    | reflexivity | reflexivity | reflexivity].
Defined.
